(** * ai-web-summarizer: scraping fallback, text normalisation and retry

    A shallow embedding of the core of the service:
    - [utils/textProcessor.js]: [cleanText], [extractMetadata], [truncateText];
    - [utils/geminiClient.js]: [retryWithBackoff], [summarizeText],
      [extractKeyPoints];
    - [utils/scraper.js] in its two versions (rendering + lightweight tiers, and
      the lightweight tier alone): [isValidUrl], [scrapeWithPuppeteer],
      [scrapeWithCheerio], [scrapeWebsite].

    JavaScript strings are sequences of UTF-16 code units; asynchronous code is
    written in state-passing style over an external world, and every call that
    leaves the process (browser launch, HTTP GET, model call, timer) is
    recorded in a trace. *)

From Stdlib Require Import List ZArith NArith Bool Lia String Ascii.
From Stdlib Require Decimal.
Import ListNotations.

Set Implicit Arguments.

(* ================================================================== *)
(** * JavaScript strings *)
(* ================================================================== *)

Module Js.

(** A string value is a finite sequence of 16-bit code units; [length] is the
    number of code units. *)
Definition CodeUnit := N.
Definition JsString := list CodeUnit.

(** A source literal (all literals of the program are ASCII). *)
Definition lit (s : string) : JsString :=
  map N_of_ascii (list_ascii_of_string s).

(** [\s] of a regular expression without the [u] flag, and the characters
    [String.prototype.trim] strips: WhiteSpace and LineTerminator. *)
Definition isWhitespace (c : CodeUnit) : bool :=
  ((9 <=? c) && (c <=? 13)           (* TAB LF VT FF CR *)
   || (c =? 32)                      (* SP *)
   || (c =? 160)                     (* NBSP *)
   || (c =? 5760)                    (* U+1680 *)
   || ((8192 <=? c) && (c <=? 8202)) (* U+2000 .. U+200A *)
   || (c =? 8232) || (c =? 8233)     (* LS PS *)
   || (c =? 8239) || (c =? 8287)     (* U+202F U+205F *)
   || (c =? 12288)                   (* U+3000 *)
   || (c =? 65279))%N.               (* U+FEFF *)

(** [\w]: [A-Za-z0-9_]. *)
Definition isWord (c : CodeUnit) : bool :=
  ((65 <=? c) && (c <=? 90)
   || ((97 <=? c) && (c <=? 122))
   || ((48 <=? c) && (c <=? 57))
   || (c =? 95))%N.

Definition space : CodeUnit := 32%N.

(** [s.replace(/\s+/g, ' ')]: every maximal run of whitespace becomes one
    space.  [inRun] tells that the previous code unit belonged to the run
    already replaced. *)
Fixpoint replaceRuns (inRun : bool) (s : JsString) : JsString :=
  match s with
  | [] => []
  | c :: s' =>
      if isWhitespace c
      then (if inRun then replaceRuns true s' else space :: replaceRuns true s')
      else c :: replaceRuns false s'
  end.

Definition collapseWhitespace (s : JsString) : JsString := replaceRuns false s.

Fixpoint dropWhile (p : CodeUnit -> bool) (s : JsString) : JsString :=
  match s with
  | [] => []
  | c :: s' => if p c then dropWhile p s' else s
  end.

(** [s.trim()]. *)
Definition trim (s : JsString) : JsString :=
  rev (dropWhile isWhitespace (rev (dropWhile isWhitespace s))).

(** [s.substring(0, n)]: a negative (or NaN) end is taken as 0, an end
    beyond the string as its length. *)
Definition substring0 (s : JsString) (n : Z) : JsString :=
  firstn (Z.to_nat n) s.

(** [s.split(/[cls]+/)] for a character class [cls]: the pieces between the
    maximal runs of [cls].  [cur] holds the piece being read, reversed;
    [inRun] tells that the previous code unit belonged to a separator.  A
    separator at the start or at the end leaves an empty piece there, and
    the empty string splits into one empty piece. *)
Fixpoint splitRuns (cls : CodeUnit -> bool) (cur : JsString) (inRun : bool)
         (s : JsString) : list JsString :=
  match s with
  | [] => [rev cur]
  | c :: s' =>
      if cls c
      then (if inRun then splitRuns cls [] true s'
            else rev cur :: splitRuns cls [] true s')
      else splitRuns cls (c :: cur) false s'
  end.

Definition split (cls : CodeUnit -> bool) (s : JsString) : list JsString :=
  splitRuns cls [] false s.

Fixpoint isPrefix (p s : JsString) : bool :=
  match p, s with
  | [], _ => true
  | _ :: _, [] => false
  | a :: p', b :: s' => (a =? b)%N && isPrefix p' s'
  end.

(** [s.includes(p)]. *)
Fixpoint includes (s p : JsString) : bool :=
  isPrefix p s ||
  match s with
  | [] => false
  | _ :: s' => includes s' p
  end.

Fixpoint eqb (s t : JsString) : bool :=
  match s, t with
  | [], [] => true
  | a :: s', b :: t' => (a =? b)%N && eqb s' t'
  | _, _ => false
  end.

(** Decimal digits, most significant first. *)
Fixpoint uintDigits (d : Decimal.uint) : JsString :=
  match d with
  | Decimal.Nil => []
  | Decimal.D0 d => 48%N :: uintDigits d
  | Decimal.D1 d => 49%N :: uintDigits d
  | Decimal.D2 d => 50%N :: uintDigits d
  | Decimal.D3 d => 51%N :: uintDigits d
  | Decimal.D4 d => 52%N :: uintDigits d
  | Decimal.D5 d => 53%N :: uintDigits d
  | Decimal.D6 d => 54%N :: uintDigits d
  | Decimal.D7 d => 55%N :: uintDigits d
  | Decimal.D8 d => 56%N :: uintDigits d
  | Decimal.D9 d => 57%N :: uintDigits d
  end.

(** [String(n)] for a non-negative integer [n]. *)
Definition numberToString (n : N) : JsString := uintDigits (N.to_uint n).

(** [String(z)] for an integer [z]. *)
Definition integerToString (z : Z) : JsString :=
  if (z <? 0)%Z then 45%N :: numberToString (Z.to_N (- z))
  else numberToString (Z.to_N z).

(** The last [width] decimal digits of [n], zero-padded. *)
Fixpoint zeroPad (width : nat) (n : N) : JsString :=
  match width with
  | O => []
  | S w => zeroPad w (n / 10) ++ [(48 + n mod 10)%N]
  end.

(** A string is truthy iff it is not empty. *)
Definition truthy (s : JsString) : bool :=
  match s with
  | [] => false
  | _ :: _ => true
  end.

(** [a || b] on strings. *)
Definition orElse (a b : JsString) : JsString :=
  match a with
  | [] => b
  | _ :: _ => a
  end.

(** [Date.prototype.toISOString] of a time value [t] (milliseconds since
    the epoch, UTC): [YYYY-MM-DDTHH:mm:ss.sssZ], the year written with a
    sign and six digits outside 0..9999. *)
Definition civilFromDays (z : Z) : Z * Z * Z :=
  let z := (z + 719468)%Z in
  let era := (z / 146097)%Z in
  let doe := (z - era * 146097)%Z in
  let yoe := ((doe - doe / 1460 + doe / 36524 - doe / 146096) / 365)%Z in
  let doy := (doe - (365 * yoe + yoe / 4 - yoe / 100))%Z in
  let mp := ((5 * doy + 2) / 153)%Z in
  let d := (doy - (153 * mp + 2) / 5 + 1)%Z in
  let m := (if mp <? 10 then mp + 3 else mp - 9)%Z in
  let y := (yoe + era * 400 + (if m <=? 2 then 1 else 0))%Z in
  (y, m, d).

Definition formatYear (y : Z) : JsString :=
  if ((0 <=? y) && (y <=? 9999))%Z then zeroPad 4 (Z.to_N y)
  else (if (y <? 0)%Z then lit "-" else lit "+") ++ zeroPad 6 (Z.to_N (Z.abs y)).

Definition toISOString (t : Z) : JsString :=
  let day := (t / 86400000)%Z in
  let ms := (t mod 86400000)%Z in
  let '(y, m, d) := civilFromDays day in
  formatYear y ++ lit "-" ++ zeroPad 2 (Z.to_N m) ++ lit "-" ++ zeroPad 2 (Z.to_N d)
    ++ lit "T" ++ zeroPad 2 (Z.to_N (ms / 3600000))
    ++ lit ":" ++ zeroPad 2 (Z.to_N (ms / 60000 mod 60))
    ++ lit ":" ++ zeroPad 2 (Z.to_N (ms / 1000 mod 60))
    ++ lit "." ++ zeroPad 3 (Z.to_N (ms mod 1000))
    ++ lit "Z".

(** The time values a [Date] can hold: at most 8.64e15 ms on either side of
    the epoch.  [new Date()] always holds one, and [toISOString] is defined on
    these only (it throws a RangeError on an invalid date). *)
Definition validTime (t : Z) : Prop :=
  (-8640000000000000 <= t <= 8640000000000000)%Z.

(** The calendar read backwards, to show that [toISOString] loses nothing of
    a valid time value.  [civilOfEra] is [civilFromDays] from the day of the
    era on, [daysFromCivil] its inverse, and [allDaysOk] checks the round trip
    on the days of one era of 400 years. *)
Definition civilOfEra (era doe : Z) : Z * Z * Z :=
  let yoe := ((doe - doe / 1460 + doe / 36524 - doe / 146096) / 365)%Z in
  let doy := (doe - (365 * yoe + yoe / 4 - yoe / 100))%Z in
  let mp := ((5 * doy + 2) / 153)%Z in
  let d := (doy - (153 * mp + 2) / 5 + 1)%Z in
  let m := (if mp <? 10 then mp + 3 else mp - 9)%Z in
  let y := (yoe + era * 400 + (if m <=? 2 then 1 else 0))%Z in
  (y, m, d).

Definition dayOfEra (yoe m d : Z) : Z :=
  let mp := (if 2 <? m then m - 3 else m + 9)%Z in
  let doy := ((153 * mp + 2) / 5 + d - 1)%Z in
  (yoe * 365 + yoe / 4 - yoe / 100 + doy)%Z.

Definition daysFromCivil (y m d : Z) : Z :=
  let y' := (y - (if m <=? 2 then 1 else 0))%Z in
  let era := (y' / 400)%Z in
  (era * 146097 + dayOfEra (y' - era * 400) m d - 719468)%Z.

Definition dayOfEraOk (doe : Z) : bool :=
  let '(y, m, d) := civilOfEra 0 doe in
  let yoe := (y - (if m <=? 2 then 1 else 0))%Z in
  ((0 <=? yoe) && (yoe <=? 399) && (1 <=? m) && (m <=? 12)
   && (1 <=? d) && (d <=? 31) && (dayOfEra yoe m d =? doe))%Z.

Fixpoint allDaysOk (n : nat) (doe : Z) : bool :=
  match n with
  | O => true
  | S n' => dayOfEraOk doe && allDaysOk n' (doe + 1)
  end.

(** What [toISOString] writes after the year. *)
Definition isoTail (m d hh mi ss ms : Z) : JsString :=
  lit "-" ++ zeroPad 2 (Z.to_N m) ++ lit "-" ++ zeroPad 2 (Z.to_N d)
    ++ lit "T" ++ zeroPad 2 (Z.to_N hh)
    ++ lit ":" ++ zeroPad 2 (Z.to_N mi)
    ++ lit ":" ++ zeroPad 2 (Z.to_N ss)
    ++ lit "." ++ zeroPad 3 (Z.to_N ms)
    ++ lit "Z".

(** The string holds a run of two or more whitespace code units. *)
Fixpoint hasWhitespaceRun (s : JsString) : bool :=
  match s with
  | a :: (b :: _) as s' => (isWhitespace a && isWhitespace b) || hasWhitespaceRun s'
  | _ => false
  end.

(** No two neighbours of [s] are both whitespace. *)
Definition NoRun (s : JsString) : Prop :=
  forall pre a b post, s = pre ++ a :: b :: post ->
                       isWhitespace a && isWhitespace b = false.

(** [s] neither starts nor ends with whitespace. *)
Definition Trimmed (s : JsString) : Prop :=
  (forall c rest, s = c :: rest -> isWhitespace c = false)
  /\ (forall c pre, s = pre ++ [c] -> isWhitespace c = false).

(** The only whitespace [s] holds is U+0020. *)
Definition OnlySpaces (s : JsString) : Prop :=
  Forall (fun c => isWhitespace c = true -> c = space) s.

End Js.

Import Js.

(* ================================================================== *)
(** * utils/textProcessor.js *)
(* ================================================================== *)

Module TextProcessor.

(** The second [replace] of [cleanText] deletes every code unit outside
    [\w], [\s] and the punctuation [. , ! ? ; : ( ) -], the apostrophe and
    the double quote (code unit 34). *)
Definition keptByCleanText (c : CodeUnit) : bool :=
  isWord c || isWhitespace c
  || existsb (N.eqb c) (lit ".,!?;:()-'" ++ [34%N]).

(** [cleanText(text)]: [!text] holds of the empty string only. *)
Definition cleanText (text : JsString) : JsString :=
  match text with
  | [] => []
  | _ :: _ =>
      let cleaned := collapseWhitespace text in
      let cleaned := filter keptByCleanText cleaned in
      trim cleaned
  end.

Record Metadata := mkMetadata
  { wordCount : nat;
    sentenceCount : nat;
    characterCount : nat;
    readingTime : JsString;
    timestamp : JsString }.

Definition isSentenceEnd (c : CodeUnit) : bool :=
  existsb (N.eqb c) (lit ".!?").

(** [Math.max(1, Math.round(n / 200))] for an array length [n]:
    [Math.round] rounds halves up, so it is the floor of [(n + 100) / 200]. *)
Definition readingMinutes (n : nat) : N :=
  N.max 1 ((N.of_nat n + 100) / 200).

(** [extractMetadata(text)].  [now] is the time value [new Date()] reads
    from the system clock at the call. *)
Definition extractMetadata (now : Z) (text : JsString) : Metadata :=
  let words := split isWhitespace text in
  let sentences :=
    filter (fun s => (0 <? List.length (trim s))%nat) (split isSentenceEnd text) in
  let characters := List.length text in
  let readingTime := readingMinutes (List.length words) in
  {| wordCount := List.length words;
     sentenceCount := List.length sentences;
     characterCount := characters;
     readingTime := numberToString readingTime ++ lit " min read";
     timestamp := toISOString now |}.

(** [truncateText(text, maxLength = 5000)]. *)
Definition truncateText (text : JsString) (maxLength : Z) : JsString :=
  if (Z.of_nat (List.length text) <=? maxLength)%Z then text
  else substring0 text maxLength ++ lit "...".

Definition truncateTextDefault (text : JsString) : JsString :=
  truncateText text 5000.

(** A text in the normal form [cleanText] aims at: allowed code units only,
    words separated by single spaces, nothing around them. *)
Definition Normalized (s : JsString) : Prop :=
  Forall (fun c => keptByCleanText c = true) s
  /\ OnlySpaces s /\ NoRun s /\ Trimmed s.

End TextProcessor.

Import TextProcessor.

(* ================================================================== *)
(** * Asynchronous code: state passing with a trace *)
(* ================================================================== *)

Module Async.

(** An [async] function is a state transformer over the world outside the
    process and the trace of what it was asked to do. *)
Definition IO (World Event A : Type) : Type :=
  World * list Event -> A * (World * list Event).

Definition ret {W E A} (a : A) : IO W E A := fun s => (a, s).

Definition bind {W E A B} (m : IO W E A) (k : A -> IO W E B) : IO W E B :=
  fun s => let (a, s') := m s in k a s'.

(** Records an event. *)
Definition emit {W E} (e : E) : IO W E unit :=
  fun s => (tt, (fst s, snd s ++ [e])).

(** Runs a step of the outside world. *)
Definition external {W E A} (step : W -> A * W) : IO W E A :=
  fun s => let (a, w') := step (fst s) in (a, (w', snd s)).

(** The result of an [await]: a value, or a thrown exception. *)
Inductive Completion (Exn A : Type) : Type :=
  | Return (a : A)
  | Throw (e : Exn).
Arguments Return {Exn A} a.
Arguments Throw {Exn A} e.

Definition result {W E A} (m : IO W E A) (w : W) : A := fst (m (w, [])).
Definition world {W E A} (m : IO W E A) (w : W) : W := fst (snd (m (w, []))).
Definition trace {W E A} (m : IO W E A) (w : W) : list E := snd (snd (m (w, []))).

(** Runs [m] as a part of a larger computation whose events are more
    varied: what [m] records is appended, tagged by [f]. *)
Definition relabel {W E E' A} (f : E -> E') (m : IO W E A) : IO W E' A :=
  fun s => let '(a, (w', tr)) := m (fst s, []) in (a, (w', snd s ++ map f tr)).

End Async.

Import Async.

Declare Scope io_scope.
Delimit Scope io_scope with io.
Notation "x <- m ;; k" := (bind m (fun x => k))
  (at level 100, m at next level, right associativity) : io_scope.
Notation "m ;; k" := (bind m (fun _ => k))
  (at level 100, right associativity) : io_scope.

(* ================================================================== *)
(** * utils/geminiClient.js *)
(* ================================================================== *)

Module GeminiClient.

(** An [Error] object, as the generative client throws them. *)
Record Error := mkError { message : JsString }.

(** What [model.generateContent] resolves to: [result.response.text()]
    returns the generated text, or throws (a blocked candidate). *)
Record GenerateResult := mkResult { responseText : Completion Error JsString }.

Inductive Event :=
  | Invoke (arg : JsString)  (* model.generateContent(arg) is called *)
  | Sleep (ms : Z).             (* setTimeout(resolve, ms) is awaited *)

(** [{ success, text, error }]; a field that is not set is [None]. *)
Record SummaryResult := mkSummary
  { success : bool;
    text : option JsString;
    error : option JsString }.

(** [error.message && (error.message.includes('429') ||
    error.message.includes('RESOURCE_EXHAUSTED'))]. *)
Definition isRateLimit (e : Error) : bool :=
  match message e with
  | [] => false
  | _ :: _ =>
      includes (message e) (lit "429")
      || includes (message e) (lit "RESOURCE_EXHAUSTED")
  end.

(** [Math.min(1000 * Math.pow(2, i), 10000)]. *)
Definition backoffDelay (i : Z) : Z := Z.min (1000 * 2 ^ i) 10000.

Definition summaryPrompt (truncatedText : JsString) : JsString :=
  lit "You are an expert content summarizer. Analyze and summarize the following web content in a clear, well-structured format.

CONTENT:
" ++ truncatedText ++ lit "

INSTRUCTIONS:
- Provide a comprehensive summary that captures the main ideas
- Use clear paragraphs and bullet points where appropriate
- Maintain the key information and context
- Write in a professional yet accessible tone
- Keep the summary concise but informative (aim for 200-400 words)

Provide your summary now:".

Definition keyPointsPrompt (truncatedText : JsString) : JsString :=
  lit "Extract the 5-7 most important key points from this content. Return them as a numbered list.

CONTENT:
" ++ truncatedText ++ lit "

Provide only the key points in this format:
1. [First key point]
2. [Second key point]
...".

Section Client.

(** The state of the remote service. *)
Variable Upstream : Type.

Local Abbreviation IO := (Async.IO Upstream Event).

Section Retry.

Variable A : Type.
(** The wrapped operation [fn]. *)
Variable fn : IO (Completion Error A).

(** The body of [for (let i = 0; i < maxRetries; i++)], with
    [remaining] iterations left from index [i] on.  [lastError] is
    [None] while it is [undefined]. *)
Fixpoint retryLoop (remaining : nat) (i : Z) (lastError : option Error)
  : IO (Completion (option Error) A) :=
  match remaining with
  | O => ret (Throw lastError)
  | S remaining' =>
      (r <- fn ;;
       match r with
       | Return a => ret (Return a)
       | Throw error =>
           if isRateLimit error
           then (emit (Sleep (backoffDelay i)) ;;
                 retryLoop remaining' (i + 1) (Some error))
           else ret (Throw (Some error))
       end)%io
  end.

(** [retryWithBackoff(fn, maxRetries = 3)]. *)
Definition retryWithBackoff (maxRetries : Z) : IO (Completion (option Error) A) :=
  retryLoop (Z.to_nat maxRetries) 0 None.

End Retry.

(** A call of an operation of the remote service, recorded with the
    argument it is given. *)
Definition invoke (A : Type) (arg : JsString)
       (op : Upstream -> Completion Error A * Upstream) : IO (Completion Error A) :=
  (emit (Invoke arg) ;; external op)%io.

(** [model.generateContent], a step of the remote service. *)
Variable generateContent :
  JsString -> Upstream -> Completion Error GenerateResult * Upstream.

(** [async () => await model.generateContent(prompt)]. *)
Definition callModel (prompt : JsString) : IO (Completion Error GenerateResult) :=
  invoke prompt (generateContent prompt).

(** The [try] block of both operations up to [response.text()]. *)
Definition generateText (prompt : JsString) : IO (Completion (option Error) JsString) :=
  (r <- retryWithBackoff (callModel prompt) 3 ;;
   match r with
   | Throw e => ret (Throw e)
   | Return result =>
       match responseText result with
       | Return t => ret (Return t)
       | Throw e => ret (Throw (Some e))
       end
   end)%io.

(** The [catch (error)] blocks read [error.message]; on [undefined] that
    read throws a [TypeError] out of the function. *)
Definition typeError : Error :=
  mkError (lit "Cannot read properties of undefined (reading 'message')").

(** [summarizeText(text)]. *)
Definition summarizeText (text : JsString) : IO (Completion Error SummaryResult) :=
  (let maxLength := 8000%Z in
   let truncatedText := substring0 text maxLength in
   r <- generateText (summaryPrompt truncatedText) ;;
   match r with
   | Return summary =>
       ret (Return {| success := true; text := Some summary; error := None |})
   | Throw (Some error) =>
       ret (Return {| success := false; text := None;
                      error := Some (orElse (message error)
                                            (lit "Failed to generate summary")) |})
   | Throw None => ret (Throw typeError)
   end)%io.

(** [extractKeyPoints(text)]. *)
Definition extractKeyPoints (text : JsString) : IO (Completion Error SummaryResult) :=
  (let maxLength := 6000%Z in
   let truncatedText := substring0 text maxLength in
   r <- generateText (keyPointsPrompt truncatedText) ;;
   match r with
   | Return keyPoints =>
       ret (Return {| success := true; text := Some keyPoints; error := None |})
   | Throw (Some error) =>
       ret (Return {| success := false; text := Some [];
                      error := Some (message error) |})
   | Throw None => ret (Throw typeError)
   end)%io.

End Client.

(** The trace of a rate-limited attempt at loop index [j]: the call, then
    the backoff delay. *)
Definition attempt (arg : JsString) (j : nat) : list Event :=
  [Invoke arg; Sleep (Z.min (1000 * 2 ^ Z.of_nat j) 10000)].

(** The trace of [k] rate-limited attempts in a row from loop index [i] on. *)
Definition schedule (arg : JsString) (i k : nat) : list Event :=
  flat_map (attempt arg) (seq i k).

(** The number of calls and the time slept, in ms, that a trace records. *)
Definition calls (tr : list Event) : nat :=
  List.length (filter (fun e => match e with Invoke _ => true | Sleep _ => false end) tr).

Fixpoint slept (tr : list Event) : Z :=
  match tr with
  | [] => 0
  | Invoke _ :: tr' => slept tr'
  | Sleep ms :: tr' => ms + slept tr'
  end.

End GeminiClient.

(* ================================================================== *)
(** * utils/scraper.js *)
(* ================================================================== *)

Module Dom.

(** The double quote of the attribute selectors. *)
Definition dq : string := String (ascii_of_nat 34) EmptyString.

(** A [URL] object, as far as the program reads it. *)
Record URL := mkURL { protocol : JsString }.

(** An element of the rendered page; [innerText] is [undefined] on an element
    that is not an HTML element. *)
Record Element := mkElement { innerText : option JsString }.

(** The page in the browser after the unwanted elements were removed:
    [document.querySelector], and [document.body.innerText] ([None] when
    [document.body] is [null]). *)
Record RenderedPage := mkPage
  { pageTitle : JsString;
    querySelector : string -> option Element;
    bodyInnerText : option JsString }.

(** The document [cheerio.load(response.data)] after
    [$('script, style, ...').remove()]: [select sel] lists the text content of
    the elements that match [sel], in document order. *)
Record CheerioDoc := mkDoc { select : string -> list JsString }.

(** [$(sel).length], [$(sel).text()] and [$(sel).first().text()]. *)
Definition selLength (d : CheerioDoc) (sel : string) : nat := List.length (select d sel).
Definition selText (d : CheerioDoc) (sel : string) : JsString := List.concat (select d sel).
Definition selFirstText (d : CheerioDoc) (sel : string) : JsString :=
  match select d sel with
  | [] => []
  | t :: _ => t
  end.

(** The response of [axios.get]. *)
Record Response := mkResponse { status : Z; dom : CheerioDoc }.

(** The object a fetcher returns on success. *)
Record Scraped := mkScraped
  { success : bool;
    title : JsString;
    text : JsString;
    wordCount : nat;
    method : JsString }.

(** What [scrapeWebsite] returns: a scraped page, or [{ error }]. *)
Inductive ScrapeResult :=
| Content (r : Scraped)
| Failed (error : JsString).

Inductive Event :=
| LaunchBrowser (url : JsString)  (* puppeteer.launch, page.goto(url) *)
| HttpGet (url : JsString).       (* axios.get(url) *)

(** [text.replace(/\s+/g, ' ').trim().substring(0, maxTextLength)]. *)
Definition cleanAndLimit (text : JsString) (maxTextLength : Z) : JsString :=
  substring0 (trim (collapseWhitespace text)) maxTextLength.

(** The [for (const selector of contentSelectors)] loop of the lightweight
    fetcher; [text] is the longest text seen so far. *)
Fixpoint longestText (d : CheerioDoc) (selectors : list string) (text : JsString)
  : JsString :=
  match selectors with
  | [] => text
  | selector :: rest =>
      if (0 <? selLength d selector)%nat
      then
        let extractedText := selText d selector in
        if (List.length text <? List.length extractedText)%nat
        then longestText d rest extractedText
        else longestText d rest text
      else longestText d rest text
  end.

Definition contentSelectors : list string :=
  [ "article"; "main"; "[role=" ++ dq ++ "main" ++ dq ++ "]"; ".content";
    ".post-content"; ".article-content"; ".entry-content"; "#main-content";
    "body" ]%string.

(** [$('title').text().trim() || $('h1').first().text().trim() || 'No Title']. *)
Definition cheerioTitle (d : CheerioDoc) : JsString :=
  orElse (trim (selText d "title"))
         (orElse (trim (selFirstText d "h1")) (lit "No Title")).

(** The part of [scrapeWithCheerio] after the status check: [None] is
    [return null]. *)
Definition extractWithCheerio (d : CheerioDoc) (maxTextLength : Z) : option Scraped :=
  let title := cheerioTitle d in
  let text := longestText d contentSelectors [] in
  let text := cleanAndLimit text maxTextLength in
  if (100 <? List.length text)%nat
  then Some {| success := true;
               title := title;
               text := text;
               wordCount := List.length (split isWhitespace text);
               method := lit "cheerio" |}
  else None.

(** What every object the fetchers return satisfies. *)
Definition WellFormed (maxTextLength : Z) (r : Scraped) : Prop :=
  success r = true
  /\ title r <> []
  /\ 100 < List.length (text r)
  /\ (Z.of_nat (List.length (text r)) <= maxTextLength)%Z
  /\ hasWhitespaceRun (text r) = false
  /\ (forall c rest, text r = c :: rest -> isWhitespace c = false)
  /\ wordCount r = List.length (split isWhitespace (text r))
  /\ 1 <= wordCount r.

Definition invalidUrlError : JsString :=
  lit "Invalid URL format. Please include http:// or https://".

Section Validator.

(** [new URL(url)]: [None] when the constructor throws. *)
Variable parseURL : JsString -> option URL.

(** [isValidUrl(url)], the same function in both versions of the file. *)
Definition isValidUrl (url : JsString) : bool :=
  match parseURL url with
  | Some urlObj =>
      eqb (protocol urlObj) (lit "http:") || eqb (protocol urlObj) (lit "https:")
  | None => false
  end.

End Validator.

End Dom.

Import Dom.

(** The version with the rendering tier. *)
Module StealthScraper.

Definition mainSelectors : list string :=
  [ "main"; "article"; "[role=" ++ dq ++ "main" ++ dq ++ "]"; ".content";
    ".main-content"; "#content"; "body" ]%string.

(** The [for (const selector of mainSelectors)] loop inside [page.evaluate]:
    [Some t] when the loop returns [t]. *)
Fixpoint firstLongEnough (p : RenderedPage) (selectors : list string)
  : option JsString :=
  match selectors with
  | [] => None
  | selector :: rest =>
      match querySelector p selector with
      | Some element =>
          match innerText element with
          | Some t =>
              if truthy t && (200 <? List.length t)%nat then Some t
              else firstLongEnough p rest
          | None => firstLongEnough p rest
          end
      | None => firstLongEnough p rest
      end
  end.

(** The text-extraction [page.evaluate]: [None] when it throws because
    [document.body] is [null]. *)
Definition extractMainText (p : RenderedPage) : option JsString :=
  match firstLongEnough p mainSelectors with
  | Some t => Some t
  | None => bodyInnerText p
  end.

(** The part of [scrapeWithPuppeteer] from the text extraction on: [None] is
    [return null], reached by the [catch] or by a text that is too short. *)
Definition extractRendered (page : RenderedPage) (maxTextLength : Z) : option Scraped :=
  match extractMainText page with
  | None => None
  | Some text =>
      let cleanedText := cleanAndLimit text maxTextLength in
      if (100 <? List.length cleanedText)%nat
      then Some {| success := true;
                   title := orElse (pageTitle page) (lit "Extracted Content");
                   text := cleanedText;
                   wordCount := List.length (split isWhitespace cleanedText);
                   method := lit "puppeteer-stealth" |}
      else None
  end.

(** The inner text of the first element that matches [sel], when it is longer
    than 200 code units. *)
Definition longInnerText (p : RenderedPage) (sel : string) : option JsString :=
  match querySelector p sel with
  | Some element =>
      match innerText element with
      | Some t => if (200 <? List.length t)%nat then Some t else None
      | None => None
      end
  | None => None
  end.

Definition allFailedError : JsString :=
  lit "Could not extract content from this URL. The site likely uses advanced anti-bot protection (Cloudflare, PerimeterX, etc.) or requires authentication. Protected sites like LeetCode, LinkedIn, and Twitter may block automated access.".

Section Scraper.

Variable World : Type.
Variable parseURL : JsString -> option URL.

(** [SCRAPER_CONFIG.maxTextLength]: [parseInt(process.env.MAX_TEXT_LENGTH) ||
    10000]. *)
Variable maxTextLength : Z.

(** The browser session of [scrapeWithPuppeteer], from [puppeteer.launch] to
    [browser.close()]: [None] when one of its steps throws, else the page as
    the extraction step finds it. *)
Variable render : JsString -> World -> option RenderedPage * World.

(** [axios.get(url, ...)]: [None] when the request throws before a response
    is accepted or refused by [validateStatus]. *)
Variable httpGet : JsString -> World -> option Response * World.

Local Abbreviation IO := (Async.IO World Event).

(** [scrapeWithPuppeteer(url)]; [None] is [null]. *)
Definition scrapeWithPuppeteer (url : JsString) : IO (option Scraped) :=
  (emit (LaunchBrowser url) ;;
   session <- external (render url) ;;
   match session with
   | None => ret None
   | Some page => ret (extractRendered page maxTextLength)
   end)%io.

(** [validateStatus: (status) => status < 500]. *)
Definition validateStatus (status : Z) : bool := (status <? 500)%Z.

(** [scrapeWithCheerio(url)]. *)
Definition scrapeWithCheerio (url : JsString) : IO (option Scraped) :=
  (emit (HttpGet url) ;;
   r <- external (httpGet url) ;;
   match r with
   | None => ret None
   | Some response =>
       if negb (validateStatus (status response)) then ret None
       else if ((status response =? 403) || (status response =? 429))%Z then ret None
       else ret (extractWithCheerio (dom response) maxTextLength)
   end)%io.

(** [scrapeWebsite(url)]. *)
Definition scrapeWebsite (url : JsString) : IO ScrapeResult :=
  if negb (isValidUrl parseURL url) then ret (Failed invalidUrlError)
  else
    (result <- scrapeWithPuppeteer url ;;
     match result with
     | Some r => ret (Content r)
     | None =>
         result <- scrapeWithCheerio url ;;
         match result with
         | Some r => ret (Content r)
         | None => ret (Failed allFailedError)
         end
     end)%io.

End Scraper.

End StealthScraper.

(** The version with the lightweight tier alone. *)
Module Scraper.

Definition maxTextLength : Z := 10000.

Definition scrapeFailedError : JsString :=
  lit "Could not extract content from this URL. The site may have anti-scraping protection or require JavaScript rendering.".

Section Scraper.

Variable World : Type.
Variable parseURL : JsString -> option URL.
Variable httpGet : JsString -> World -> option Response * World.

Local Abbreviation IO := (Async.IO World Event).

(** The default [validateStatus] of axios. *)
Definition validateStatus (status : Z) : bool :=
  ((200 <=? status) && (status <? 300))%Z.

(** [scrapeWithCheerio(url)]. *)
Definition scrapeWithCheerio (url : JsString) : IO (option Scraped) :=
  (emit (HttpGet url) ;;
   r <- external (httpGet url) ;;
   match r with
   | None => ret None
   | Some response =>
       if negb (validateStatus (status response)) then ret None
       else if ((status response =? 403) || (status response =? 429))%Z then ret None
       else ret (extractWithCheerio (dom response) maxTextLength)
   end)%io.

(** [scrapeWebsite(url)]. *)
Definition scrapeWebsite (url : JsString) : IO ScrapeResult :=
  if negb (isValidUrl parseURL url) then ret (Failed invalidUrlError)
  else
    (result <- scrapeWithCheerio url ;;
     match result with
     | Some r => ret (Content r)
     | None => ret (Failed scrapeFailedError)
     end)%io.

End Scraper.

End Scraper.

(* ================================================================== *)
(** * server.js: the handler of POST /api/summarize *)
(* ================================================================== *)

Module Server.

(** [process.env], as far as the handler reads it. *)
Record Env := mkEnv
  { GEMINI_API_KEY : option JsString;
    NODE_ENV : option JsString }.

(** The parsed body of the request: the [url] field when it is a string,
    [None] when the body has none ([undefined] or [null]).  The request
    itself has no body ([req.body] is [undefined]) when [requestBody] is
    [None]. *)
Record Body := mkBody { url : option JsString }.
Record Request := mkRequest { requestBody : option Body }.

(** The [metadata] object of the response. *)
Record ResponseMetadata := mkResponseMetadata
  { wordCount : nat;
    sentenceCount : nat;
    characterCount : nat;
    readingTime : JsString;
    scrapingMethod : option JsString;
    processingTime : JsString;
    timestamp : JsString }.

(** The JSON the handler sends; a field that is [undefined] is [None]. *)
Inductive Json :=
| ErrorJson (error code : JsString) (message : option JsString)
| SummaryJson (success : bool) (title : option JsString) (summary : option JsString)
              (keyPoints : JsString) (metadata : ResponseMetadata).

(** [res.status(statusCode).json(json)]; [res.json] alone sends 200. *)
Record HttpResponse := mkHttpResponse { statusCode : Z; json : Json }.

Inductive Event :=
| Scraping (e : Dom.Event)
| Model (e : GeminiClient.Event).

(** The truth value of a field that holds a string or is [undefined]. *)
Definition present (field : option JsString) : bool :=
  match field with
  | Some s => truthy s
  | None => false
  end.

(** [field || ''] for such a field. *)
Definition orEmpty (field : option JsString) : JsString :=
  match field with
  | Some s => s
  | None => []
  end.

(** [scraped.error], [scraped.text], [scraped.title] and [scraped.method]. *)
Definition scrapedError (scraped : ScrapeResult) : option JsString :=
  match scraped with
  | Failed e => Some e
  | Content _ => None
  end.

Definition scrapedText (scraped : ScrapeResult) : option JsString :=
  match scraped with
  | Content r => Some (Dom.text r)
  | Failed _ => None
  end.

Definition scrapedTitle (scraped : ScrapeResult) : option JsString :=
  match scraped with
  | Content r => Some (Dom.title r)
  | Failed _ => None
  end.

Definition scrapedMethod (scraped : ScrapeResult) : option JsString :=
  match scraped with
  | Content r => Some (Dom.method r)
  | Failed _ => None
  end.

(** [cleanText] on a field: [!text] holds of [undefined] too. *)
Definition cleanTextOf (field : option JsString) : JsString :=
  match field with
  | Some t => cleanText t
  | None => []
  end.

(** What reading [url] off a request without body throws. *)
Definition noBodyError : GeminiClient.Error :=
  GeminiClient.mkError
    (lit "Cannot destructure property 'url' of 'req.body' as it is undefined.").

(** The response [res.json(response)] of a request that went through. *)
Definition summaryResponse (processingTime : Z) (scraped : ScrapeResult)
           (metadata : TextProcessor.Metadata)
           (summary keyPoints : GeminiClient.SummaryResult) : HttpResponse :=
  {| statusCode := 200;
     json := SummaryJson true (scrapedTitle scraped)
               (GeminiClient.text summary)
               (orEmpty (GeminiClient.text keyPoints))
               {| wordCount := TextProcessor.wordCount metadata;
                  sentenceCount := TextProcessor.sentenceCount metadata;
                  characterCount := TextProcessor.characterCount metadata;
                  readingTime := TextProcessor.readingTime metadata;
                  scrapingMethod := scrapedMethod scraped;
                  processingTime := integerToString processingTime ++ lit "ms";
                  timestamp := TextProcessor.timestamp metadata |} |}.

Section Handler.

Variable World : Type.
Variable env : Env.

(** [Date.now()] and [new Date()]. *)
Variable clock : World -> Z * World.

(** [scrapeWebsite] of [utils/scraper.js], in either version. *)
Variable scrapeWebsite : JsString -> Async.IO World Dom.Event ScrapeResult.

Variable generateContent :
  JsString -> World
  -> Completion GeminiClient.Error GeminiClient.GenerateResult * World.

Local Abbreviation IO := (Async.IO World Event).

(** The [catch (error)] block of the handler. *)
Definition internalError (error : GeminiClient.Error) : HttpResponse :=
  {| statusCode := 500;
     json := ErrorJson
               (lit "An unexpected error occurred while processing your request")
               (lit "INTERNAL_ERROR")
               (if eqb (orEmpty (NODE_ENV env)) (lit "development")
                then Some (GeminiClient.message error) else None) |}.

(** The part of the handler from the key-point extraction on. *)
Definition finish (startTime : Z) (scraped : ScrapeResult) (cleanedText : JsString)
           (metadata : TextProcessor.Metadata) (summary : GeminiClient.SummaryResult)
  : IO HttpResponse :=
  (keyPoints <- relabel Model
                  (GeminiClient.extractKeyPoints generateContent cleanedText) ;;
   match keyPoints with
   | Throw error => ret (internalError error)
   | Return keyPoints =>
       endTime <- external clock ;;
       let processingTime := (endTime - startTime)%Z in
       ret (summaryResponse processingTime scraped metadata summary keyPoints)
   end)%io.

(** The part of the handler from the scraping on. *)
Definition process (startTime : Z) (url : JsString) : IO HttpResponse :=
  (scraped <- relabel Scraping (scrapeWebsite url) ;;
   if present (scrapedError scraped)
   then ret {| statusCode := 400;
               json := ErrorJson (orEmpty (scrapedError scraped))
                                 (lit "SCRAPING_FAILED") None |}
   else
     let cleanedText := cleanTextOf (scrapedText scraped) in
     now <- external clock ;;
     let metadata := extractMetadata now cleanedText in
     summary <- relabel Model
                  (GeminiClient.summarizeText generateContent cleanedText) ;;
     match summary with
     | Throw error => ret (internalError error)
     | Return summary =>
         if present (GeminiClient.error summary)
         then ret {| statusCode := 500;
                     json := ErrorJson
                               (lit "Failed to generate summary: "
                                    ++ orEmpty (GeminiClient.error summary))
                               (lit "SUMMARIZATION_FAILED") None |}
         else finish startTime scraped cleanedText metadata summary
     end)%io.

(** [app.post('/api/summarize', async (req, res) => ...)]. *)
Definition summarize (req : Request) : IO HttpResponse :=
  (startTime <- external clock ;;
   match requestBody req with
   | None => ret (internalError noBodyError)
   | Some body =>
       if negb (present (url body))
       then ret {| statusCode := 400;
                   json := ErrorJson (lit "URL is required") (lit "MISSING_URL") None |}
       else if negb (present (GEMINI_API_KEY env))
       then ret {| statusCode := 500;
                   json := ErrorJson
                             (lit "Server configuration error: API key not configured")
                             (lit "MISSING_API_KEY") None |}
       else process startTime (orEmpty (url body))
   end)%io.

(** The URL of a request that passes the two checks before the scraping:
    a [url] that is present, with the API key configured. *)
Definition accepted (req : Request) : option JsString :=
  match requestBody req with
  | Some body =>
      if present (url body) && present (GEMINI_API_KEY env) then url body else None
  | None => None
  end.

(** The stages of the handling of an accepted request for [u] that starts in
    the world [w]: the outcome of [await scrapeWebsite(url)], the text
    cleaned, and the outcomes of [await summarizeText(cleanedText)] and
    [await extractKeyPoints(cleanedText)], each with the world and the trace
    it leaves. *)
Definition scraping (u : JsString) (w : World)
  : ScrapeResult * (World * list Dom.Event) :=
  scrapeWebsite u (snd (clock w), []).

Definition cleanedText (u : JsString) (w : World) : JsString :=
  cleanTextOf (scrapedText (fst (scraping u w))).

Definition summarizing (u : JsString) (w : World)
  : Completion GeminiClient.Error GeminiClient.SummaryResult
    * (World * list GeminiClient.Event) :=
  GeminiClient.summarizeText generateContent (cleanedText u w)
    (snd (clock (fst (snd (scraping u w)))), []).

Definition extracting (u : JsString) (w : World)
  : Completion GeminiClient.Error GeminiClient.SummaryResult
    * (World * list GeminiClient.Event) :=
  GeminiClient.extractKeyPoints generateContent (cleanedText u w)
    (fst (snd (summarizing u w)), []).

End Handler.

(** The events of the two kinds in a trace. *)
Definition scrapingEvents (tr : list Event) : list Dom.Event :=
  flat_map (fun e => match e with Scraping e' => [e'] | Model _ => [] end) tr.

Definition modelEvents (tr : list Event) : list GeminiClient.Event :=
  flat_map (fun e => match e with Model e' => [e'] | Scraping _ => [] end) tr.

(** The [code] of an error response. *)
Definition errorCode (r : HttpResponse) : option JsString :=
  match json r with
  | ErrorJson _ code _ => Some code
  | SummaryJson _ _ _ _ _ => None
  end.

(** ** Requests as they reach the server

    [Request] above holds the requests whose [url] is a string or missing.
    The body parser hands on more: it fails on a body that is not JSON, and
    the [url] of a body it parsed is any JSON value. *)

(** The number a JSON numeral denotes: a finite double, with its sign
    [mantissa * 2 ^ exponent], or an infinity, which a numeral beyond the
    range of the doubles reads as. *)
Inductive Number :=
| Finite (negative : bool) (mantissa : N) (exponent : Z)
| Infinite (negative : bool).

(** What [JSON.parse] yields; the fields of an object in the order of the
    text. *)
#[local] Set Warnings "-register-all".
Inductive JsonValue :=
| JNull
| JBool (b : bool)
| JNumber (x : Number)
| JString (s : JsString)
| JArray (items : list JsonValue)
| JObject (fields : list (JsString * JsonValue)).
#[local] Set Warnings "register-all".

(** A POST to /api/summarize as the middleware hands it on: a body parser
    threw ([express.json] passes its error to [next], on the body [{bad] for
    one); or the request has no body; or the body was parsed, by
    [express.json] or [express.urlencoded], and holds the field [url] or
    not. *)
Inductive Incoming :=
| Unparsed
| NoBody
| Parsed (urlField : option JsonValue).

(** The truth value of a JSON value: [null], [false], the zeros and the empty
    string are falsy, every array and object is truthy. *)
Definition valueTruthy (value : JsonValue) : bool :=
  match value with
  | JNull => false
  | JBool b => b
  | JNumber (Finite _ mantissa _) => negb (mantissa =? 0)%N
  | JNumber (Infinite _) => true
  | JString s => truthy s
  | JArray _ => true
  | JObject _ => true
  end.

(** Whether [ToString] of a JSON value completes, as in a template literal.
    An object is converted by the [toString] it inherits, unless it has a
    field of that name: the field holds no function, [valueOf] yields the
    object itself, and the conversion throws a TypeError.  An array joins
    the strings of its items, [null] counting as the empty string.  The depth
    of the call stack is not bounded here. *)
Fixpoint printable (value : JsonValue) : bool :=
  match value with
  | JArray items => forallb printable items
  | JObject fields =>
      negb (existsb (fun field => eqb (fst field) (lit "toString")) fields)
  | _ => true
  end.

(** What the conversion throws. *)
Definition noPrimitiveError : GeminiClient.Error :=
  GeminiClient.mkError (lit "Cannot convert object to primitive value").

(** The global error handler, [app.use((err, req, res, next) => ...)]. *)
Definition unhandledError : HttpResponse :=
  {| statusCode := 500;
     json := ErrorJson (lit "Internal server error") (lit "INTERNAL_ERROR") None |}.

(** A request of the kind above, as it reaches the server. *)
Definition incoming (req : Request) : Incoming :=
  match requestBody req with
  | None => NoBody
  | Some body => Parsed (option_map JString (url body))
  end.

Section Route.

Variable World : Type.
Variable env : Env.
Variable clock : World -> Z * World.

(** [scrapeWebsite] on the value of the field [url], whatever its type. *)
Variable scrapeWebsite : JsonValue -> Async.IO World Dom.Event ScrapeResult.

Variable generateContent :
  JsString -> World
  -> Completion GeminiClient.Error GeminiClient.GenerateResult * World.

Local Abbreviation IO := (Async.IO World Event).

(** The route POST /api/summarize: the body parser, then the handler, whose
    [try] block holds the template literal
    [`Processing request for URL: ${url}`] before the scraping.  From there
    on the handler is [process], which hands [url] as it is to
    [scrapeWebsite] and makes no other use of it. *)
Definition postSummarize (request : Incoming) : IO HttpResponse :=
  match request with
  | Unparsed => ret unhandledError
  | NoBody =>
      (startTime <- external clock ;;
       ret (internalError env noBodyError))%io
  | Parsed urlField =>
      (startTime <- external clock ;;
       match urlField with
       | None =>
           ret {| statusCode := 400;
                  json := ErrorJson (lit "URL is required") (lit "MISSING_URL") None |}
       | Some value =>
           if negb (valueTruthy value)
           then ret {| statusCode := 400;
                       json := ErrorJson (lit "URL is required")
                                         (lit "MISSING_URL") None |}
           else if negb (present (GEMINI_API_KEY env))
           then ret {| statusCode := 500;
                       json := ErrorJson
                                 (lit "Server configuration error: API key not configured")
                                 (lit "MISSING_API_KEY") None |}
           else if negb (printable value)
           then ret (internalError env noPrimitiveError)
           else process env clock (fun _ => scrapeWebsite value) generateContent
                        startTime []
       end)%io
  end.

End Route.

End Server.

(* ================================================================== *)
(** * Worlds for the examples *)
(* ================================================================== *)

Module Examples.

(** A stand-in for the [URL] constructor on the few shapes the examples use. *)
Definition parseScheme (url : JsString) : option URL :=
  if isPrefix (lit "https://") url then Some (mkURL (lit "https:"))
  else if isPrefix (lit "http://") url then Some (mkURL (lit "http:"))
  else if isPrefix (lit "ftp://") url then Some (mkURL (lit "ftp:"))
  else None.

Definition articleUrl : JsString := lit "https://example.com/article".

(** A rendered page whose [main] holds 201 code units and whose [body] holds
    1000. *)
Definition landingPage : RenderedPage :=
  {| pageTitle := lit "Landing";
     querySelector := fun sel =>
       if (sel =? "main")%string then Some (mkElement (Some (repeat 109%N 201)))
       else if (sel =? "body")%string then Some (mkElement (Some (repeat 98%N 1000)))
       else None;
     bodyInnerText := Some (repeat 98%N 1000) |}.

(** A rendered page with nothing but a short body. *)
Definition stubPage : RenderedPage :=
  {| pageTitle := [];
     querySelector := fun sel =>
       if (sel =? "body")%string then Some (mkElement (Some (lit "Just a moment...")))
       else None;
     bodyInnerText := Some (lit "Just a moment...") |}.

(** A document with a [main] of 50 code units inside a [body] of 500. *)
Definition thinMainDoc : CheerioDoc :=
  mkDoc (fun sel =>
           if (sel =? "main")%string then [repeat 109%N 50]
           else if (sel =? "body")%string then [repeat 98%N 500]
           else []).

(** A document whose only content is a [body] of 60 code units. *)
Definition stubDoc : CheerioDoc :=
  mkDoc (fun sel => if (sel =? "body")%string then [repeat 98%N 60] else []).

(** The worlds count the requests they have served. *)
Definition renders (page : RenderedPage) (url : JsString) (n : nat)
  : option RenderedPage * nat := (Some page, S n).

Definition renderCrashes (url : JsString) (n : nat) : option RenderedPage * nat :=
  (None, S n).

Definition serves (code : Z) (d : CheerioDoc) (url : JsString) (n : nat)
  : option Response * nat := (Some (mkResponse code d), S n).

(** A service that answers its first [failures] calls with a rate-limit error
    and the later ones with a text. *)
Definition flaky (failures : nat) (n : nat)
  : Completion GeminiClient.Error GeminiClient.GenerateResult * nat :=
  if (n <? failures)%nat
  then (Throw (GeminiClient.mkError (lit "[429 Too Many Requests] quota exceeded")), S n)
  else (Return (GeminiClient.mkResult (Return (lit "A summary."))), S n).

(** A service that refuses every call for a reason other than the rate. *)
Definition refusing (n : nat)
  : Completion GeminiClient.Error GeminiClient.GenerateResult * nat :=
  (Throw (GeminiClient.mkError (lit "API key not valid")), S n).

(** A document whose [article] and [main] hold texts of the same length. *)
Definition tiedDoc : CheerioDoc :=
  mkDoc (fun sel =>
           if (sel =? "article")%string then [repeat 97%N 60]
           else if (sel =? "main")%string then [repeat 109%N 60]
           else []).

(** A service that answers the summary prompt and refuses any other. *)
Definition summaryOnly (prompt : JsString) (n : nat)
  : Completion GeminiClient.Error GeminiClient.GenerateResult * nat :=
  if isPrefix (lit "You are an expert content summarizer.") prompt
  then (Return (GeminiClient.mkResult (Return (lit "A summary."))), S n)
  else (Throw (GeminiClient.mkError (lit "The model is overloaded")), S n).

(** A clock that advances by one second at each reading. *)
Definition tick (n : nat) : Z * nat := ((1000 * Z.of_nat n)%Z, S n).

Definition configured : Server.Env :=
  Server.mkEnv (Some (lit "secret-key")) (Some (lit "production")).

Definition unconfigured : Server.Env := Server.mkEnv None None.

Definition requestFor (u : JsString) : Server.Request :=
  Server.mkRequest (Some (Server.mkBody (Some u))).

Definition requestWithoutUrl : Server.Request :=
  Server.mkRequest (Some (Server.mkBody None)).

(** The two-tier scraper in front of a site that renders [landingPage]. *)
Definition scrapeLanding : JsString -> Async.IO nat Dom.Event ScrapeResult :=
  StealthScraper.scrapeWebsite parseScheme 10000 (renders landingPage)
    (serves 200 thinMainDoc).

(** The same scraper on the values of a [url] field, a stand-in that takes
    no value but a string for a URL. *)
Definition scrapeLandingValue (value : Server.JsonValue)
  : Async.IO nat Dom.Event ScrapeResult :=
  match value with
  | Server.JString u => scrapeLanding u
  | _ => ret (Failed invalidUrlError)
  end.

(** The body [{"url":{"toString":1}}]. *)
Definition unprintableUrl : Server.Incoming :=
  Server.Parsed
    (Some (Server.JObject
             [(lit "toString", Server.JNumber (Server.Finite false 1 0))])).

End Examples.

(* ================================================================== *)
(** * Properties of the text processor *)
(* ================================================================== *)

Section TextProcessorFacts.

Example isWhitespace_table :
  forallb isWhitespace
    [9; 10; 11; 12; 13; 32; 160; 5760; 8192; 8202; 8232; 8233; 8239; 8287;
     12288; 65279]%N = true
  /\ existsb isWhitespace [8; 14; 33; 65; 6158; 8203; 8288]%N = false.
Proof. split; reflexivity. Qed.

Example collapse_trim_example :
  trim (collapseWhitespace (lit "  two   words  ")) = lit "two words".
Proof. reflexivity. Qed.

Example split_example :
  split isWhitespace (lit " a  b ") = [[]; lit "a"; lit "b"; []]
  /\ split isWhitespace (lit "a b") = [lit "a"; lit "b"]
  /\ split isSentenceEnd (lit "Hi. Bye?!") = [lit "Hi"; lit " Bye"; []].
Proof. repeat split; reflexivity. Qed.

Example readingMinutes_examples :
  readingMinutes 0 = 1%N /\ readingMinutes 99 = 1%N /\ readingMinutes 300 = 2%N
  /\ readingMinutes 400 = 2%N.
Proof. repeat split; reflexivity. Qed.

Example toISOString_examples :
  toISOString 0 = lit "1970-01-01T00:00:00.000Z"
  /\ toISOString 951782400000 = lit "2000-02-29T00:00:00.000Z"
  /\ toISOString 1700000000123 = lit "2023-11-14T22:13:20.123Z"
  /\ toISOString (-1) = lit "1969-12-31T23:59:59.999Z".
Proof. repeat split; reflexivity. Qed.

Example extractMetadata_example :
  extractMetadata 0 (lit "Hello world. How are you?")
  = {| TextProcessor.wordCount := 5;
       sentenceCount := 2;
       characterCount := 25;
       readingTime := lit "1 min read";
       timestamp := lit "1970-01-01T00:00:00.000Z" |}.
Proof. reflexivity. Qed.

Lemma splitRuns_length_pos (cls : CodeUnit -> bool) (s : JsString) :
  forall cur inRun, 1 <= List.length (splitRuns cls cur inRun s).
Proof.
  induction s as [|c s IH]; intros cur inRun; simpl.
  - lia.
  - destruct (cls c).
    + destruct inRun; simpl; auto with arith.
    + apply IH.
Qed.

Lemma split_length_pos (cls : CodeUnit -> bool) (s : JsString) :
  1 <= List.length (split cls s).
Proof. apply splitRuns_length_pos. Qed.

(** C10: the empty string splits on whitespace into one empty piece, so on it
    [extractMetadata] reports one word, no sentence, no character and a
    reading time of "1 min read"; and whatever the input (and the clock), the
    reported word count is never 0. *)
Theorem extractMetadata_empty_one_word :
  split isWhitespace [] = [[]]
  /\ (forall now : Z,
      TextProcessor.wordCount (extractMetadata now []) = 1
      /\ sentenceCount (extractMetadata now []) = 0
      /\ characterCount (extractMetadata now []) = 0
      /\ readingTime (extractMetadata now []) = lit "1 min read")
  /\ (forall (now : Z) (s : JsString),
         TextProcessor.wordCount (extractMetadata now s) <> 0).
Proof.
  split; [reflexivity|]. split.
  - intros now. repeat split; reflexivity.
  - intros now s. unfold extractMetadata; simpl.
    pose proof (split_length_pos isWhitespace s). lia.
Qed.

(** ** [toISOString] is one-to-one on the time values of a [Date] *)

(** The round trip through the calendar, on every day of an era. *)
Lemma era_checked : allDaysOk (Z.to_nat 146097) 0 = true.
Proof. vm_compute. reflexivity. Qed.

Lemma allDaysOk_spec (n : nat) :
  forall a, allDaysOk n a = true ->
            forall k, (a <= k < a + Z.of_nat n)%Z -> dayOfEraOk k = true.
Proof.
  induction n as [|n IH]; intros a H k Hk; [lia|].
  cbn [allDaysOk] in H. apply andb_true_iff in H. destruct H as [Ha Hrest].
  destruct (Z.eq_dec k a) as [->|Hne]; [exact Ha|].
  apply (IH (a + 1)%Z Hrest). lia.
Qed.

Lemma civilFromDays_era (z : Z) :
  civilFromDays z
  = civilOfEra ((z + 719468) / 146097) ((z + 719468) mod 146097).
Proof.
  unfold civilFromDays, civilOfEra. rewrite Z.mod_eq by lia.
  replace (146097 * ((z + 719468) / 146097))%Z with ((z + 719468) / 146097 * 146097)%Z by lia.
  reflexivity.
Qed.

Lemma civilFromDays_spec (z : Z) :
  let '(y, m, d) := civilFromDays z in
  (1 <= m <= 12)%Z /\ (1 <= d <= 31)%Z
  /\ (0 <= y - (z + 719468) / 146097 * 400 <= 400)%Z
  /\ daysFromCivil y m d = z.
Proof.
  rewrite civilFromDays_era.
  set (era := ((z + 719468) / 146097)%Z). set (doe := ((z + 719468) mod 146097)%Z).
  assert (Hdoe : (0 <= doe < 146097)%Z) by (apply Z.mod_pos_bound; lia).
  assert (Hz : (z = era * 146097 + doe - 719468)%Z).
  { pose proof (Z.div_mod (z + 719468) 146097 ltac:(lia)). subst era doe. lia. }
  pose proof (@allDaysOk_spec _ 0%Z era_checked doe ltac:(lia)) as Hok.
  unfold dayOfEraOk in Hok.
  assert (Hshift : civilOfEra era doe
                   = let '(y, m, d) := civilOfEra 0 doe in ((y + era * 400)%Z, m, d)).
  { unfold civilOfEra. cbv zeta.
    apply pair_equal_spec; split; [apply pair_equal_spec; split|]; try reflexivity.
    ring. }
  rewrite Hshift. destruct (civilOfEra 0 doe) as [[y0 m] d].
  repeat (apply andb_true_iff in Hok; destruct Hok as [Hok ?]).
  repeat match goal with H : (_ <=? _)%Z = true |- _ => apply Z.leb_le in H end.
  match goal with H : (_ =? _)%Z = true |- _ => apply Z.eqb_eq in H; rename H into Hdoy end.
  fold era. unfold daysFromCivil. cbv zeta.
  set (adj := (if (m <=? 2)%Z then 1 else 0)%Z) in *.
  assert (Hadj : (0 <= adj <= 1)%Z) by (subst adj; destruct (m <=? 2)%Z; lia).
  clearbody adj era doe.
  split; [lia|]. split; [lia|]. split; [lia|].
  replace (y0 + era * 400 - adj)%Z with ((y0 - adj) + era * 400)%Z by lia.
  rewrite Z.div_add by lia. rewrite (Z.div_small (y0 - adj) 400) by lia.
  replace (y0 - adj + era * 400 - (0 + era) * 400)%Z with (y0 - adj)%Z by lia.
  rewrite Hdoy. lia.
Qed.

Lemma toISOString_fields (t : Z) :
  toISOString t
  = let '(y, m, d) := civilFromDays (t / 86400000) in
    formatYear y
      ++ isoTail m d (t mod 86400000 / 3600000) (t mod 86400000 / 60000 mod 60)
           (t mod 86400000 / 1000 mod 60) (t mod 86400000 mod 1000).
Proof.
  unfold toISOString. cbv zeta.
  destruct (civilFromDays (t / 86400000)) as [[y m] d]. reflexivity.
Qed.

Lemma app_inj_length (A : Type) (a a' b b' : list A) :
  List.length a = List.length a' -> a ++ b = a' ++ b' -> a = a' /\ b = b'.
Proof.
  revert a'. induction a as [|x a IH]; intros [|x' a'] Hlen H; try discriminate Hlen.
  - split; [reflexivity|exact H].
  - cbn [app] in H. injection H as -> H. injection Hlen as Hlen.
    destruct (IH a' Hlen H) as [-> ->]. split; reflexivity.
Qed.

Lemma zeroPad_length (w : nat) : forall n, List.length (zeroPad w n) = w.
Proof.
  induction w as [|w IH]; intros n; [reflexivity|].
  cbn [zeroPad]. rewrite length_app, IH. cbn. lia.
Qed.

Lemma zeroPad_inj (w : nat) :
  forall a b, (a < 10 ^ N.of_nat w)%N -> (b < 10 ^ N.of_nat w)%N ->
              zeroPad w a = zeroPad w b -> a = b.
Proof.
  induction w as [|w IH]; intros a b Ha Hb H.
  - cbn in Ha, Hb. lia.
  - rewrite Nat2N.inj_succ, N.pow_succ_r' in Ha, Hb.
    cbn [zeroPad] in H. apply app_inj_tail in H. destruct H as [Hhi Hlo].
    assert (Hq : (a / 10 = b / 10)%N).
    { apply IH; [apply N.Div0.div_lt_upper_bound; exact Ha
                |apply N.Div0.div_lt_upper_bound; exact Hb|exact Hhi]. }
    pose proof (N.div_mod a 10 ltac:(lia)) as Da.
    pose proof (N.div_mod b 10 ltac:(lia)) as Db.
    assert (Hr : (a mod 10 = b mod 10)%N) by lia.
    rewrite Da, Db, Hq, Hr. reflexivity.
Qed.

Lemma zeroPad_inj_Z (w : nat) (a b : Z) :
  (0 <= a < 10 ^ Z.of_nat w)%Z -> (0 <= b < 10 ^ Z.of_nat w)%Z ->
  zeroPad w (Z.to_N a) = zeroPad w (Z.to_N b) -> a = b.
Proof.
  intros Ha Hb H.
  assert (Hn : forall x, (0 <= x < 10 ^ Z.of_nat w)%Z -> (Z.to_N x < 10 ^ N.of_nat w)%N).
  { intros x Hx. apply N2Z.inj_lt. rewrite N2Z.inj_pow, Z2N.id by lia.
    rewrite nat_N_Z. cbn. lia. }
  pose proof (@zeroPad_inj w _ _ (Hn a Ha) (Hn b Hb) H). lia.
Qed.

Lemma formatYear_length (y : Z) :
  List.length (formatYear y) = if ((0 <=? y) && (y <=? 9999))%Z then 4 else 7.
Proof.
  unfold formatYear. destruct ((0 <=? y) && (y <=? 9999))%Z.
  - apply zeroPad_length.
  - rewrite length_app, zeroPad_length. destruct (y <? 0)%Z; reflexivity.
Qed.

Lemma formatYear_inj (y1 y2 : Z) :
  (-1000000 < y1 < 1000000)%Z -> (-1000000 < y2 < 1000000)%Z ->
  formatYear y1 = formatYear y2 -> y1 = y2.
Proof.
  intros H1 H2 H. pose proof (f_equal (@List.length CodeUnit) H) as Hlen.
  rewrite !formatYear_length in Hlen. unfold formatYear in H.
  destruct ((0 <=? y1) && (y1 <=? 9999))%Z eqn:E1;
    destruct ((0 <=? y2) && (y2 <=? 9999))%Z eqn:E2; try discriminate Hlen.
  - apply andb_true_iff in E1, E2.
    apply (@zeroPad_inj_Z 4); [change (10 ^ Z.of_nat 4)%Z with 10000%Z; lia ..|exact H].
  - apply andb_false_iff in E1, E2.
    destruct (Z.ltb_spec y1 0) as [N1|P1]; destruct (Z.ltb_spec y2 0) as [N2|P2];
      apply app_inj_length in H; try reflexivity; destruct H as [Hsign Hdigits];
      try discriminate Hsign;
      apply (@zeroPad_inj_Z 6) in Hdigits;
      try (change (10 ^ Z.of_nat 6)%Z with 1000000%Z); lia.
Qed.

Lemma isoTail_length (m d hh mi ss ms : Z) : List.length (isoTail m d hh mi ss ms) = 20.
Proof.
  unfold isoTail. rewrite !length_app, !zeroPad_length. reflexivity.
Qed.

Lemma isoTail_inj (m d hh mi ss ms m' d' hh' mi' ss' ms' : Z) :
  (0 <= m < 100 /\ 0 <= d < 100 /\ 0 <= hh < 100 /\ 0 <= mi < 100
   /\ 0 <= ss < 100 /\ 0 <= ms < 1000)%Z ->
  (0 <= m' < 100 /\ 0 <= d' < 100 /\ 0 <= hh' < 100 /\ 0 <= mi' < 100
   /\ 0 <= ss' < 100 /\ 0 <= ms' < 1000)%Z ->
  isoTail m d hh mi ss ms = isoTail m' d' hh' mi' ss' ms' ->
  m = m' /\ d = d' /\ hh = hh' /\ mi = mi' /\ ss = ss' /\ ms = ms'.
Proof.
  intros B B' H. unfold isoTail in H.
  repeat match type of H with
         | _ ++ _ = _ ++ _ =>
             apply app_inj_length in H;
             [ let Hp := fresh "Hp" in destruct H as [Hp H]
             | rewrite ?zeroPad_length; reflexivity ]
         end.
  destruct B as [? [? [? [? [? ?]]]]]. destruct B' as [? [? [? [? [? ?]]]]].
  repeat split;
    first [ apply (@zeroPad_inj_Z 2); [change (10 ^ Z.of_nat 2)%Z with 100%Z; lia ..
                                      | assumption]
          | apply (@zeroPad_inj_Z 3); [change (10 ^ Z.of_nat 3)%Z with 1000%Z; lia ..
                                      | assumption] ].
Qed.

Lemma timeOfDay_fields (ms : Z) :
  (0 <= ms < 86400000)%Z ->
  (ms = 3600000 * (ms / 3600000) + 60000 * (ms / 60000 mod 60)
        + 1000 * (ms / 1000 mod 60) + ms mod 1000)%Z
  /\ (0 <= ms / 3600000 < 24)%Z /\ (0 <= ms / 60000 mod 60 < 60)%Z
  /\ (0 <= ms / 1000 mod 60 < 60)%Z /\ (0 <= ms mod 1000 < 1000)%Z.
Proof.
  intros Hms.
  pose proof (Z.div_mod ms 1000 ltac:(lia)) as D1.
  pose proof (Z.div_mod (ms / 1000) 60 ltac:(lia)) as D2.
  pose proof (Z.div_mod (ms / 60000) 60 ltac:(lia)) as D3.
  replace (ms / 1000 / 60)%Z with (ms / 60000)%Z in D2
    by (rewrite Z.div_div by lia; reflexivity).
  replace (ms / 60000 / 60)%Z with (ms / 3600000)%Z in D3
    by (rewrite Z.div_div by lia; reflexivity).
  pose proof (Z.mod_pos_bound ms 1000 ltac:(lia)).
  pose proof (Z.mod_pos_bound (ms / 1000) 60 ltac:(lia)).
  pose proof (Z.mod_pos_bound (ms / 60000) 60 ltac:(lia)).
  assert (0 <= ms / 3600000 < 24)%Z.
  { split; [apply Z.div_pos; lia|apply Z.div_lt_upper_bound; lia]. }
  repeat split; lia.
Qed.

Lemma validTime_year (t : Z) :
  validTime t ->
  let '(y, _, _) := civilFromDays (t / 86400000) in (-1000000 < y < 1000000)%Z.
Proof.
  intros [Hlo Hhi].
  pose proof (civilFromDays_spec (t / 86400000)) as Hspec.
  destruct (civilFromDays (t / 86400000)) as [[y m] d].
  destruct Hspec as [_ [_ [Hy _]]].
  assert (Hday : (-100000000 <= t / 86400000 <= 100000000)%Z).
  { split; [apply Z.div_le_lower_bound; lia|apply Z.div_le_upper_bound; lia]. }
  assert (Hera : (-700 <= (t / 86400000 + 719468) / 146097 <= 700)%Z).
  { split; [apply Z.div_le_lower_bound; lia|apply Z.div_le_upper_bound; lia]. }
  lia.
Qed.

Lemma toISOString_inj (t1 t2 : Z) :
  validTime t1 -> validTime t2 -> toISOString t1 = toISOString t2 -> t1 = t2.
Proof.
  intros V1 V2 H. rewrite !toISOString_fields in H.
  pose proof (validTime_year V1) as Y1. pose proof (validTime_year V2) as Y2.
  pose proof (civilFromDays_spec (t1 / 86400000)) as S1.
  pose proof (civilFromDays_spec (t2 / 86400000)) as S2.
  destruct (civilFromDays (t1 / 86400000)) as [[y1 m1] d1].
  destruct (civilFromDays (t2 / 86400000)) as [[y2 m2] d2].
  destruct S1 as [Hm1 [Hd1 [_ R1]]]. destruct S2 as [Hm2 [Hd2 [_ R2]]].
  pose proof (Z.mod_pos_bound t1 86400000 ltac:(lia)) as M1.
  pose proof (Z.mod_pos_bound t2 86400000 ltac:(lia)) as M2.
  destruct (timeOfDay_fields M1) as [E1 [Bh1 [Bm1 [Bs1 Bl1]]]].
  destruct (timeOfDay_fields M2) as [E2 [Bh2 [Bm2 [Bs2 Bl2]]]].
  pose proof (f_equal (@List.length CodeUnit) H) as Hlen.
  rewrite !length_app, !isoTail_length in Hlen.
  apply app_inj_length in H; [|lia]. destruct H as [Hy Htail].
  apply formatYear_inj in Hy; [|assumption|assumption].
  apply isoTail_inj in Htail; [|repeat split; lia|repeat split; lia].
  destruct Htail as [Em [Ed [Eh [Emi [Es El]]]]].
  assert (Hday : (t1 / 86400000 = t2 / 86400000)%Z).
  { rewrite <- R1, <- R2, Hy, Em, Ed. reflexivity. }
  assert (Hms : (t1 mod 86400000 = t2 mod 86400000)%Z).
  { rewrite E1, E2, Eh, Emi, Es, El. reflexivity. }
  rewrite (Z.div_mod t1 86400000), (Z.div_mod t2 86400000), Hday, Hms by lia.
  reflexivity.
Qed.

(** C9, as the code has it: the four counts are computed from the text alone,
    so any two calls on the same text agree on them whatever the clock says;
    the timestamp is the ISO rendering of the clock at the call; and, the
    clock holding time values of a [Date], two calls on the same text yield
    the same metadata exactly when the clock reads the same at both. *)
Theorem extractMetadata_counts_pure (s : JsString) (now1 now2 : Z) :
  TextProcessor.wordCount (extractMetadata now1 s)
  = TextProcessor.wordCount (extractMetadata now2 s)
  /\ sentenceCount (extractMetadata now1 s) = sentenceCount (extractMetadata now2 s)
  /\ characterCount (extractMetadata now1 s) = characterCount (extractMetadata now2 s)
  /\ readingTime (extractMetadata now1 s) = readingTime (extractMetadata now2 s)
  /\ timestamp (extractMetadata now1 s) = toISOString now1
  /\ timestamp (extractMetadata now2 s) = toISOString now2
  /\ (validTime now1 -> validTime now2 ->
      (extractMetadata now1 s = extractMetadata now2 s <-> now1 = now2)).
Proof.
  do 6 (split; [reflexivity|]). intros V1 V2. split.
  - intros H. apply (f_equal timestamp) in H. cbn [extractMetadata timestamp] in H.
    exact (toISOString_inj V1 V2 H).
  - intros ->. reflexivity.
Qed.

(** C9, as stated, fails: two calls on the same text one second apart differ
    in their timestamp, hence as values. *)
Lemma extractMetadata_depends_on_clock :
  timestamp (extractMetadata 0 (lit "a")) = lit "1970-01-01T00:00:00.000Z"
  /\ timestamp (extractMetadata 1000 (lit "a")) = lit "1970-01-01T00:00:01.000Z"
  /\ extractMetadata 0 (lit "a") <> extractMetadata 1000 (lit "a").
Proof.
  split; [reflexivity|]. split; [reflexivity|].
  intros H. apply (f_equal timestamp) in H. vm_compute in H. discriminate H.
Qed.

(** C8 on the input "a @ b": [cleanText] collapses the whitespace before it
    deletes the "@", so the two spaces around it end up side by side; a second
    pass collapses them, so the first pass was not a fixed point. *)
Theorem cleanText_leaves_double_space :
  cleanText (lit "a @ b") = lit "a  b"
  /\ hasWhitespaceRun (cleanText (lit "a @ b")) = true
  /\ cleanText (cleanText (lit "a @ b")) = lit "a b"
  /\ cleanText (cleanText (lit "a @ b")) <> cleanText (lit "a @ b").
Proof.
  repeat split; try reflexivity.
  intros H. vm_compute in H. discriminate H.
Qed.

(** C7 on the input ("abcdef", 2): [truncateText] appends the ellipsis to the
    first [maxLength] code units, so the result is 3 longer than the
    maximum. *)
Theorem truncateText_exceeds_maxLength :
  truncateText (lit "abcdef") 2 = lit "ab..."
  /\ List.length (truncateText (lit "abcdef") 2) = 5
  /\ (Z.of_nat (List.length (truncateText (lit "abcdef") 2)) >? 2)%Z = true.
Proof. repeat split; reflexivity. Qed.

Lemma substring0_length (s : JsString) (n : Z) :
  (Z.of_nat (List.length (substring0 s n)) <= Z.max 0 n)%Z.
Proof.
  unfold substring0. rewrite length_firstn. lia.
Qed.

(** The truncation of the fetchers and of the summarization client, unlike
    [truncateText], keeps to the configured maximum. *)
Lemma cleanAndLimit_length (t : JsString) (maxTextLength : Z) :
  (0 <= maxTextLength)%Z ->
  (Z.of_nat (List.length (cleanAndLimit t maxTextLength)) <= maxTextLength)%Z.
Proof.
  intros H. unfold cleanAndLimit.
  pose proof (substring0_length (trim (collapseWhitespace t)) maxTextLength). lia.
Qed.

(** Whenever it truncates, [truncateText] returns [maxLength + 3] code units. *)
Lemma truncateText_length_when_cut (t : JsString) (maxLength : Z) :
  (0 <= maxLength < Z.of_nat (List.length t))%Z ->
  Z.of_nat (List.length (truncateText t maxLength)) = (maxLength + 3)%Z.
Proof.
  intros H. unfold truncateText.
  destruct (Z.leb_spec (Z.of_nat (List.length t)) maxLength) as [Hle|Hgt]; [lia|].
  unfold substring0. rewrite length_app, length_firstn. simpl. lia.
Qed.

Lemma hasWhitespaceRun_false_iff (s : JsString) :
  hasWhitespaceRun s = false <-> NoRun s.
Proof.
  induction s as [|a s IH].
  - split; [|reflexivity]. intros _ [|x pre] a b post H; discriminate H.
  - destruct s as [|b s].
    + split; [|reflexivity]. intros _ [|x [|y pre]] a' b' post H; discriminate H.
    + change (hasWhitespaceRun (a :: b :: s))
        with (isWhitespace a && isWhitespace b || hasWhitespaceRun (b :: s)).
      rewrite orb_false_iff, IH. split.
      * intros [Hab Hrest] [|x pre] a' b' post H.
        -- injection H as <- <- _. exact Hab.
        -- injection H as _ H. exact (Hrest pre a' b' post H).
      * intros Hno. split.
        -- exact (Hno [] a b s eq_refl).
        -- intros pre a' b' post H. apply (Hno (a :: pre) a' b' post).
           rewrite H. reflexivity.
Qed.

Lemma NoRun_app (l r : JsString) : NoRun (l ++ r) -> NoRun l /\ NoRun r.
Proof.
  intros Hno. split; intros pre a b post ->.
  - apply (Hno pre a b (post ++ r)). rewrite <- app_assoc. reflexivity.
  - apply (Hno (l ++ pre) a b post). rewrite <- app_assoc. reflexivity.
Qed.

Lemma NoRun_rev (s : JsString) : NoRun s -> NoRun (rev s).
Proof.
  intros Hno pre a b post H. rewrite andb_comm.
  apply (Hno (rev post) b a (rev pre)).
  rewrite <- (rev_involutive s), H, rev_app_distr. cbn [rev].
  rewrite <- !app_assoc. reflexivity.
Qed.

Lemma dropWhile_suffix (p : CodeUnit -> bool) (s : JsString) :
  exists l, s = l ++ dropWhile p s.
Proof.
  induction s as [|c s [l IH]]; [exists []; reflexivity|].
  cbn [dropWhile]. destruct (p c).
  - exists (c :: l). cbn [app]. rewrite <- IH. reflexivity.
  - exists []. reflexivity.
Qed.

Lemma NoRun_dropWhile (p : CodeUnit -> bool) (s : JsString) :
  NoRun s -> NoRun (dropWhile p s).
Proof.
  intros Hno. destruct (dropWhile_suffix p s) as [l Hl].
  rewrite Hl in Hno. exact (proj2 (NoRun_app _ _ Hno)).
Qed.

Lemma replaceRuns_no_run (s : JsString) :
  hasWhitespaceRun (replaceRuns false s) = false
  /\ hasWhitespaceRun (replaceRuns true s) = false
  /\ match replaceRuns true s with
     | c :: _ => isWhitespace c = false
     | [] => True
     end.
Proof.
  induction s as [|c s [IHf [IHt IHh]]]; [repeat split; reflexivity|].
  cbn [replaceRuns]. destruct (isWhitespace c) eqn:Hc.
  - split; [|split; assumption].
    destruct (replaceRuns true s) as [|d r]; [reflexivity|].
    change (isWhitespace space && isWhitespace d || hasWhitespaceRun (d :: r) = false).
    rewrite IHh, IHt, andb_false_r. reflexivity.
  - assert (H : hasWhitespaceRun (c :: replaceRuns false s) = false).
    { destruct (replaceRuns false s) as [|d r]; [reflexivity|].
      change (isWhitespace c && isWhitespace d || hasWhitespaceRun (d :: r) = false).
      rewrite Hc, IHf. reflexivity. }
    repeat split; assumption.
Qed.

(** The cleaning step of the fetchers, which only collapses, trims and cuts,
    leaves no run of whitespace: it is the deletion that follows the collapse
    in [cleanText] that builds one. *)
Lemma cleanAndLimit_no_whitespace_run (t : JsString) (maxTextLength : Z) :
  hasWhitespaceRun (cleanAndLimit t maxTextLength) = false.
Proof.
  apply hasWhitespaceRun_false_iff. unfold cleanAndLimit, substring0, trim.
  assert (Hno : NoRun (rev (dropWhile isWhitespace
                              (rev (dropWhile isWhitespace (collapseWhitespace t)))))).
  { apply NoRun_rev, NoRun_dropWhile, NoRun_rev, NoRun_dropWhile.
    apply hasWhitespaceRun_false_iff. apply (replaceRuns_no_run t). }
  rewrite <- (firstn_skipn (Z.to_nat maxTextLength)) in Hno.
  exact (proj1 (NoRun_app _ _ Hno)).
Qed.

End TextProcessorFacts.

(* ================================================================== *)
(** * Properties of the summarization client *)
(* ================================================================== *)

Ltac io_run :=
  unfold Async.result, Async.world, Async.trace;
  cbv beta delta [bind ret emit external GeminiClient.invoke] iota zeta;
  cbn [fst snd app].

Section RetryFacts.

Import GeminiClient.

Variable Upstream : Type.
Variable A : Type.
Variable arg : JsString.
Variable op : Upstream -> Completion Error A * Upstream.

Lemma invoke_run (w : Upstream) (tr : list Event) :
  invoke arg op (w, tr) = (fst (op w), (snd (op w), tr ++ [Invoke arg])).
Proof. unfold invoke. io_run. destruct (op w); reflexivity. Qed.

Lemma retryLoop_step (n : nat) (i : Z) (lastError : option Error)
      (w : Upstream) (tr : list Event) :
  retryLoop (invoke arg op) (S n) i lastError (w, tr) =
  match fst (op w) with
  | Return a => (Return a, (snd (op w), tr ++ [Invoke arg]))
  | Throw e =>
      if isRateLimit e
      then retryLoop (invoke arg op) n (i + 1) (Some e)
             (snd (op w), (tr ++ [Invoke arg]) ++ [Sleep (backoffDelay i)])
      else (Throw (Some e), (snd (op w), tr ++ [Invoke arg]))
  end.
Proof.
  cbn [retryLoop]. unfold bind at 1. rewrite invoke_run.
  destruct (fst (op w)) as [a|e]; [reflexivity|].
  destruct (isRateLimit e); reflexivity.
Qed.

Lemma schedule_S (i k : nat) :
  schedule arg i (S k) = Invoke arg :: Sleep (backoffDelay (Z.of_nat i)) :: schedule arg (S i) k.
Proof. reflexivity. Qed.

Lemma retryLoop_trace (remaining : nat) :
  forall (i : nat) (lastError : option Error) (w : Upstream) (tr : list Event),
  exists k : nat,
    k <= remaining /\
    match retryLoop (invoke arg op) remaining (Z.of_nat i) lastError (w, tr) with
    | (Return _, (_, tr')) =>
        tr' = tr ++ schedule arg i k ++ [Invoke arg] /\ k < remaining
    | (Throw (Some e), (_, tr')) =>
        if isRateLimit e
        then tr' = tr ++ schedule arg i k /\ k = remaining
             /\ (k = 0 -> lastError = Some e)
        else (tr' = tr ++ schedule arg i k ++ [Invoke arg] /\ k < remaining)
             \/ (tr' = tr /\ k = 0 /\ remaining = 0 /\ lastError = Some e)
    | (Throw None, (_, tr')) =>
        tr' = tr /\ k = 0 /\ remaining = 0 /\ lastError = None
    end.
Proof.
  induction remaining as [|n IH]; intros i lastError w tr.
  - exists 0. split; [lia|]. cbn.
    destruct lastError as [e|].
    + destruct (isRateLimit e); cbn; rewrite ?app_nil_r; auto.
    + auto.
  - rewrite retryLoop_step.
    destruct (fst (op w)) as [a|e].
    + exists 0. split; [lia|]. cbn. split; [reflexivity|lia].
    + destruct (isRateLimit e) eqn:Hrl.
      * replace (Z.of_nat i + 1)%Z with (Z.of_nat (S i)) by lia.
        destruct (IH (S i) (Some e) (snd (op w))
                     ((tr ++ [Invoke arg]) ++ [Sleep (backoffDelay (Z.of_nat i))]))
          as [k [Hk Hspec]].
        exists (S k). split; [lia|]. rewrite schedule_S.
        destruct (retryLoop (invoke arg op) n (Z.of_nat (S i)) (Some e)
                    (snd (op w), (tr ++ [Invoke arg]) ++ [Sleep (backoffDelay (Z.of_nat i))]))
          as [[a'|[e'|]] [w2 tr2]]; cbn [fst snd] in Hspec |- *.
        -- destruct Hspec as [-> Hlt]. split; [|lia].
           rewrite <- !app_assoc. reflexivity.
        -- destruct (isRateLimit e') eqn:Hrl'.
           ++ destruct Hspec as [-> [-> _]]. repeat split; [|discriminate].
              rewrite <- !app_assoc. reflexivity.
           ++ destruct Hspec as [[-> Hlt]|[_ [_ [_ Heq]]]].
              ** left. split; [|lia]. rewrite <- !app_assoc. reflexivity.
              ** injection Heq as <-. congruence.
        -- destruct Hspec as [_ [_ [_ Hne]]]. discriminate Hne.
      * exists 0. split; [lia|]. cbn. rewrite Hrl. left. split; [reflexivity|lia].
Qed.

Lemma retryWithBackoff_two_failures (maxRetries : Z) (w w1 w2 w3 : Upstream)
      (e1 e2 : Error) (a : A) :
  op w = (Throw e1, w1) -> isRateLimit e1 = true ->
  op w1 = (Throw e2, w2) -> isRateLimit e2 = true ->
  op w2 = (Return a, w3) ->
  (3 <= maxRetries)%Z ->
  retryWithBackoff (invoke arg op) maxRetries (w, [])
  = (Return a, (w3, [Invoke arg; Sleep 1000; Invoke arg; Sleep 2000; Invoke arg])).
Proof.
  intros H1 R1 H2 R2 H3 Hmax. unfold retryWithBackoff.
  destruct (Z.to_nat maxRetries) as [|[|[|n]]] eqn:Hn; try lia.
  rewrite retryLoop_step, H1. cbn [fst snd]. rewrite R1.
  rewrite retryLoop_step, H2. cbn [fst snd]. rewrite R2.
  rewrite retryLoop_step, H3. reflexivity.
Qed.

(** C2: the retry combinator calls the operation, and after each failure of
    the rate-limit class sleeps [min(1000 * 2^i, 10000)] ms (i the index of
    the failed attempt) before the next attempt, for at most [maxRetries]
    attempts; any other outcome ends the loop at once.  So the trace is [k]
    rate-limited attempts, each followed by its delay, then the attempt that
    ended the loop, if one did.  With [maxRetries] at least 3 (its default),
    an operation that fails twice with a rate-limit error and then succeeds
    is called 3 times, with delays of 1000 then 2000 ms, and its result is
    returned. *)
Theorem retryWithBackoff_schedule (maxRetries : Z) (w : Upstream) :
  (exists k : nat,
      (Z.of_nat k <= Z.max 0 maxRetries)%Z /\
      match result (retryWithBackoff (invoke arg op) maxRetries) w with
      | Return _ =>
          trace (retryWithBackoff (invoke arg op) maxRetries) w
          = schedule arg 0 k ++ [Invoke arg]
          /\ (Z.of_nat k < maxRetries)%Z
      | Throw (Some e) =>
          if isRateLimit e
          then trace (retryWithBackoff (invoke arg op) maxRetries) w
               = schedule arg 0 k
               /\ Z.of_nat k = maxRetries
          else trace (retryWithBackoff (invoke arg op) maxRetries) w
               = schedule arg 0 k ++ [Invoke arg]
               /\ (Z.of_nat k < maxRetries)%Z
      | Throw None =>
          trace (retryWithBackoff (invoke arg op) maxRetries) w = []
          /\ (maxRetries <= 0)%Z
      end)
  /\ (forall (e1 e2 : Error) (a : A) (w1 w2 w3 : Upstream),
         op w = (Throw e1, w1) -> isRateLimit e1 = true ->
         op w1 = (Throw e2, w2) -> isRateLimit e2 = true ->
         op w2 = (Return a, w3) ->
         (3 <= maxRetries)%Z ->
         retryWithBackoff (invoke arg op) maxRetries (w, [])
         = (Return a,
            (w3, [Invoke arg; Sleep 1000; Invoke arg; Sleep 2000; Invoke arg]))).
Proof.
  split.
  - unfold Async.result, Async.trace, retryWithBackoff.
    destruct (retryLoop_trace (Z.to_nat maxRetries) 0 None w []) as [k [Hk Hspec]].
    exists k. split; [lia|]. cbn [Z.of_nat] in Hspec.
    destruct (retryLoop (invoke arg op) (Z.to_nat maxRetries) 0 None (w, []))
      as [[a|[e|]] [w' tr']]; cbn [fst snd] in *.
    + destruct Hspec as [-> Hlt]. split; [reflexivity|lia].
    + destruct (isRateLimit e).
      * destruct Hspec as [-> [-> H0]]. split; [reflexivity|].
        destruct (Z.to_nat maxRetries) eqn:Hn; [specialize (H0 eq_refl); discriminate|lia].
      * destruct Hspec as [[-> Hlt]|[_ [_ [_ Hne]]]]; [|discriminate].
        split; [reflexivity|lia].
    + destruct Hspec as [-> [_ [Hz _]]]. split; [reflexivity|lia].
  - intros e1 e2 a w1 w2 w3 H1 R1 H2 R2 H3 Hmax.
    exact (retryWithBackoff_two_failures H1 R1 H2 R2 H3 Hmax).
Qed.

End RetryFacts.

Section ClientFacts.

Import GeminiClient.

Variable Upstream : Type.
Variable generateContent :
  JsString -> Upstream -> Completion Error GenerateResult * Upstream.

(** With a positive retry budget the combinator never throws [undefined]. *)
Lemma retryWithBackoff_throws_error (A : Type) (arg : JsString)
      (op : Upstream -> Completion Error A * Upstream)
      (maxRetries : Z) (s : Upstream * list Event) :
  (0 < maxRetries)%Z ->
  fst (retryWithBackoff (invoke arg op) maxRetries s) <> Throw None.
Proof.
  intros Hpos. destruct s as [w tr]. unfold retryWithBackoff.
  destruct (retryLoop_trace arg op (Z.to_nat maxRetries) 0 None w tr) as [k [_ Hspec]].
  cbn [Z.of_nat] in Hspec.
  destruct (retryLoop (invoke arg op) (Z.to_nat maxRetries) 0 None (w, tr))
    as [[a|[e|]] [w' tr']]; cbn [fst]; try discriminate.
  destruct Hspec as [_ [_ [Hz _]]]. lia.
Qed.

Lemma generateText_throws_error (prompt : JsString) (s : Upstream * list Event) :
  fst (generateText generateContent prompt s) <> Throw None.
Proof.
  unfold generateText, callModel, bind.
  pose proof (@retryWithBackoff_throws_error GenerateResult prompt
                (generateContent prompt) 3 s ltac:(lia)) as Hne.
  destruct (retryWithBackoff (invoke prompt (generateContent prompt)) 3 s)
    as [[res|[e|]] s']; cbn [fst] in *.
  - destruct (responseText res); cbn; discriminate.
  - cbn; discriminate.
  - congruence.
Qed.

Lemma generateText_not_retryable (prompt : JsString) (w w' : Upstream) (e : Error) :
  generateContent prompt w = (Throw e, w') -> isRateLimit e = false ->
  generateText generateContent prompt (w, []) = (Throw (Some e), (w', [Invoke prompt])).
Proof.
  intros Hgen Hrl. unfold generateText, callModel, retryWithBackoff, bind.
  change (Z.to_nat 3) with 3%nat.
  rewrite retryLoop_step, Hgen. cbn [fst snd]. rewrite Hrl. reflexivity.
Qed.

Lemma generateText_exhausted (prompt : JsString) (w w1 w2 w3 : Upstream)
      (e1 e2 e3 : Error) :
  generateContent prompt w = (Throw e1, w1) -> isRateLimit e1 = true ->
  generateContent prompt w1 = (Throw e2, w2) -> isRateLimit e2 = true ->
  generateContent prompt w2 = (Throw e3, w3) -> isRateLimit e3 = true ->
  generateText generateContent prompt (w, [])
  = (Throw (Some e3), (w3, schedule prompt 0 3)).
Proof.
  intros H1 R1 H2 R2 H3 R3. unfold generateText, callModel, retryWithBackoff, bind.
  change (Z.to_nat 3) with 3%nat.
  rewrite retryLoop_step, H1. cbn [fst snd]. rewrite R1.
  rewrite retryLoop_step, H2. cbn [fst snd]. rewrite R2.
  rewrite retryLoop_step, H3. cbn [fst snd]. rewrite R3.
  reflexivity.
Qed.

Lemma rateLimit_message_nonempty (e : Error) (d : JsString) :
  isRateLimit e = true -> orElse (message e) d = message e.
Proof.
  unfold isRateLimit, orElse. destruct (message e); [discriminate|reflexivity].
Qed.

(** C3: when the first call of the upstream fails with an error that is not of
    the rate-limit class, [summarizeText] and [extractKeyPoints] make that one
    call, sleep not at all and return [{ success: false, error }]; when three
    calls in a row fail with rate-limit errors the budget is exhausted and they
    return [{ success: false, error }] with the last message; and whatever the
    upstream does, they return an object and never throw, with [error] set
    whenever [success] is [false]. *)
Theorem summarize_failure_is_structured (input : JsString) (w : Upstream) :
  let p := summaryPrompt (substring0 input 8000) in
  let q := keyPointsPrompt (substring0 input 6000) in
  (forall (e : Error) (w' : Upstream),
      generateContent p w = (Throw e, w') -> isRateLimit e = false ->
      summarizeText generateContent input (w, [])
      = (Return {| success := false; text := None;
                   error := Some (orElse (message e) (lit "Failed to generate summary")) |},
         (w', [Invoke p])))
  /\ (forall (e : Error) (w' : Upstream),
         generateContent q w = (Throw e, w') -> isRateLimit e = false ->
         extractKeyPoints generateContent input (w, [])
         = (Return {| success := false; text := Some []; error := Some (message e) |},
            (w', [Invoke q])))
  /\ (forall (e1 e2 e3 : Error) (w1 w2 w3 : Upstream),
         generateContent p w = (Throw e1, w1) -> isRateLimit e1 = true ->
         generateContent p w1 = (Throw e2, w2) -> isRateLimit e2 = true ->
         generateContent p w2 = (Throw e3, w3) -> isRateLimit e3 = true ->
         summarizeText generateContent input (w, [])
         = (Return {| success := false; text := None; error := Some (message e3) |},
            (w3, [Invoke p; Sleep 1000; Invoke p; Sleep 2000; Invoke p; Sleep 4000])))
  /\ (forall (e1 e2 e3 : Error) (w1 w2 w3 : Upstream),
         generateContent q w = (Throw e1, w1) -> isRateLimit e1 = true ->
         generateContent q w1 = (Throw e2, w2) -> isRateLimit e2 = true ->
         generateContent q w2 = (Throw e3, w3) -> isRateLimit e3 = true ->
         extractKeyPoints generateContent input (w, [])
         = (Return {| success := false; text := Some []; error := Some (message e3) |},
            (w3, [Invoke q; Sleep 1000; Invoke q; Sleep 2000; Invoke q; Sleep 4000])))
  /\ (exists r : SummaryResult,
         result (summarizeText generateContent input) w = Return r
         /\ (success r = false -> exists m, error r = Some m))
  /\ (exists r : SummaryResult,
         result (extractKeyPoints generateContent input) w = Return r
         /\ (success r = false -> exists m, error r = Some m)).
Proof.
  intros p q. repeat apply conj.
  - intros e w' Hgen Hrl. unfold summarizeText, bind. fold p.
    rewrite (generateText_not_retryable Hgen Hrl). reflexivity.
  - intros e w' Hgen Hrl. unfold extractKeyPoints, bind. fold q.
    rewrite (generateText_not_retryable Hgen Hrl). reflexivity.
  - intros e1 e2 e3 w1 w2 w3 H1 R1 H2 R2 H3 R3. unfold summarizeText, bind. fold p.
    rewrite (generateText_exhausted H1 R1 H2 R2 H3 R3).
    cbn [ret]. rewrite (@rateLimit_message_nonempty e3 (lit "Failed to generate summary") R3). reflexivity.
  - intros e1 e2 e3 w1 w2 w3 H1 R1 H2 R2 H3 R3. unfold extractKeyPoints, bind. fold q.
    rewrite (generateText_exhausted H1 R1 H2 R2 H3 R3). reflexivity.
  - unfold Async.result, summarizeText, bind. fold p.
    pose proof (generateText_throws_error p (w, [])) as Hne.
    destruct (generateText generateContent p (w, [])) as [[t|[e|]] s]; cbn [fst] in *.
    + eexists. split; [reflexivity|]. cbn. discriminate.
    + eexists. split; [reflexivity|]. cbn. eauto.
    + congruence.
  - unfold Async.result, extractKeyPoints, bind. fold q.
    pose proof (generateText_throws_error q (w, [])) as Hne.
    destruct (generateText generateContent q (w, [])) as [[t|[e|]] s]; cbn [fst] in *.
    + eexists. split; [reflexivity|]. cbn. discriminate.
    + eexists. split; [reflexivity|]. cbn. eauto.
    + congruence.
Qed.

(** The client on an upstream that fails twice with rate-limit errors and
    then answers: three calls, delays of 1000 and 2000 ms, and the answer. *)
Lemma summarizeText_recovers (input : JsString) (w w1 w2 w3 : Upstream)
      (e1 e2 : Error) (summary : JsString) :
  generateContent (summaryPrompt (substring0 input 8000)) w = (Throw e1, w1) ->
  isRateLimit e1 = true ->
  generateContent (summaryPrompt (substring0 input 8000)) w1 = (Throw e2, w2) ->
  isRateLimit e2 = true ->
  generateContent (summaryPrompt (substring0 input 8000)) w2
  = (Return (mkResult (Return summary)), w3) ->
  summarizeText generateContent input (w, [])
  = (Return {| success := true; text := Some summary; error := None |},
     (w3, [Invoke (summaryPrompt (substring0 input 8000)); Sleep 1000;
           Invoke (summaryPrompt (substring0 input 8000)); Sleep 2000;
           Invoke (summaryPrompt (substring0 input 8000))])).
Proof.
  intros H1 R1 H2 R2 H3. unfold summarizeText, generateText, callModel, bind.
  rewrite (@retryWithBackoff_two_failures _ _ _ _ 3 w w1 w2 w3 e1 e2 _ H1 R1 H2 R2 H3
             ltac:(lia)).
  reflexivity.
Qed.

End ClientFacts.

(* ================================================================== *)
(** * Properties of the fetchers and of the fallback *)
(* ================================================================== *)

Section SelectionFacts.

Import StealthScraper.

Lemma firstLongEnough_cons (p : RenderedPage) (s : string) (rest : list string) :
  firstLongEnough p (s :: rest) =
  match longInnerText p s with
  | Some t => Some t
  | None => firstLongEnough p rest
  end.
Proof.
  cbn [firstLongEnough]. unfold longInnerText.
  destruct (querySelector p s) as [el|]; [|reflexivity].
  destruct (innerText el) as [[|c t]|]; try reflexivity.
  cbn [truthy andb]. destruct (200 <? List.length (c :: t))%nat; reflexivity.
Qed.

Lemma firstLongEnough_none (p : RenderedPage) (l : list string) :
  (forall s, In s l -> longInnerText p s = None) -> firstLongEnough p l = None.
Proof.
  induction l as [|s l IH]; intros Hall; [reflexivity|].
  rewrite firstLongEnough_cons, (Hall s (or_introl eq_refl)).
  apply IH. intros s' Hin. apply Hall. right; exact Hin.
Qed.

Lemma firstLongEnough_first (p : RenderedPage) (pre : list string) (sel : string)
      (post : list string) (t : JsString) :
  (forall s, In s pre -> longInnerText p s = None) ->
  longInnerText p sel = Some t ->
  firstLongEnough p (pre ++ sel :: post) = Some t.
Proof.
  induction pre as [|s pre IH]; intros Hpre Hsel; cbn [app].
  - rewrite firstLongEnough_cons, Hsel. reflexivity.
  - rewrite firstLongEnough_cons, (Hpre s (or_introl eq_refl)).
    apply IH; [|exact Hsel]. intros s' Hin. apply Hpre. right; exact Hin.
Qed.

(** C6: the rendering fetcher returns the inner text of the first selector of
    [mainSelectors] whose element has more than 200 code units of inner text,
    whatever the later selectors hold; when no selector has, it returns
    [document.body.innerText]. *)
Theorem extractMainText_first_over_200 (p : RenderedPage) :
  (forall (pre : list string) (sel : string) (post : list string) (t : JsString),
      mainSelectors = pre ++ sel :: post ->
      (forall s, In s pre -> longInnerText p s = None) ->
      longInnerText p sel = Some t ->
      extractMainText p = Some t)
  /\ ((forall s, In s mainSelectors -> longInnerText p s = None) ->
      extractMainText p = bodyInnerText p).
Proof.
  split.
  - intros pre sel post t Hsplit Hpre Hsel. unfold extractMainText.
    rewrite Hsplit, (@firstLongEnough_first p pre sel post t Hpre Hsel). reflexivity.
  - intros Hall. unfold extractMainText.
    rewrite (@firstLongEnough_none p mainSelectors Hall). reflexivity.
Qed.

Lemma longestText_spec (d : CheerioDoc) (l : list string) :
  forall acc : JsString,
    List.length acc <= List.length (longestText d l acc)
    /\ (forall sel, In sel l -> 0 < selLength d sel ->
                    List.length (selText d sel) <= List.length (longestText d l acc))
    /\ (longestText d l acc = acc
        \/ exists sel, In sel l /\ 0 < selLength d sel
                       /\ longestText d l acc = selText d sel).
Proof.
  induction l as [|s l IH]; intros acc; cbn [longestText].
  - repeat split; [lia|intros sel []|left; reflexivity].
  - destruct (Nat.ltb_spec 0 (selLength d s)) as [Hpresent|Habsent].
    + destruct (Nat.ltb_spec (List.length acc) (List.length (selText d s))) as [Hlt|Hge].
      * destruct (IH (selText d s)) as [Hacc [Hmax Hfrom]].
        split; [lia|]. split.
        -- intros sel [<-|Hin] Hsel; [exact Hacc|exact (Hmax sel Hin Hsel)].
        -- right. destruct Hfrom as [Heq|[sel [Hin [Hsel Heq]]]].
           ++ exists s. repeat split; [left; reflexivity|exact Hpresent|exact Heq].
           ++ exists sel. repeat split; [right; exact Hin|exact Hsel|exact Heq].
      * destruct (IH acc) as [Hacc [Hmax Hfrom]].
        split; [exact Hacc|]. split.
        -- intros sel [<-|Hin] Hsel; [lia|exact (Hmax sel Hin Hsel)].
        -- destruct Hfrom as [Heq|[sel [Hin [Hsel Heq]]]]; [left; exact Heq|].
           right. exists sel. repeat split; [right; exact Hin|exact Hsel|exact Heq].
    + destruct (IH acc) as [Hacc [Hmax Hfrom]].
      split; [exact Hacc|]. split.
      * intros sel [<-|Hin] Hsel; [lia|exact (Hmax sel Hin Hsel)].
      * destruct Hfrom as [Heq|[sel [Hin [Hsel Heq]]]]; [left; exact Heq|].
        right. exists sel. repeat split; [right; exact Hin|exact Hsel|exact Heq].
Qed.

(** C5: when some of the content selectors match, the text the lightweight
    fetcher keeps is the text of a selector that matches, and no selector
    that matches has a longer text: the longest wins, not the first. *)
Theorem longestText_is_greatest (d : CheerioDoc) :
  (exists sel, In sel contentSelectors /\ 0 < selLength d sel) ->
  (exists sel, In sel contentSelectors /\ 0 < selLength d sel
               /\ longestText d contentSelectors [] = selText d sel)
  /\ (forall sel, In sel contentSelectors -> 0 < selLength d sel ->
                  List.length (selText d sel)
                  <= List.length (longestText d contentSelectors [])).
Proof.
  intros [sel0 [Hin0 Hsel0]].
  destruct (longestText_spec d contentSelectors []) as [_ [Hmax Hfrom]].
  split; [|exact Hmax].
  destruct Hfrom as [Hnil|Hex]; [|exact Hex].
  exists sel0. repeat split; [exact Hin0|exact Hsel0|].
  pose proof (Hmax sel0 Hin0 Hsel0) as Hle. rewrite Hnil in Hle |- *.
  destruct (selText d sel0); [reflexivity|cbn in Hle; lia].
Qed.

End SelectionFacts.

Section FetcherFacts.

Variable World : Type.
Variable parseURL : JsString -> option URL.
Variable maxTextLength : Z.
Variable render : JsString -> World -> option RenderedPage * World.
Variable httpGet : JsString -> World -> option Response * World.

Local Abbreviation scrapeWithPuppeteer :=
  (StealthScraper.scrapeWithPuppeteer maxTextLength render).
Local Abbreviation scrapeWithCheerio :=
  (StealthScraper.scrapeWithCheerio maxTextLength httpGet).
Local Abbreviation scrapeWebsite :=
  (StealthScraper.scrapeWebsite parseURL maxTextLength render httpGet).
Local Abbreviation scrapeWithCheerioOnly := (Scraper.scrapeWithCheerio httpGet).

Lemma scrapeWithPuppeteer_run (url : JsString) (w : World) (tr : list Event) :
  scrapeWithPuppeteer url (w, tr) =
  (match fst (render url w) with
   | Some page => StealthScraper.extractRendered page maxTextLength
   | None => None
   end,
   (snd (render url w), tr ++ [LaunchBrowser url])).
Proof.
  unfold StealthScraper.scrapeWithPuppeteer. io_run.
  destruct (render url w) as [[page|] w']; reflexivity.
Qed.

Lemma scrapeWithCheerio_run (url : JsString) (w : World) (tr : list Event) :
  scrapeWithCheerio url (w, tr) =
  (match fst (httpGet url w) with
   | Some response =>
       if negb (StealthScraper.validateStatus (status response)) then None
       else if ((status response =? 403) || (status response =? 429))%Z then None
       else extractWithCheerio (dom response) maxTextLength
   | None => None
   end,
   (snd (httpGet url w), tr ++ [HttpGet url])).
Proof.
  unfold StealthScraper.scrapeWithCheerio. io_run.
  destruct (httpGet url w) as [[response|] w']; [|reflexivity].
  cbn [fst snd]. destruct (negb (StealthScraper.validateStatus (status response))); [reflexivity|].
  destruct ((status response =? 403) || (status response =? 429))%Z; reflexivity.
Qed.

Lemma scrapeWithCheerioOnly_run (url : JsString) (w : World) (tr : list Event) :
  scrapeWithCheerioOnly url (w, tr) =
  (match fst (httpGet url w) with
   | Some response =>
       if negb (Scraper.validateStatus (status response)) then None
       else if ((status response =? 403) || (status response =? 429))%Z then None
       else extractWithCheerio (dom response) Scraper.maxTextLength
   | None => None
   end,
   (snd (httpGet url w), tr ++ [HttpGet url])).
Proof.
  unfold Scraper.scrapeWithCheerio. io_run.
  destruct (httpGet url w) as [[response|] w']; [|reflexivity].
  cbn [fst snd]. destruct (negb (Scraper.validateStatus (status response))); [reflexivity|].
  destruct ((status response =? 403) || (status response =? 429))%Z; reflexivity.
Qed.

Lemma extractRendered_threshold (page : RenderedPage) (m : Z) :
  match StealthScraper.extractRendered page m with
  | Some r =>
      exists t, StealthScraper.extractMainText page = Some t
                /\ text r = cleanAndLimit t m /\ 100 < List.length (text r)
  | None =>
      forall t, StealthScraper.extractMainText page = Some t ->
                List.length (cleanAndLimit t m) <= 100
  end.
Proof.
  unfold StealthScraper.extractRendered.
  destruct (StealthScraper.extractMainText page) as [t|]; [|discriminate].
  destruct (Nat.ltb_spec 100 (List.length (cleanAndLimit t m))) as [Hgt|Hle].
  - exists t. cbn [text]. auto.
  - intros t' [= <-]. exact Hle.
Qed.

Lemma extractWithCheerio_threshold (d : CheerioDoc) (m : Z) :
  match extractWithCheerio d m with
  | Some r =>
      text r = cleanAndLimit (longestText d contentSelectors []) m
      /\ 100 < List.length (text r)
  | None => List.length (cleanAndLimit (longestText d contentSelectors []) m) <= 100
  end.
Proof.
  unfold extractWithCheerio.
  destruct (Nat.ltb_spec 100
              (List.length (cleanAndLimit (longestText d contentSelectors []) m)))
    as [Hgt|Hle]; cbn [text]; auto.
Qed.

(** C4: a fetcher of either tier returns a result only with a text, cleaned
    and cut to the maximum, of more than 100 code units; when the cleaned and
    cut text of the page it got has 100 code units or fewer it returns
    [null].  The same holds of the version with the lightweight tier alone. *)
Theorem fetchers_need_more_than_100 (url : JsString) (w : World) :
  (forall r, result (scrapeWithPuppeteer url) w = Some r ->
             100 < List.length (text r))
  /\ (forall page t,
         fst (render url w) = Some page ->
         StealthScraper.extractMainText page = Some t ->
         List.length (cleanAndLimit t maxTextLength) <= 100 ->
         result (scrapeWithPuppeteer url) w = None)
  /\ (forall r, result (scrapeWithCheerio url) w = Some r ->
                100 < List.length (text r))
  /\ (forall response,
         fst (httpGet url w) = Some response ->
         List.length (cleanAndLimit (longestText (dom response) contentSelectors [])
                                    maxTextLength) <= 100 ->
         result (scrapeWithCheerio url) w = None)
  /\ (forall r, result (scrapeWithCheerioOnly url) w = Some r ->
                100 < List.length (text r))
  /\ (forall response,
         fst (httpGet url w) = Some response ->
         List.length (cleanAndLimit (longestText (dom response) contentSelectors [])
                                    Scraper.maxTextLength) <= 100 ->
         result (scrapeWithCheerioOnly url) w = None).
Proof.
  unfold Async.result. repeat apply conj.
  - intros r. rewrite scrapeWithPuppeteer_run. cbn [fst].
    destruct (fst (render url w)) as [page|]; [|discriminate].
    pose proof (extractRendered_threshold page maxTextLength) as H.
    intros Heq. rewrite Heq in H. destruct H as [t [_ [_ H]]]. exact H.
  - intros page t Hpage Ht Hle. rewrite scrapeWithPuppeteer_run, Hpage. cbn [fst].
    pose proof (extractRendered_threshold page maxTextLength) as H.
    destruct (StealthScraper.extractRendered page maxTextLength) as [r|]; [|reflexivity].
    destruct H as [t' [Ht' [Hr Hgt]]]. rewrite Ht in Ht'. injection Ht' as <-.
    rewrite Hr in Hgt. lia.
  - intros r. rewrite scrapeWithCheerio_run. cbn [fst].
    destruct (fst (httpGet url w)) as [response|]; [|discriminate].
    destruct (negb _); [discriminate|]. destruct (_ || _)%bool; [discriminate|].
    pose proof (extractWithCheerio_threshold (dom response) maxTextLength) as H.
    intros Heq. rewrite Heq in H. apply H.
  - intros response Hresp Hle. rewrite scrapeWithCheerio_run, Hresp. cbn [fst].
    destruct (negb _); [reflexivity|]. destruct (_ || _)%bool; [reflexivity|].
    pose proof (extractWithCheerio_threshold (dom response) maxTextLength) as H.
    destruct (extractWithCheerio (dom response) maxTextLength) as [r|]; [|reflexivity].
    destruct H as [Hr Hgt]. rewrite Hr in Hgt. lia.
  - intros r. rewrite scrapeWithCheerioOnly_run. cbn [fst].
    destruct (fst (httpGet url w)) as [response|]; [|discriminate].
    destruct (negb _); [discriminate|]. destruct (_ || _)%bool; [discriminate|].
    pose proof (extractWithCheerio_threshold (dom response) Scraper.maxTextLength) as H.
    intros Heq. rewrite Heq in H. apply H.
  - intros response Hresp Hle. rewrite scrapeWithCheerioOnly_run, Hresp. cbn [fst].
    destruct (negb _); [reflexivity|]. destruct (_ || _)%bool; [reflexivity|].
    pose proof (extractWithCheerio_threshold (dom response) Scraper.maxTextLength) as H.
    destruct (extractWithCheerio (dom response) Scraper.maxTextLength) as [r|]; [|reflexivity].
    destruct H as [Hr Hgt]. rewrite Hr in Hgt. lia.
Qed.

Lemma scrapeWebsite_run (url : JsString) (w : World) :
  scrapeWebsite url (w, []) =
  if negb (isValidUrl parseURL url) then (Failed invalidUrlError, (w, []))
  else
    match result (scrapeWithPuppeteer url) w with
    | Some r => (Content r, (world (scrapeWithPuppeteer url) w, [LaunchBrowser url]))
    | None =>
        (match result (scrapeWithCheerio url) (world (scrapeWithPuppeteer url) w) with
         | Some r => Content r
         | None => Failed StealthScraper.allFailedError
         end,
         (world (scrapeWithCheerio url) (world (scrapeWithPuppeteer url) w),
          [LaunchBrowser url; HttpGet url]))
    end.
Proof.
  unfold StealthScraper.scrapeWebsite.
  destruct (negb (isValidUrl parseURL url)); [reflexivity|].
  unfold Async.result, Async.world. unfold bind at 1.
  rewrite !scrapeWithPuppeteer_run. cbn [fst snd app].
  destruct (match fst (render url w) with
            | Some page => StealthScraper.extractRendered page maxTextLength
            | None => None
            end) as [r|]; [reflexivity|].
  unfold bind. rewrite !scrapeWithCheerio_run. cbn [fst snd app].
  destruct (match fst (httpGet url (snd (render url w))) with
            | Some response => _
            | None => None
            end) as [r|]; reflexivity.
Qed.

(** C1: [scrapeWebsite] validates the URL first and on a URL that is not an
    http/https URL returns the error at once, the world untouched and nothing
    fetched; on a valid one it launches the rendering fetcher first and
    returns its result when there is one, the lightweight fetcher not called;
    only when the rendering fetcher returned [null] it calls the lightweight
    fetcher; and the unified error is returned exactly when both returned
    [null]. *)
Theorem scrapeWebsite_fallback_order (url : JsString) (w : World) :
  (isValidUrl parseURL url = false ->
   scrapeWebsite url (w, []) = (Failed invalidUrlError, (w, [])))
  /\ (isValidUrl parseURL url = true ->
      forall r, result (scrapeWithPuppeteer url) w = Some r ->
                result (scrapeWebsite url) w = Content r
                /\ trace (scrapeWebsite url) w = [LaunchBrowser url]
                /\ world (scrapeWebsite url) w = world (scrapeWithPuppeteer url) w)
  /\ (isValidUrl parseURL url = true ->
      result (scrapeWithPuppeteer url) w = None ->
      trace (scrapeWebsite url) w = [LaunchBrowser url; HttpGet url]
      /\ result (scrapeWebsite url) w =
         match result (scrapeWithCheerio url) (world (scrapeWithPuppeteer url) w) with
         | Some r => Content r
         | None => Failed StealthScraper.allFailedError
         end)
  /\ (result (scrapeWebsite url) w = Failed StealthScraper.allFailedError
      <-> (isValidUrl parseURL url = true
           /\ result (scrapeWithPuppeteer url) w = None
           /\ result (scrapeWithCheerio url) (world (scrapeWithPuppeteer url) w) = None)).
Proof.
  pose proof (scrapeWebsite_run url w) as Hrun.
  split; [|split; [|split]].
  - intros Hbad. rewrite Hrun, Hbad. reflexivity.
  - intros Hok r Hr. unfold Async.result at 1, Async.trace, Async.world at 1.
    rewrite Hrun, Hok, Hr. cbn. auto.
  - intros Hok Hnone. unfold Async.result at 1, Async.trace.
    rewrite Hrun, Hok, Hnone. cbn. auto.
  - unfold Async.result at 1. rewrite Hrun.
    destruct (isValidUrl parseURL url); cbn [negb fst].
    + destruct (result (scrapeWithPuppeteer url) w) as [r|]; cbn [fst].
      * split; [discriminate|]. intros [_ [H _]]. discriminate H.
      * destruct (result (scrapeWithCheerio url) (world (scrapeWithPuppeteer url) w)) as [r|].
        -- split; [discriminate|]. intros [_ [_ H]]. discriminate H.
        -- split; auto.
    + split; [|intros [H _]; discriminate H].
      intros H. apply (f_equal (fun x => match x with
                                         | Failed e => List.length e
                                         | Content _ => 0
                                         end)) in H.
      vm_compute in H. discriminate H.
Qed.

(** The version with the lightweight tier alone validates first as well, then
    makes its one request. *)
Lemma scrapeWebsite_lightweight_only (url : JsString) (w : World) :
  Scraper.scrapeWebsite parseURL httpGet url (w, []) =
  if negb (isValidUrl parseURL url) then (Failed invalidUrlError, (w, []))
  else
    (match result (scrapeWithCheerioOnly url) w with
     | Some r => Content r
     | None => Failed Scraper.scrapeFailedError
     end,
     (world (scrapeWithCheerioOnly url) w, [HttpGet url])).
Proof.
  unfold Scraper.scrapeWebsite.
  destruct (negb (isValidUrl parseURL url)); [reflexivity|].
  unfold Async.result, Async.world, bind.
  rewrite !scrapeWithCheerioOnly_run. cbn [fst snd app].
  destruct (match fst (httpGet url w) with
            | Some response => _
            | None => None
            end) as [r|]; reflexivity.
Qed.

End FetcherFacts.

(* ================================================================== *)
(** * More on the text processor *)
(* ================================================================== *)

Section NormalizationFacts.

Lemma replaceRuns_length (s : JsString) :
  forall b, List.length (replaceRuns b s) <= List.length s.
Proof.
  induction s as [|c s IH]; intros b; cbn [replaceRuns]; [lia|].
  pose proof (IH true). pose proof (IH false).
  destruct (isWhitespace c); [destruct b|]; cbn [List.length]; lia.
Qed.

Lemma dropWhile_length (p : CodeUnit -> bool) (s : JsString) :
  List.length (dropWhile p s) <= List.length s.
Proof.
  destruct (dropWhile_suffix p s) as [l Hl].
  rewrite Hl at 2. rewrite length_app. lia.
Qed.

Lemma trim_length (s : JsString) : List.length (trim s) <= List.length s.
Proof.
  unfold trim. rewrite length_rev.
  pose proof (dropWhile_length isWhitespace (rev (dropWhile isWhitespace s))) as H1.
  rewrite length_rev in H1.
  pose proof (dropWhile_length isWhitespace s). lia.
Qed.

Lemma filter_length (f : CodeUnit -> bool) (s : JsString) :
  List.length (filter f s) <= List.length s.
Proof.
  induction s as [|c s IH]; cbn [filter]; [lia|].
  destruct (f c); cbn [List.length]; lia.
Qed.

Lemma cleanText_length (s : JsString) :
  List.length (cleanText s) <= List.length s.
Proof.
  unfold cleanText. destruct s as [|c s]; [cbn; lia|].
  pose proof (trim_length (filter keptByCleanText (collapseWhitespace (c :: s)))).
  pose proof (filter_length keptByCleanText (collapseWhitespace (c :: s))).
  pose proof (replaceRuns_length (c :: s) false).
  unfold collapseWhitespace in *. lia.
Qed.

(** X1: [cleanText] only replaces runs by one space, deletes and trims, so
    its result is never longer than its argument, and so neither is what
    [extractMetadata] reports of it as [characterCount]. *)
Theorem cleanText_never_longer (now : Z) (s : JsString) :
  List.length (cleanText s) <= List.length s
  /\ characterCount (extractMetadata now (cleanText s)) <= List.length s.
Proof. split; apply cleanText_length. Qed.

Lemma Forall_dropWhile (P : CodeUnit -> Prop) (p : CodeUnit -> bool) (s : JsString) :
  Forall P s -> Forall P (dropWhile p s).
Proof.
  intros H. destruct (dropWhile_suffix p s) as [l Hl].
  rewrite Hl in H. apply Forall_app in H. apply H.
Qed.

Lemma Forall_trim (P : CodeUnit -> Prop) (s : JsString) :
  Forall P s -> Forall P (trim s).
Proof.
  intros H. unfold trim.
  apply Forall_rev, Forall_dropWhile, Forall_rev, Forall_dropWhile, H.
Qed.

Lemma Forall_filter_keep (P : CodeUnit -> Prop) (f : CodeUnit -> bool) (s : JsString) :
  Forall P s -> Forall P (filter f s).
Proof.
  induction 1 as [|c s Hc Hs IH]; cbn [filter]; [constructor|].
  destruct (f c); [constructor|]; assumption.
Qed.

Lemma Forall_filter_pass (f : CodeUnit -> bool) (s : JsString) :
  Forall (fun c => f c = true) (filter f s).
Proof.
  induction s as [|c s IH]; cbn [filter]; [constructor|].
  destruct (f c) eqn:Hc; [constructor|]; assumption.
Qed.

Lemma filter_all (f : CodeUnit -> bool) (s : JsString) :
  Forall (fun c => f c = true) s -> filter f s = s.
Proof.
  induction 1 as [|c s Hc Hs IH]; cbn [filter]; [reflexivity|].
  rewrite Hc, IH. reflexivity.
Qed.

Lemma replaceRuns_only_spaces (s : JsString) :
  forall b, OnlySpaces (replaceRuns b s).
Proof.
  unfold OnlySpaces.
  induction s as [|c s IH]; intros b; cbn [replaceRuns]; [constructor|].
  destruct (isWhitespace c) eqn:Hc.
  - destruct b; [apply IH|]. constructor; [reflexivity|apply IH].
  - constructor; [congruence|apply IH].
Qed.

Lemma replaceRuns_kept (s : JsString) :
  Forall (fun c => keptByCleanText c = true) s ->
  forall b, Forall (fun c => keptByCleanText c = true) (replaceRuns b s).
Proof.
  induction 1 as [|c s Hc Hs IH]; intros b; cbn [replaceRuns]; [constructor|].
  destruct (isWhitespace c).
  - destruct b; [apply IH|]. constructor; [reflexivity|apply IH].
  - constructor; [exact Hc|apply IH].
Qed.

Lemma dropWhile_head (p : CodeUnit -> bool) (s : JsString) (c : CodeUnit)
      (rest : JsString) :
  dropWhile p s = c :: rest -> p c = false.
Proof.
  induction s as [|a s IH]; cbn [dropWhile]; [discriminate|].
  destruct (p a) eqn:Ha; [exact IH|].
  intros [= <- _]. exact Ha.
Qed.

Lemma dropWhile_id (p : CodeUnit -> bool) (s : JsString) :
  (forall c rest, s = c :: rest -> p c = false) -> dropWhile p s = s.
Proof.
  destruct s as [|a s]; [reflexivity|]. intros H. cbn [dropWhile].
  rewrite (H a s eq_refl). reflexivity.
Qed.

Lemma trim_Trimmed (s : JsString) : Trimmed (trim s).
Proof.
  unfold trim.
  set (x := dropWhile isWhitespace s).
  set (y := dropWhile isWhitespace (rev x)).
  split.
  - intros c rest H.
    destruct (dropWhile_suffix isWhitespace (rev x)) as [l Hl]. fold y in Hl.
    apply (f_equal (@rev CodeUnit)) in H. rewrite rev_involutive in H. cbn [rev] in H.
    rewrite H in Hl. apply (f_equal (@rev CodeUnit)) in Hl.
    rewrite rev_involutive, !rev_app_distr, rev_involutive in Hl. cbn [rev app] in Hl.
    exact (@dropWhile_head isWhitespace s _ _ Hl).
  - intros c pre H.
    apply (f_equal (@rev CodeUnit)) in H. rewrite rev_involutive, rev_app_distr in H.
    cbn [rev app] in H. exact (@dropWhile_head isWhitespace (rev x) _ _ H).
Qed.

Lemma trim_id (s : JsString) : Trimmed s -> trim s = s.
Proof.
  intros [Hhead Hlast]. unfold trim.
  rewrite (@dropWhile_id isWhitespace s Hhead).
  rewrite dropWhile_id; [apply rev_involutive|].
  intros c rest H. apply (Hlast c (rev rest)).
  rewrite <- (rev_involutive s), H. reflexivity.
Qed.

Lemma NoRun_tail (a : CodeUnit) (s : JsString) : NoRun (a :: s) -> NoRun s.
Proof.
  intros H. exact (proj2 (NoRun_app [a] s H)).
Qed.

Lemma replaceRuns_restart (s : JsString) :
  (forall c rest, s = c :: rest -> isWhitespace c = false) ->
  replaceRuns true s = replaceRuns false s.
Proof.
  destruct s as [|a s]; [reflexivity|]. intros H. cbn [replaceRuns].
  rewrite (H a s eq_refl). reflexivity.
Qed.

Lemma collapseWhitespace_id (s : JsString) :
  OnlySpaces s -> NoRun s -> collapseWhitespace s = s.
Proof.
  unfold collapseWhitespace, OnlySpaces.
  induction 1 as [|c s Hc Hs IH]; intros Hno; [reflexivity|].
  specialize (IH (@NoRun_tail c s Hno)). cbn [replaceRuns].
  destruct (isWhitespace c) eqn:Hws.
  - replace (c :: s) with (space :: s) by (rewrite (Hc eq_refl); reflexivity).
    f_equal. rewrite replaceRuns_restart; [exact IH|].
    intros d rest ->. pose proof (Hno [] c d rest eq_refl) as H.
    rewrite Hws in H. exact H.
  - rewrite IH. reflexivity.
Qed.

Lemma cleanText_shape (s : JsString) :
  Forall (fun c => keptByCleanText c = true) (cleanText s)
  /\ OnlySpaces (cleanText s)
  /\ Trimmed (cleanText s).
Proof.
  unfold cleanText. destruct s as [|a s].
  - repeat split; try constructor; intros c l H;
      [discriminate H | destruct l; discriminate H].
  - split; [|split].
    + apply Forall_trim, Forall_filter_pass.
    + apply Forall_trim, Forall_filter_keep, replaceRuns_only_spaces.
    + apply trim_Trimmed.
Qed.

(** X2: whatever the input, the result of [cleanText] holds only word
    characters, the allowed punctuation and U+0020 (every other whitespace
    became a space or was trimmed), and neither starts nor ends with
    whitespace. *)
Theorem cleanText_alphabet (s : JsString) :
  Forall (fun c => isWord c = true \/ c = space
                   \/ In c (lit ".,!?;:()-'" ++ [34%N])) (cleanText s)
  /\ Trimmed (cleanText s).
Proof.
  destruct (cleanText_shape s) as [Hk [Hsp Htrim]]. split; [|exact Htrim].
  unfold OnlySpaces in Hsp. rewrite Forall_forall in *. intros c Hin.
  specialize (Hk c Hin). specialize (Hsp c Hin). unfold keptByCleanText in Hk.
  apply orb_true_iff in Hk. destruct Hk as [Hk|Hk].
  - apply orb_true_iff in Hk. destruct Hk as [Hw|Hws]; [left; exact Hw|].
    right; left. exact (Hsp Hws).
  - right; right. apply existsb_exists in Hk. destruct Hk as [x [Hx Heq]].
    apply N.eqb_eq in Heq. subst x. exact Hx.
Qed.

Lemma cleanText_fixes_normalized (s : JsString) : Normalized s -> cleanText s = s.
Proof.
  intros [Hkept [Hsp [Hno Htrim]]]. unfold cleanText.
  destruct s as [|a s]; [reflexivity|].
  rewrite (@collapseWhitespace_id _ Hsp Hno), (@filter_all keptByCleanText _ Hkept).
  exact (@trim_id _ Htrim).
Qed.

Lemma cleanText_normalizes_allowed (s : JsString) :
  Forall (fun c => keptByCleanText c = true) s -> Normalized (cleanText s).
Proof.
  intros Hkept. destruct (cleanText_shape s) as [Hk [Hsp Htrim]].
  repeat split; try assumption; try apply Htrim.
  unfold cleanText. destruct s as [|a s].
  - intros [|x pre] a b post H; discriminate H.
  - unfold collapseWhitespace.
    rewrite (@filter_all keptByCleanText _ (@replaceRuns_kept _ Hkept false)).
    unfold trim. apply NoRun_rev, NoRun_dropWhile, NoRun_rev, NoRun_dropWhile.
    apply hasWhitespaceRun_false_iff. apply (replaceRuns_no_run (a :: s)).
Qed.

(** X3: a second pass of [cleanText] always reaches the normal form, and from
    there on the text no longer changes: the function is idempotent from its
    second application on. *)
Theorem cleanText_settles_after_two (s : JsString) :
  Normalized (cleanText (cleanText s))
  /\ hasWhitespaceRun (cleanText (cleanText s)) = false
  /\ cleanText (cleanText (cleanText s)) = cleanText (cleanText s).
Proof.
  assert (Hn : Normalized (cleanText (cleanText s))).
  { apply cleanText_normalizes_allowed. apply (cleanText_shape s). }
  split; [exact Hn|]. split.
  - apply hasWhitespaceRun_false_iff. apply Hn.
  - exact (@cleanText_fixes_normalized _ Hn).
Qed.

(** X4: on a text that holds no code unit [cleanText] would delete, one pass
    is enough: the result is in normal form, has no whitespace run, and a
    second pass returns it unchanged. *)
Theorem cleanText_idempotent_on_allowed (s : JsString) :
  Forall (fun c => keptByCleanText c = true) s ->
  Normalized (cleanText s)
  /\ hasWhitespaceRun (cleanText s) = false
  /\ cleanText (cleanText s) = cleanText s.
Proof.
  intros Hkept. pose proof (@cleanText_normalizes_allowed s Hkept) as Hn.
  split; [exact Hn|]. split.
  - apply hasWhitespaceRun_false_iff. apply Hn.
  - exact (@cleanText_fixes_normalized _ Hn).
Qed.

End NormalizationFacts.

Section MetadataFacts.

(** X5: [truncateText] is idempotent, for any [maxLength], and it never
    touches the first [maxLength] code units of the text. *)
Theorem truncateText_idempotent (t : JsString) (maxLength : Z) :
  truncateText (truncateText t maxLength) maxLength = truncateText t maxLength
  /\ substring0 (truncateText t maxLength) maxLength = substring0 t maxLength.
Proof.
  unfold truncateText, substring0.
  destruct (Z.leb_spec (Z.of_nat (List.length t)) maxLength) as [Hle|Hgt].
  - split; [|reflexivity].
    destruct (Z.leb_spec (Z.of_nat (List.length t)) maxLength); [reflexivity|lia].
  - assert (Hlen : List.length (firstn (Z.to_nat maxLength) t) = Z.to_nat maxLength)
      by (rewrite length_firstn; lia).
    assert (Hcut : firstn (Z.to_nat maxLength) (firstn (Z.to_nat maxLength) t ++ lit "...")
                   = firstn (Z.to_nat maxLength) t).
    { rewrite firstn_app, Hlen, Nat.sub_diag, firstn_O, app_nil_r.
      apply firstn_all2. lia. }
    split; [|exact Hcut].
    destruct (Z.leb_spec
                (Z.of_nat (List.length (firstn (Z.to_nat maxLength) t ++ lit "...")))
                maxLength) as [Hle'|_].
    + rewrite length_app, Hlen in Hle'. cbn in Hle'. lia.
    + rewrite Hcut. reflexivity.
Qed.

Lemma splitRuns_pieces (cls : CodeUnit -> bool) (s : JsString) :
  forall (cur : JsString) (inRun : bool),
    Forall (fun c => cls c = false) cur ->
    (s = [] -> cur <> []) ->
    (forall c pre, s = pre ++ [c] -> cls c = false) ->
    (inRun = false -> cur = [] -> exists c r, s = c :: r /\ cls c = false) ->
    Forall (fun w => w <> [] /\ Forall (fun c => cls c = false) w)
           (splitRuns cls cur inRun s).
Proof.
  induction s as [|c s IH]; intros cur inRun Hcur Hnil Hlast Hhead; cbn [splitRuns].
  - constructor; [|constructor]. split.
    + intros H. apply (Hnil eq_refl). apply (f_equal (@rev CodeUnit)) in H.
      rewrite rev_involutive in H. exact H.
    + apply Forall_rev, Hcur.
  - assert (Hlast' : forall c' pre, s = pre ++ [c'] -> cls c' = false).
    { intros c' pre ->. exact (Hlast c' (c :: pre) eq_refl). }
    destruct (cls c) eqn:Hc.
    + assert (Hs : s <> []).
      { intros ->. rewrite (Hlast c [] eq_refl) in Hc. discriminate Hc. }
      assert (Hrec : Forall (fun w => w <> [] /\ Forall (fun c => cls c = false) w)
                            (splitRuns cls [] true s)).
      { apply IH; [constructor| |exact Hlast'|discriminate]. intros H; contradiction. }
      destruct inRun; [exact Hrec|]. constructor; [|exact Hrec]. split.
      * intros H. assert (Hc0 : cur = []).
        { apply (f_equal (@rev CodeUnit)) in H. rewrite rev_involutive in H. exact H. }
        destruct (Hhead eq_refl Hc0) as [c' [r [[= <- _] Hc']]]. congruence.
      * apply Forall_rev, Hcur.
    + apply IH; [constructor; assumption|discriminate|exact Hlast'|discriminate].
Qed.

Lemma split_of_trimmed (s : JsString) :
  Trimmed s -> s <> [] ->
  Forall (fun w => w <> [] /\ Forall (fun c => isWhitespace c = false) w)
         (split isWhitespace s).
Proof.
  intros [Hhead Hlast] Hne. unfold split. apply splitRuns_pieces.
  - constructor.
  - intros H; contradiction.
  - exact Hlast.
  - intros _ _. destruct s as [|c r]; [contradiction|].
    exists c, r. split; [reflexivity|exact (Hhead c r eq_refl)].
Qed.

(** X6: the server computes the metadata of [cleanText(scraped.text)]; unless
    that text is empty, the words [extractMetadata] counts in it are all
    non-empty and free of whitespace (no empty token is counted, as one is on
    the empty string or on a text that ends with a space). *)
Theorem words_of_cleaned_text (now : Z) (t : JsString) :
  cleanText t <> [] ->
  exists words : list JsString,
    words = split isWhitespace (cleanText t)
    /\ TextProcessor.wordCount (extractMetadata now (cleanText t)) = List.length words
    /\ Forall (fun w => w <> [] /\ Forall (fun c => isWhitespace c = false) w) words.
Proof.
  intros Hne. exists (split isWhitespace (cleanText t)).
  split; [reflexivity|]. split; [reflexivity|].
  apply split_of_trimmed; [|exact Hne]. apply (cleanText_shape t).
Qed.

(** X7: the reading time is never below one minute, is one minute for fewer
    than 300 words, and from 100 words on is the word count over 200 rounded
    to the nearest integer, halves up. *)
Theorem readingMinutes_rounds (now : Z) (s : JsString) :
  exists minutes : N,
    readingTime (extractMetadata now s) = numberToString minutes ++ lit " min read"
    /\ (1 <= minutes)%N
    /\ (TextProcessor.wordCount (extractMetadata now s) < 300 -> minutes = 1%N)
    /\ (100 <= TextProcessor.wordCount (extractMetadata now s) ->
        (200 * minutes - 100
         <= N.of_nat (TextProcessor.wordCount (extractMetadata now s))
         < 200 * minutes + 100)%N).
Proof.
  exists (readingMinutes (List.length (split isWhitespace s))).
  split; [reflexivity|]. cbn [TextProcessor.wordCount extractMetadata].
  generalize (List.length (split isWhitespace s)) as n. intros n.
  unfold readingMinutes.
  pose proof (N.div_mod (N.of_nat n + 100) 200 ltac:(lia)) as Hdiv.
  pose proof (N.mod_lt (N.of_nat n + 100) 200 ltac:(lia)) as Hmod.
  split; [apply N.le_max_l|]. split.
  - intros Hlt. apply N.max_l, N.lt_succ_r, N.Div0.div_lt_upper_bound. lia.
  - intros Hge. rewrite N.max_r by (apply N.div_le_lower_bound; lia).
    set (q := ((N.of_nat n + 100) / 200)%N) in *.
    set (r := ((N.of_nat n + 100) mod 200)%N) in *.
    clearbody q r. lia.
Qed.

End MetadataFacts.

(* ================================================================== *)
(** * More on the summarization client *)
(* ================================================================== *)

Section BudgetFacts.

Import GeminiClient.

Variable Upstream : Type.

Lemma calls_app (l r : list Event) : calls (l ++ r) = calls l + calls r.
Proof. unfold calls. rewrite filter_app, length_app. reflexivity. Qed.

Lemma slept_app (l r : list Event) : slept (l ++ r) = (slept l + slept r)%Z.
Proof.
  induction l as [|[arg|ms] l IH]; cbn [app slept]; [reflexivity|exact IH|lia].
Qed.

Lemma backoff_range (j : nat) :
  (1000 <= Z.min (1000 * 2 ^ Z.of_nat j) 10000 <= 10000)%Z.
Proof.
  assert (1 <= 2 ^ Z.of_nat j)%Z by (apply Z.pow_le_mono_r with (b := 0%Z); lia).
  lia.
Qed.

Lemma schedule_budget (arg : JsString) (k : nat) :
  forall i, calls (schedule arg i k) = k
            /\ (1000 * Z.of_nat k <= slept (schedule arg i k) <= 10000 * Z.of_nat k)%Z.
Proof.
  induction k as [|k IH]; intros i; [cbn; lia|].
  destruct (IH (S i)) as [Hc Hs]. pose proof (backoff_range i) as Hb.
  change (schedule arg i (S k)) with (attempt arg i ++ schedule arg (S i) k).
  rewrite calls_app, slept_app, Hc. unfold attempt. cbn [calls filter List.length slept].
  lia.
Qed.

Lemma schedule_default (arg : JsString) (k : nat) :
  k <= 3 -> (slept (schedule arg 0 k) <= 7000)%Z.
Proof.
  intros Hk. destruct k as [|[|[|[|k]]]]; try lia; cbn; lia.
Qed.

Lemma schedule_events (arg : JsString) (k : nat) :
  forall i, Forall (fun e => e = Invoke arg \/ exists ms, e = Sleep ms) (schedule arg i k).
Proof.
  induction k as [|k IH]; intros i; [constructor|].
  change (schedule arg i (S k)) with (attempt arg i ++ schedule arg (S i) k).
  apply Forall_app. split; [|apply IH].
  unfold attempt. constructor; [left; reflexivity|].
  constructor; [right; eexists; reflexivity|constructor].
Qed.

Section Combinator.

Variable A : Type.
Variable arg : JsString.
Variable op : Upstream -> Completion Error A * Upstream.

Lemma retryLoop_shape (remaining i : nat) (lastError : option Error)
      (w : Upstream) (tr : list Event) :
  exists k : nat,
    (snd (snd (retryLoop (invoke arg op) remaining (Z.of_nat i) lastError (w, tr)))
     = tr ++ schedule arg i k ++ [Invoke arg] /\ k < remaining)
    \/ (snd (snd (retryLoop (invoke arg op) remaining (Z.of_nat i) lastError (w, tr)))
        = tr ++ schedule arg i k /\ k <= remaining).
Proof.
  destruct (retryLoop_trace arg op remaining i lastError w tr) as [k [Hk Hspec]].
  exists k.
  destruct (retryLoop (invoke arg op) remaining (Z.of_nat i) lastError (w, tr))
    as [[a|[e|]] [w' tr']]; cbn [fst snd] in *.
  - left. exact Hspec.
  - destruct (isRateLimit e).
    + right. split; [apply Hspec|exact Hk].
    + destruct Hspec as [H|[-> [-> _]]]; [left; exact H|].
      right. split; [|exact Hk]. cbn. rewrite app_nil_r. reflexivity.
  - destruct Hspec as [-> [-> _]]. right. split; [|exact Hk].
    cbn. rewrite app_nil_r. reflexivity.
Qed.

(** X8: whatever the operation does, the combinator calls it at most
    [maxRetries] times (never, when [maxRetries] is not positive), only the
    calls and the delays appear in its trace, each delay lies between 1 and
    10 seconds, and so the time slept is at most 10 seconds per call. *)
Theorem retryWithBackoff_budget (maxRetries : Z) (w : Upstream) :
  (Z.of_nat (calls (trace (retryWithBackoff (invoke arg op) maxRetries) w))
   <= Z.max 0 maxRetries)%Z
  /\ (0 <= slept (trace (retryWithBackoff (invoke arg op) maxRetries) w)
      <= 10000 * Z.of_nat (calls (trace (retryWithBackoff (invoke arg op) maxRetries) w)))%Z
  /\ Forall (fun e => e = Invoke arg \/ exists ms, e = Sleep ms /\ (1000 <= ms <= 10000)%Z)
            (trace (retryWithBackoff (invoke arg op) maxRetries) w).
Proof.
  unfold Async.trace, retryWithBackoff.
  assert (Hev : forall k i,
             Forall (fun e => e = Invoke arg
                              \/ exists ms, e = Sleep ms /\ (1000 <= ms <= 10000)%Z)
                    (schedule arg i k)).
  { induction k as [|k IH]; intros i; [constructor|].
    change (schedule arg i (S k)) with (attempt arg i ++ schedule arg (S i) k).
    apply Forall_app. split; [|apply IH].
    unfold attempt. constructor; [left; reflexivity|].
    constructor; [|constructor]. right. eexists. split; [reflexivity|].
    apply backoff_range. }
  destruct (retryLoop_shape (Z.to_nat maxRetries) 0 None w []) as [k Hshape].
  cbn [Z.of_nat] in Hshape. destruct (schedule_budget arg k 0) as [Hc Hs].
  destruct Hshape as [[-> Hk]|[-> Hk]]; cbn [app].
  - rewrite calls_app, slept_app, Hc. cbn [calls filter List.length slept].
    split; [lia|]. split; [lia|].
    apply Forall_app. split; [apply Hev|]. constructor; [left; reflexivity|constructor].
  - rewrite Hc. split; [lia|]. split; [lia|]. apply Hev.
Qed.

(** X9: the combinator throws [undefined] exactly when [maxRetries] is not
    positive; it has then called nothing, slept nothing and left the service
    untouched (the loop body never ran and [lastError] was never set). *)
Theorem retryWithBackoff_throws_undefined_iff (maxRetries : Z) (w : Upstream) :
  (result (retryWithBackoff (invoke arg op) maxRetries) w = Throw None
   <-> (maxRetries <= 0)%Z)
  /\ ((maxRetries <= 0)%Z ->
      retryWithBackoff (invoke arg op) maxRetries (w, []) = (Throw None, (w, []))).
Proof.
  assert (Hzero : (maxRetries <= 0)%Z ->
                  retryWithBackoff (invoke arg op) maxRetries (w, []) = (Throw None, (w, []))).
  { intros Hle. unfold retryWithBackoff.
    replace (Z.to_nat maxRetries) with 0%nat by lia. reflexivity. }
  split; [|exact Hzero]. split.
  - intros Hres. destruct (Z.leb_spec maxRetries 0) as [Hle|Hpos]; [exact Hle|].
    exfalso. unfold Async.result in Hres.
    destruct (retryLoop_trace arg op (Z.to_nat maxRetries) 0 None w []) as [k [_ Hspec]].
    unfold retryWithBackoff in Hres. cbn [Z.of_nat] in Hspec.
    destruct (retryLoop (invoke arg op) (Z.to_nat maxRetries) 0 None (w, []))
      as [[a|[e|]] [w' tr']]; cbn [fst] in Hres; try discriminate Hres.
    destruct Hspec as [_ [_ [Hz _]]]. lia.
  - intros Hle. unfold Async.result. rewrite (Hzero Hle). reflexivity.
Qed.

End Combinator.

Variable generateContent :
  JsString -> Upstream -> Completion Error GenerateResult * Upstream.

Lemma generateText_trace (prompt : JsString) (s : Upstream * list Event) :
  snd (generateText generateContent prompt s)
  = snd (retryWithBackoff (invoke prompt (generateContent prompt)) 3 s).
Proof.
  unfold generateText, callModel, bind.
  destruct (retryWithBackoff (invoke prompt (generateContent prompt)) 3 s)
    as [[res|e] s']; [|reflexivity].
  destruct (responseText res); reflexivity.
Qed.

Lemma summarizeText_trace (input : JsString) (w : Upstream) :
  trace (summarizeText generateContent input) w
  = trace (retryWithBackoff (invoke (summaryPrompt (substring0 input 8000))
                                    (generateContent (summaryPrompt (substring0 input 8000))))
                            3) w.
Proof.
  unfold Async.trace, summarizeText, bind.
  rewrite <- generateText_trace.
  destruct (generateText generateContent (summaryPrompt (substring0 input 8000)) (w, []))
    as [[t|[e|]] s']; reflexivity.
Qed.

Lemma extractKeyPoints_trace (input : JsString) (w : Upstream) :
  trace (extractKeyPoints generateContent input) w
  = trace (retryWithBackoff (invoke (keyPointsPrompt (substring0 input 6000))
                                    (generateContent (keyPointsPrompt (substring0 input 6000))))
                            3) w.
Proof.
  unfold Async.trace, extractKeyPoints, bind.
  rewrite <- generateText_trace.
  destruct (generateText generateContent (keyPointsPrompt (substring0 input 6000)) (w, []))
    as [[t|[e|]] s']; reflexivity.
Qed.

Lemma default_budget (A : Type) (arg : JsString)
      (op : Upstream -> Completion Error A * Upstream) (w : Upstream) :
  calls (trace (retryWithBackoff (invoke arg op) 3) w) <= 3
  /\ (slept (trace (retryWithBackoff (invoke arg op) 3) w) <= 7000)%Z
  /\ Forall (fun e => e = Invoke arg \/ exists ms, e = Sleep ms)
            (trace (retryWithBackoff (invoke arg op) 3) w).
Proof.
  unfold Async.trace, retryWithBackoff. change (Z.to_nat 3) with 3.
  destruct (retryLoop_shape arg op 3 0 None w []) as [k Hshape].
  cbn [Z.of_nat] in Hshape. destruct (schedule_budget arg k 0) as [Hc Hs].
  destruct Hshape as [[-> Hk]|[-> Hk]]; cbn [app];
    pose proof (@schedule_default arg k ltac:(lia)) as Hd.
  - rewrite calls_app, slept_app, Hc. cbn [calls filter List.length slept].
    split; [lia|]. split; [lia|].
    apply Forall_app. split; [apply schedule_events|].
    constructor; [left; reflexivity|constructor].
  - rewrite Hc. split; [lia|]. split; [lia|]. apply schedule_events.
Qed.

(** X10: whatever the upstream does, [summarizeText] and [extractKeyPoints]
    each call the model at most 3 times and sleep at most 7 seconds in all;
    every call carries the same prompt, which embeds no more than the first
    8000 (6000 for the key points) code units of the text. *)
Theorem client_budget (input : JsString) (w : Upstream) :
  (calls (trace (summarizeText generateContent input) w) <= 3
   /\ (slept (trace (summarizeText generateContent input) w) <= 7000)%Z
   /\ Forall (fun e => e = Invoke (summaryPrompt (substring0 input 8000))
                       \/ exists ms, e = Sleep ms)
             (trace (summarizeText generateContent input) w)
   /\ (Z.of_nat (List.length (summaryPrompt (substring0 input 8000)))
       <= Z.of_nat (List.length (summaryPrompt [])) + 8000)%Z)
  /\ (calls (trace (extractKeyPoints generateContent input) w) <= 3
      /\ (slept (trace (extractKeyPoints generateContent input) w) <= 7000)%Z
      /\ Forall (fun e => e = Invoke (keyPointsPrompt (substring0 input 6000))
                          \/ exists ms, e = Sleep ms)
                (trace (extractKeyPoints generateContent input) w)
      /\ (Z.of_nat (List.length (keyPointsPrompt (substring0 input 6000)))
          <= Z.of_nat (List.length (keyPointsPrompt [])) + 6000)%Z).
Proof.
  rewrite summarizeText_trace, extractKeyPoints_trace.
  split.
  - destruct (@default_budget _ (summaryPrompt (substring0 input 8000))
                (generateContent (summaryPrompt (substring0 input 8000))) w)
      as [Hc [Hs Hev]].
    repeat split; try assumption.
    pose proof (substring0_length input 8000).
    unfold summaryPrompt. rewrite !length_app. cbn [app List.length]. lia.
  - destruct (@default_budget _ (keyPointsPrompt (substring0 input 6000))
                (generateContent (keyPointsPrompt (substring0 input 6000))) w)
      as [Hc [Hs Hev]].
    repeat split; try assumption.
    pose proof (substring0_length input 6000).
    unfold keyPointsPrompt. rewrite !length_app. cbn [app List.length]. lia.
Qed.

(** X11: when the first call of the model resolves, nothing is retried and
    nothing slept: the text of the response is returned as a success, and a
    [response.text()] that throws gives a structured failure with its message,
    even a message of the rate-limit class, since that call sits outside the
    retry loop. *)
Theorem client_first_call_settles (input : JsString) (w w' : Upstream)
        (res : GenerateResult) :
  generateContent (summaryPrompt (substring0 input 8000)) w = (Return res, w') ->
  summarizeText generateContent input (w, [])
  = (Return match responseText res with
            | Return summary =>
                {| success := true; text := Some summary; error := None |}
            | Throw e =>
                {| success := false; text := None;
                   error := Some (orElse (message e) (lit "Failed to generate summary")) |}
            end,
     (w', [Invoke (summaryPrompt (substring0 input 8000))])).
Proof.
  intros Hgen. unfold summarizeText, generateText, callModel, retryWithBackoff, bind.
  change (Z.to_nat 3) with 3. rewrite retryLoop_step, Hgen. cbn [fst snd].
  destruct (responseText res); reflexivity.
Qed.

End BudgetFacts.

(* ================================================================== *)
(** * More on the fetchers *)
(* ================================================================== *)

Section ResultFacts.

Lemma orElse_nonempty (a b : JsString) : b <> [] -> orElse a b <> [].
Proof. destruct a; [auto|discriminate]. Qed.

Lemma firstn_head (n : nat) (l : JsString) (c : CodeUnit) (rest : JsString) :
  firstn n l = c :: rest -> exists rest', l = c :: rest'.
Proof.
  destruct n; [discriminate|]. destruct l as [|a l]; [discriminate|].
  cbn [firstn]. intros [= -> _]. exists l. reflexivity.
Qed.

Lemma cleanAndLimit_head (t : JsString) (m : Z) (c : CodeUnit) (rest : JsString) :
  cleanAndLimit t m = c :: rest -> isWhitespace c = false.
Proof.
  unfold cleanAndLimit, substring0. intros H.
  destruct (firstn_head _ _ H) as [rest' Hrest].
  exact (proj1 (trim_Trimmed (collapseWhitespace t)) c rest' Hrest).
Qed.

Lemma cleaned_text_facts (t : JsString) (m : Z) :
  100 < List.length (cleanAndLimit t m) ->
  (Z.of_nat (List.length (cleanAndLimit t m)) <= m)%Z
  /\ hasWhitespaceRun (cleanAndLimit t m) = false
  /\ (forall c rest, cleanAndLimit t m = c :: rest -> isWhitespace c = false)
  /\ 1 <= List.length (split isWhitespace (cleanAndLimit t m)).
Proof.
  intros Hlen. repeat split.
  - pose proof (substring0_length (trim (collapseWhitespace t)) m) as H.
    fold (cleanAndLimit t m) in H. lia.
  - apply cleanAndLimit_no_whitespace_run.
  - apply cleanAndLimit_head.
  - apply split_length_pos.
Qed.

Lemma extractRendered_wellFormed (page : RenderedPage) (m : Z) (r : Scraped) :
  StealthScraper.extractRendered page m = Some r ->
  WellFormed m r /\ method r = lit "puppeteer-stealth".
Proof.
  unfold StealthScraper.extractRendered.
  destruct (StealthScraper.extractMainText page) as [t|]; [|discriminate].
  destruct (Nat.ltb_spec 100 (List.length (cleanAndLimit t m))) as [Hgt|]; [|discriminate].
  intros [= <-]. destruct (cleaned_text_facts t m Hgt) as [H1 [H2 [H3 H4]]].
  split; [|reflexivity]. unfold WellFormed. cbn [success title text wordCount].
  repeat split; try assumption. apply orElse_nonempty. discriminate.
Qed.

Lemma extractWithCheerio_wellFormed (d : CheerioDoc) (m : Z) (r : Scraped) :
  extractWithCheerio d m = Some r -> WellFormed m r /\ method r = lit "cheerio".
Proof.
  unfold extractWithCheerio.
  set (t := longestText d contentSelectors []).
  destruct (Nat.ltb_spec 100 (List.length (cleanAndLimit t m))) as [Hgt|]; [|discriminate].
  intros [= <-]. destruct (cleaned_text_facts t m Hgt) as [H1 [H2 [H3 H4]]].
  split; [|reflexivity]. unfold WellFormed. cbn [success title text wordCount].
  repeat split; try assumption.
  unfold cheerioTitle. apply orElse_nonempty, orElse_nonempty. discriminate.
Qed.

Lemma longestText_app (d : CheerioDoc) (l1 l2 : list string) :
  forall acc, longestText d (l1 ++ l2) acc = longestText d l2 (longestText d l1 acc).
Proof.
  induction l1 as [|s l1 IH]; intros acc; cbn [app longestText]; [reflexivity|].
  destruct (0 <? selLength d s)%nat; [|apply IH].
  destruct (List.length acc <? List.length (selText d s))%nat; apply IH.
Qed.

Lemma longestText_keeps (d : CheerioDoc) (l : list string) (acc : JsString) :
  (forall s, In s l -> 0 < selLength d s ->
             List.length (selText d s) <= List.length acc) ->
  longestText d l acc = acc.
Proof.
  induction l as [|s l IH]; intros Hall; cbn [longestText]; [reflexivity|].
  assert (Hrest : longestText d l acc = acc).
  { apply IH. intros s' Hin. apply Hall. right; exact Hin. }
  destruct (Nat.ltb_spec 0 (selLength d s)) as [Hpresent|]; [|exact Hrest].
  destruct (Nat.ltb_spec (List.length acc) (List.length (selText d s))) as [Hlt|]; [|exact Hrest].
  pose proof (Hall s (or_introl eq_refl) Hpresent). lia.
Qed.

(** X12: among the selectors that match, the lightweight fetcher keeps the
    text of the first one of greatest length: a later selector replaces the
    text kept only when its text is strictly longer. *)
Theorem longestText_first_of_the_longest (d : CheerioDoc) (pre : list string)
        (sel : string) (post : list string) :
  contentSelectors = pre ++ sel :: post ->
  0 < selLength d sel ->
  (forall s, In s pre -> 0 < selLength d s ->
             List.length (selText d s) < List.length (selText d sel)) ->
  (forall s, In s post -> 0 < selLength d s ->
             List.length (selText d s) <= List.length (selText d sel)) ->
  longestText d contentSelectors [] = selText d sel.
Proof.
  intros Hsplit Hpresent Hpre Hpost.
  rewrite Hsplit, longestText_app. cbn [longestText].
  apply Nat.ltb_lt in Hpresent. rewrite Hpresent.
  assert (Hstep : (if (List.length (longestText d pre [])
                       <? List.length (selText d sel))%nat
                   then longestText d post (selText d sel)
                   else longestText d post (longestText d pre []))
                  = longestText d post (selText d sel)).
  { destruct (Nat.ltb_spec (List.length (longestText d pre []))
                           (List.length (selText d sel))) as [|Hge]; [reflexivity|].
    f_equal. destruct (longestText_spec d pre []) as [_ [_ [Hnil|[s [Hin [Hs Heq]]]]]].
    - rewrite Hnil in Hge |- *. destruct (selText d sel); [reflexivity|cbn in Hge; lia].
    - pose proof (Hpre s Hin Hs). rewrite Heq in Hge. lia. }
  rewrite Hstep. apply longestText_keeps. exact Hpost.
Qed.

End ResultFacts.

Section OutcomeFacts.

Variable World : Type.
Variable parseURL : JsString -> option URL.
Variable maxTextLength : Z.
Variable render : JsString -> World -> option RenderedPage * World.
Variable httpGet : JsString -> World -> option Response * World.

Local Abbreviation scrapeWithPuppeteer :=
  (StealthScraper.scrapeWithPuppeteer maxTextLength render).
Local Abbreviation scrapeWithCheerio :=
  (StealthScraper.scrapeWithCheerio maxTextLength httpGet).
Local Abbreviation scrapeWebsite :=
  (StealthScraper.scrapeWebsite parseURL maxTextLength render httpGet).

Lemma scrapeWithPuppeteer_wellFormed (url : JsString) (s : World * list Event)
      (r : Scraped) :
  fst (scrapeWithPuppeteer url s) = Some r ->
  WellFormed maxTextLength r /\ method r = lit "puppeteer-stealth".
Proof.
  destruct s as [w tr]. rewrite scrapeWithPuppeteer_run. cbn [fst].
  destruct (fst (render url w)) as [page|]; [|discriminate].
  apply extractRendered_wellFormed.
Qed.

Lemma scrapeWithCheerio_wellFormed (url : JsString) (s : World * list Event)
      (r : Scraped) :
  fst (scrapeWithCheerio url s) = Some r ->
  WellFormed maxTextLength r /\ method r = lit "cheerio".
Proof.
  destruct s as [w tr]. rewrite scrapeWithCheerio_run. cbn [fst].
  destruct (fst (httpGet url w)) as [response|]; [|discriminate].
  destruct (negb _); [discriminate|]. destruct (_ || _)%bool; [discriminate|].
  apply extractWithCheerio_wellFormed.
Qed.

Lemma scrapeWithCheerioOnly_wellFormed (url : JsString) (s : World * list Event)
      (r : Scraped) :
  fst (Scraper.scrapeWithCheerio httpGet url s) = Some r ->
  WellFormed Scraper.maxTextLength r /\ method r = lit "cheerio".
Proof.
  destruct s as [w tr]. rewrite scrapeWithCheerioOnly_run. cbn [fst].
  destruct (fst (httpGet url w)) as [response|]; [|discriminate].
  destruct (negb _); [discriminate|]. destruct (_ || _)%bool; [discriminate|].
  apply extractWithCheerio_wellFormed.
Qed.

Lemma scrapeWebsite_content (url : JsString) (s : World * list Event) (r : Scraped) :
  fst (scrapeWebsite url s) = Content r ->
  WellFormed maxTextLength r
  /\ (method r = lit "puppeteer-stealth" \/ method r = lit "cheerio").
Proof.
  unfold StealthScraper.scrapeWebsite.
  destruct (negb (isValidUrl parseURL url)); [discriminate|].
  unfold bind at 1.
  pose proof (scrapeWithPuppeteer_wellFormed url s) as Hp.
  destruct (scrapeWithPuppeteer url s) as [[r1|] s1]; cbn [fst] in *.
  - intros [= <-]. destruct (Hp r1 eq_refl). auto.
  - unfold bind.
    pose proof (scrapeWithCheerio_wellFormed url s1) as Hc.
    destruct (scrapeWithCheerio url s1) as [[r2|] s2]; cbn [fst] in *; [|discriminate].
    intros [= <-]. destruct (Hc r2 eq_refl). auto.
Qed.

Lemma scrapeWebsiteOnly_content (url : JsString) (s : World * list Event) (r : Scraped) :
  fst (Scraper.scrapeWebsite parseURL httpGet url s) = Content r ->
  WellFormed Scraper.maxTextLength r /\ method r = lit "cheerio".
Proof.
  unfold Scraper.scrapeWebsite.
  destruct (negb (isValidUrl parseURL url)); [discriminate|].
  unfold bind.
  pose proof (scrapeWithCheerioOnly_wellFormed url s) as Hc.
  destruct (Scraper.scrapeWithCheerio httpGet url s) as [[r2|] s2]; cbn [fst] in *;
    [|discriminate].
  intros [= <-]. exact (Hc r2 eq_refl).
Qed.

(** X13: every page [scrapeWebsite] returns, in either version, has
    [success] set, a non-empty title, a text of more than 100 and at most
    [maxTextLength] code units that holds no run of whitespace and does not
    start with whitespace, a word count that is the number of pieces of that
    text (at least 1), and a [method] that names the tier that produced it. *)
Theorem scrapeWebsite_content_wellFormed (url : JsString) (w : World) :
  (forall r, result (scrapeWebsite url) w = Content r ->
             WellFormed maxTextLength r
             /\ (method r = lit "puppeteer-stealth" \/ method r = lit "cheerio"))
  /\ (forall r, result (Scraper.scrapeWebsite parseURL httpGet url) w = Content r ->
                WellFormed 10000 r /\ method r = lit "cheerio").
Proof.
  split; intros r H.
  - exact (scrapeWebsite_content url (w, []) H).
  - exact (scrapeWebsiteOnly_content url (w, []) H).
Qed.

(** X14: how the lightweight fetcher treats the status of the response.  In
    the version with the rendering tier, 403, 429 and every status from 500 on
    give [null] whatever the body holds, and any other status, a 404 too, has
    its body scraped.  In the version with the lightweight tier alone only a
    status from 200 to 299 has its body scraped. *)
Theorem scrapeWithCheerio_by_status (url : JsString) (w : World) (response : Response) :
  fst (httpGet url w) = Some response ->
  (((status response = 403 \/ status response = 429 \/ 500 <= status response)%Z ->
    result (scrapeWithCheerio url) w = None)
   /\ ((status response < 500)%Z -> status response <> 403%Z -> status response <> 429%Z ->
       result (scrapeWithCheerio url) w
       = extractWithCheerio (dom response) maxTextLength))
  /\ (((status response < 200 \/ 300 <= status response)%Z ->
       result (Scraper.scrapeWithCheerio httpGet url) w = None)
      /\ ((200 <= status response < 300)%Z ->
          result (Scraper.scrapeWithCheerio httpGet url) w
          = extractWithCheerio (dom response) 10000)).
Proof.
  intros Hresp. unfold Async.result.
  rewrite scrapeWithCheerio_run, scrapeWithCheerioOnly_run, Hresp. cbn [fst].
  unfold StealthScraper.validateStatus, Scraper.validateStatus.
  repeat split.
  - intros H.
    destruct (Z.ltb_spec (status response) 500); cbn [negb]; [|reflexivity].
    destruct (Z.eqb_spec (status response) 403); [reflexivity|].
    destruct (Z.eqb_spec (status response) 429); [reflexivity|]. lia.
  - intros Hlt H403 H429.
    destruct (Z.ltb_spec (status response) 500); [|lia]. cbn [negb].
    destruct (Z.eqb_spec (status response) 403); [contradiction|].
    destruct (Z.eqb_spec (status response) 429); [contradiction|]. reflexivity.
  - intros H.
    destruct (Z.leb_spec 200 (status response)); cbn [andb negb]; [|reflexivity].
    destruct (Z.ltb_spec (status response) 300); cbn [negb]; [lia|reflexivity].
  - intros [Hlo Hhi].
    destruct (Z.leb_spec 200 (status response)); [|lia]. cbn [andb].
    destruct (Z.ltb_spec (status response) 300); [|lia]. cbn [negb].
    destruct (Z.eqb_spec (status response) 403); [lia|].
    destruct (Z.eqb_spec (status response) 429); [lia|]. reflexivity.
Qed.

Lemma firstLongEnough_none_inv (p : RenderedPage) (l : list string) :
  StealthScraper.firstLongEnough p l = None ->
  forall s, In s l -> StealthScraper.longInnerText p s = None.
Proof.
  induction l as [|s l IH]; intros H s' Hin; [destruct Hin|].
  rewrite firstLongEnough_cons in H.
  destruct (StealthScraper.longInnerText p s) eqn:Hs; [discriminate|].
  destruct Hin as [<-|Hin]; [exact Hs|exact (IH H s' Hin)].
Qed.

(** X15: the rendering fetcher returns [null] in exactly three cases: the
    browser session threw; no selector had more than 200 code units of inner
    text and [document.body] was [null], so that the extraction threw; or the
    text, cleaned and cut, had 100 code units or fewer. *)
Theorem scrapeWithPuppeteer_null_iff (url : JsString) (w : World) :
  result (scrapeWithPuppeteer url) w = None
  <-> (fst (render url w) = None
       \/ (exists page,
              fst (render url w) = Some page
              /\ bodyInnerText page = None
              /\ forall s, In s StealthScraper.mainSelectors ->
                           StealthScraper.longInnerText page s = None)
       \/ (exists page t,
              fst (render url w) = Some page
              /\ StealthScraper.extractMainText page = Some t
              /\ List.length (cleanAndLimit t maxTextLength) <= 100)).
Proof.
  unfold Async.result. rewrite scrapeWithPuppeteer_run. cbn [fst].
  destruct (fst (render url w)) as [page|].
  - unfold StealthScraper.extractRendered, StealthScraper.extractMainText.
    destruct (StealthScraper.firstLongEnough page StealthScraper.mainSelectors)
      as [t|] eqn:Hfirst.
    + destruct (Nat.ltb_spec 100 (List.length (cleanAndLimit t maxTextLength))) as [Hgt|Hle].
      * split; [discriminate|].
        intros [H|[[page' [Hp [_ Hall]]]|[page' [t' [Hp [Ht Hle]]]]]].
        -- discriminate H.
        -- injection Hp as <-.
           rewrite (@firstLongEnough_none page _ Hall) in Hfirst. discriminate Hfirst.
        -- injection Hp as <-. unfold StealthScraper.extractMainText in Ht.
           rewrite Hfirst in Ht. injection Ht as <-. lia.
      * split; [|reflexivity]. intros _. right; right. exists page, t.
        repeat split; [|exact Hle].
        unfold StealthScraper.extractMainText. rewrite Hfirst. reflexivity.
    + destruct (bodyInnerText page) as [t|] eqn:Hbody.
      * destruct (Nat.ltb_spec 100 (List.length (cleanAndLimit t maxTextLength)))
          as [Hgt|Hle].
        -- split; [discriminate|].
           intros [H|[[page' [Hp [Hb _]]]|[page' [t' [Hp [Ht Hle]]]]]].
           ++ discriminate H.
           ++ injection Hp as <-. rewrite Hbody in Hb. discriminate Hb.
           ++ injection Hp as <-. unfold StealthScraper.extractMainText in Ht.
              rewrite Hfirst, Hbody in Ht. injection Ht as <-. lia.
        -- split; [|reflexivity]. intros _. right; right. exists page, t.
           repeat split; [|exact Hle].
           unfold StealthScraper.extractMainText. rewrite Hfirst, Hbody. reflexivity.
      * split; [|reflexivity]. intros _. right; left. exists page.
        repeat split; [exact Hbody|]. exact (firstLongEnough_none_inv _ _ Hfirst).
  - split; [auto|reflexivity].
Qed.

End OutcomeFacts.

(* ================================================================== *)
(** * The handler of POST /api/summarize *)
(* ================================================================== *)

Section HandlerFacts.

Import Server.

Variable World : Type.
Variable env : Env.
Variable clock : World -> Z * World.
Variable scrapeWebsite : JsString -> Async.IO World Dom.Event ScrapeResult.
Variable generateContent :
  JsString -> World
  -> Completion GeminiClient.Error GeminiClient.GenerateResult * World.

Local Abbreviation summarize := (Server.summarize env clock scrapeWebsite generateContent).
Local Abbreviation summarizeText := (GeminiClient.summarizeText generateContent).
Local Abbreviation extractKeyPoints := (GeminiClient.extractKeyPoints generateContent).

(** [summarizeText] returns a success with its text, or a failure with a
    non-empty message. *)
Lemma summarizeText_returns (input : JsString) (s : World * list GeminiClient.Event) :
  exists r, fst (summarizeText input s) = Return r
            /\ ((GeminiClient.success r = true /\ GeminiClient.error r = None)
                \/ (GeminiClient.success r = false /\ GeminiClient.text r = None
                    /\ exists m, m <> [] /\ GeminiClient.error r = Some m)).
Proof.
  unfold GeminiClient.summarizeText, bind.
  pose proof (generateText_throws_error generateContent
                (GeminiClient.summaryPrompt (substring0 input 8000)) s) as Hne.
  destruct (GeminiClient.generateText generateContent
              (GeminiClient.summaryPrompt (substring0 input 8000)) s)
    as [[t|[e|]] s']; cbn [fst ret] in *.
  - eexists. split; [reflexivity|]. left. split; reflexivity.
  - eexists. split; [reflexivity|]. right. cbn. repeat split.
    eexists. split; [|reflexivity]. apply orElse_nonempty. discriminate.
  - congruence.
Qed.

(** [extractKeyPoints] returns a success with its text, or a failure whose
    text is empty. *)
Lemma extractKeyPoints_returns (input : JsString) (s : World * list GeminiClient.Event) :
  exists r, fst (extractKeyPoints input s) = Return r
            /\ ((GeminiClient.success r = true /\ exists t, GeminiClient.text r = Some t)
                \/ (GeminiClient.success r = false /\ GeminiClient.text r = Some [])).
Proof.
  unfold GeminiClient.extractKeyPoints, bind.
  pose proof (generateText_throws_error generateContent
                (GeminiClient.keyPointsPrompt (substring0 input 6000)) s) as Hne.
  destruct (GeminiClient.generateText generateContent
              (GeminiClient.keyPointsPrompt (substring0 input 6000)) s)
    as [[t|[e|]] s']; cbn [fst ret] in *.
  - eexists. split; [reflexivity|]. left. split; [reflexivity|]. eexists. reflexivity.
  - eexists. split; [reflexivity|]. right. split; reflexivity.
  - congruence.
Qed.

Ltac hstep := cbn [fst snd negb].

Ltac handler_run :=
  unfold Server.summarize, Server.process, Server.finish,
    Async.result, Async.trace, Async.world, bind, relabel, external, ret;
  cbn [fst snd].

(** The answers of the handler from the scraping on: a 200, or one of two
    errors; nothing there throws. *)
Lemma process_answers (startTime : Z) (u : JsString) (s : World * list Event) :
  (statusCode (fst (Server.process env clock scrapeWebsite generateContent
                      startTime u s)) = 200%Z
   /\ errorCode (fst (Server.process env clock scrapeWebsite generateContent
                        startTime u s)) = None)
  \/ (statusCode (fst (Server.process env clock scrapeWebsite generateContent
                         startTime u s)) = 400%Z
      /\ errorCode (fst (Server.process env clock scrapeWebsite generateContent
                           startTime u s)) = Some (lit "SCRAPING_FAILED"))
  \/ (statusCode (fst (Server.process env clock scrapeWebsite generateContent
                         startTime u s)) = 500%Z
      /\ errorCode (fst (Server.process env clock scrapeWebsite generateContent
                           startTime u s)) = Some (lit "SUMMARIZATION_FAILED")).
Proof.
  handler_run. destruct s as [w1 tr0]. hstep.
  destruct (scrapeWebsite u (w1, [])) as [scraped [w2 trS]].
  destruct (present (scrapedError scraped)); hstep;
    [right; left; split; reflexivity|].
  destruct (clock w2) as [now w3]. hstep.
  destruct (summarizeText_returns (cleanTextOf (scrapedText scraped)) (w3, []))
    as [summary [Hsum _]].
  destruct (summarizeText (cleanTextOf (scrapedText scraped)) (w3, []))
    as [sres [w4 trM]]. cbn [fst] in Hsum. subst sres.
  destruct (present (GeminiClient.error summary)); hstep;
    [right; right; split; reflexivity|].
  destruct (extractKeyPoints_returns (cleanTextOf (scrapedText scraped)) (w4, []))
    as [keyPoints [Hkp _]].
  destruct (extractKeyPoints (cleanTextOf (scrapedText scraped)) (w4, []))
    as [kres [w5 trK]]. cbn [fst] in Hkp. subst kres.
  hstep. destruct (clock w5) as [tEnd w6]. left. split; reflexivity.
Qed.

Local Abbreviation accepted := (Server.accepted env).
Local Abbreviation scraping := (Server.scraping clock scrapeWebsite).
Local Abbreviation cleanedText := (Server.cleanedText clock scrapeWebsite).
Local Abbreviation summarizing := (Server.summarizing clock scrapeWebsite generateContent).
Local Abbreviation extracting := (Server.extracting clock scrapeWebsite generateContent).

Lemma accepted_inv (req : Request) (u : JsString) :
  accepted req = Some u ->
  exists body, requestBody req = Some body /\ url body = Some u
               /\ present (url body) = true /\ present (GEMINI_API_KEY env) = true.
Proof.
  unfold Server.accepted. destruct (requestBody req) as [body|]; [|discriminate].
  destruct (present (url body)) eqn:Hu; [|discriminate].
  destruct (present (GEMINI_API_KEY env)) eqn:Hk; [|discriminate].
  cbn [andb]. intros Heq. exists body. auto.
Qed.

(** X17: a request without [url] (or with an empty one) is answered 400
    MISSING_URL, and one with a [url] on a server without API key 500
    MISSING_API_KEY, in this order; in both cases nothing is scraped and the
    model is not called: the clock was read once and the trace is empty. *)
Theorem summarize_gate (req : Request) (body : Body) (w : World) :
  requestBody req = Some body ->
  (present (url body) = false ->
   summarize req (w, [])
   = ({| statusCode := 400;
         json := ErrorJson (lit "URL is required") (lit "MISSING_URL") None |},
      (snd (clock w), [])))
  /\ (present (url body) = true -> present (GEMINI_API_KEY env) = false ->
      summarize req (w, [])
      = ({| statusCode := 500;
            json := ErrorJson (lit "Server configuration error: API key not configured")
                              (lit "MISSING_API_KEY") None |},
         (snd (clock w), []))).
Proof.
  intros Hbody. handler_run. rewrite Hbody. destruct (clock w) as [t0 w1]. hstep.
  split.
  - intros ->. reflexivity.
  - intros -> ->. reflexivity.
Qed.

(** X18: when the scraper returns an error for an accepted request, the
    handler answers 400 SCRAPING_FAILED with the scraper's own message, and
    the model is never called: the trace holds the events of the scraping and
    nothing else. *)
Theorem summarize_scraping_failed (req : Request) (u e : JsString) (w : World) :
  accepted req = Some u ->
  fst (scraping u w) = Failed e -> truthy e = true ->
  summarize req (w, [])
  = ({| statusCode := 400; json := ErrorJson e (lit "SCRAPING_FAILED") None |},
     (fst (snd (scraping u w)), map Scraping (snd (snd (scraping u w)))))
  /\ modelEvents (trace (summarize req) w) = [].
Proof.
  intros Hacc. destruct (accepted_inv req Hacc) as [body [Hbody [Hurl [Hu Hk]]]].
  unfold Server.scraping. handler_run. rewrite Hbody.
  destruct (clock w) as [t0 w1]. hstep. rewrite Hu, Hk. hstep.
  rewrite Hurl. cbn [orEmpty].
  destruct (scrapeWebsite u (w1, [])) as [scraped [w2 trS]]. hstep.
  intros -> He. cbn [scrapedError present orEmpty]. rewrite He. hstep.
  split; [reflexivity|]. cbn [app].
  unfold modelEvents. clear. induction trS as [|x trS IH]; [reflexivity|exact IH].
Qed.

(** The run of the handler on an accepted request, stage by stage. *)
Lemma summarize_accepted (req : Request) (u : JsString) (w : World) :
  accepted req = Some u ->
  summarize req (w, []) =
  if present (scrapedError (fst (scraping u w)))
  then ({| statusCode := 400;
           json := ErrorJson (orEmpty (scrapedError (fst (scraping u w))))
                             (lit "SCRAPING_FAILED") None |},
        (fst (snd (scraping u w)), map Scraping (snd (snd (scraping u w)))))
  else
    match fst (summarizing u w) with
    | Throw error =>
        (internalError env error,
         (fst (snd (summarizing u w)),
          map Scraping (snd (snd (scraping u w)))
              ++ map Model (snd (snd (summarizing u w)))))
    | Return summary =>
        if present (GeminiClient.error summary)
        then ({| statusCode := 500;
                 json := ErrorJson (lit "Failed to generate summary: "
                                        ++ orEmpty (GeminiClient.error summary))
                                   (lit "SUMMARIZATION_FAILED") None |},
              (fst (snd (summarizing u w)),
               map Scraping (snd (snd (scraping u w)))
                   ++ map Model (snd (snd (summarizing u w)))))
        else
          match fst (extracting u w) with
          | Throw error =>
              (internalError env error,
               (fst (snd (extracting u w)),
                (map Scraping (snd (snd (scraping u w)))
                     ++ map Model (snd (snd (summarizing u w))))
                  ++ map Model (snd (snd (extracting u w)))))
          | Return keyPoints =>
              (summaryResponse
                 (fst (clock (fst (snd (extracting u w)))) - fst (clock w))
                 (fst (scraping u w))
                 (extractMetadata (fst (clock (fst (snd (scraping u w)))))
                                  (cleanedText u w))
                 summary keyPoints,
               (snd (clock (fst (snd (extracting u w)))),
                (map Scraping (snd (snd (scraping u w)))
                     ++ map Model (snd (snd (summarizing u w))))
                  ++ map Model (snd (snd (extracting u w)))))
          end
    end.
Proof.
  intros Hacc. destruct (accepted_inv req Hacc) as [body [Hbody [Hurl [Hu Hk]]]].
  unfold Server.extracting, Server.summarizing, Server.cleanedText, Server.scraping.
  handler_run. rewrite Hbody.
  destruct (clock w) as [t0 w1]. hstep. rewrite Hu, Hk. hstep.
  rewrite Hurl. cbn [orEmpty].
  destruct (scrapeWebsite u (w1, [])) as [scraped [w2 trS]]. hstep.
  destruct (present (scrapedError scraped)); [reflexivity|]. hstep.
  destruct (clock w2) as [now w3]. hstep.
  destruct (summarizeText (cleanTextOf (scrapedText scraped)) (w3, []))
    as [[summary|error] [w4 trM]]; hstep; [|reflexivity].
  destruct (present (GeminiClient.error summary)); [reflexivity|]. hstep.
  destruct (extractKeyPoints (cleanTextOf (scrapedText scraped)) (w4, []))
    as [[keyPoints|error] [w5 trK]]; hstep; [|reflexivity].
  destruct (clock w5) as [tEnd w6]. reflexivity.
Qed.

Lemma summarize_rejected (req : Request) (w : World) :
  accepted req = None ->
  statusCode (result (summarize req) w) <> 200%Z /\ trace (summarize req) w = [].
Proof.
  intros Hacc. unfold Server.accepted in Hacc. handler_run.
  destruct (clock w) as [t0 w1]. hstep.
  destruct (requestBody req) as [body|]; [|split; [discriminate|reflexivity]].
  destruct (present (url body)) eqn:Hu; hstep; [|split; [discriminate|reflexivity]].
  destruct (present (GEMINI_API_KEY env)); hstep; [|split; [discriminate|reflexivity]].
  cbn [andb] in Hacc. destruct (url body); [discriminate Hacc|discriminate Hu].
Qed.

Lemma modelEvents_app (l r : list Event) :
  modelEvents (l ++ r) = modelEvents l ++ modelEvents r.
Proof. unfold modelEvents. apply flat_map_app. Qed.

Lemma modelEvents_scraping (l : list Dom.Event) : modelEvents (map Scraping l) = [].
Proof. induction l as [|x l IH]; [reflexivity|exact IH]. Qed.

Lemma modelEvents_model (l : list GeminiClient.Event) : modelEvents (map Model l) = l.
Proof.
  induction l as [|x l IH]; [reflexivity|].
  cbn [map]. unfold modelEvents in *. cbn [flat_map app]. rewrite IH. reflexivity.
Qed.

Lemma stage_budget (u : JsString) (w : World) :
  (GeminiClient.calls (snd (snd (summarizing u w))) <= 3
   /\ (GeminiClient.slept (snd (snd (summarizing u w))) <= 7000)%Z)
  /\ (GeminiClient.calls (snd (snd (extracting u w))) <= 3
      /\ (GeminiClient.slept (snd (snd (extracting u w))) <= 7000)%Z).
Proof.
  unfold Server.extracting, Server.summarizing. split.
  - change (snd (snd (summarizeText (cleanedText u w)
                        (snd (clock (fst (snd (scraping u w)))), []))))
      with (trace (summarizeText (cleanedText u w))
                  (snd (clock (fst (snd (scraping u w)))))).
    rewrite summarizeText_trace.
    destruct (@default_budget World _
                (GeminiClient.summaryPrompt (substring0 (cleanedText u w) 8000))
                (generateContent
                   (GeminiClient.summaryPrompt (substring0 (cleanedText u w) 8000)))
                (snd (clock (fst (snd (scraping u w)))))) as [Hc [Hs _]].
    split; assumption.
  - set (w4 := fst (snd (summarizeText (cleanedText u w)
                           (snd (clock (fst (snd (scraping u w)))), [])))).
    change (snd (snd (extractKeyPoints (cleanedText u w) (w4, []))))
      with (trace (extractKeyPoints (cleanedText u w)) w4).
    rewrite extractKeyPoints_trace.
    destruct (@default_budget World _
                (GeminiClient.keyPointsPrompt (substring0 (cleanedText u w) 6000))
                (generateContent
                   (GeminiClient.keyPointsPrompt (substring0 (cleanedText u w) 6000)))
                w4) as [Hc [Hs _]].
    split; assumption.
Qed.

(** X19: whatever the request and the world, the handler scrapes before it
    calls the model (the trace is the events of the scraping followed by those
    of the model), and one request costs at most 6 calls of the model and at
    most 14 seconds of backoff. *)
Theorem summarize_order_and_budget (req : Request) (w : World) :
  exists (trS : list Dom.Event) (trM : list GeminiClient.Event),
    trace (summarize req) w = map Scraping trS ++ map Model trM
    /\ GeminiClient.calls trM <= 6
    /\ (GeminiClient.slept trM <= 14000)%Z.
Proof.
  destruct (accepted req) as [u|] eqn:Hacc.
  - unfold Async.trace. rewrite (summarize_accepted req w Hacc).
    destruct (stage_budget u w) as [[Hc1 Hs1] [Hc2 Hs2]].
    exists (snd (snd (scraping u w))).
    destruct (present (scrapedError (fst (scraping u w)))); cbn [snd].
    { exists []. cbn. rewrite app_nil_r. repeat split; lia. }
    destruct (fst (summarizing u w)) as [summary|error]; cbn [snd].
    2:{ exists (snd (snd (summarizing u w))). repeat split; lia. }
    destruct (present (GeminiClient.error summary)); cbn [snd].
    { exists (snd (snd (summarizing u w))). repeat split; lia. }
    exists (snd (snd (summarizing u w)) ++ snd (snd (extracting u w))).
    rewrite calls_app, slept_app.
    destruct (fst (extracting u w)); cbn [snd];
      rewrite map_app, app_assoc; repeat split; lia.
  - exists [], []. split; [|cbn; split; lia].
    exact (proj2 (summarize_rejected req w Hacc)).
Qed.

(** X20: when [summarizeText] reports a failure, the handler answers 500
    SUMMARIZATION_FAILED with the message of the failure behind a fixed
    prefix, and [extractKeyPoints] is not called: the model events of the
    request are those of [summarizeText] alone. *)
Theorem summarize_summarization_failed (req : Request) (u : JsString) (w : World)
        (failure : GeminiClient.SummaryResult) :
  accepted req = Some u ->
  present (scrapedError (fst (scraping u w))) = false ->
  fst (summarizing u w) = Return failure ->
  GeminiClient.success failure = false ->
  exists m : JsString,
    GeminiClient.error failure = Some m
    /\ result (summarize req) w
       = {| statusCode := 500;
            json := ErrorJson (lit "Failed to generate summary: " ++ m)
                              (lit "SUMMARIZATION_FAILED") None |}
    /\ modelEvents (trace (summarize req) w) = snd (snd (summarizing u w)).
Proof.
  intros Hacc Hscr Hsum Hfail.
  unfold Async.result, Async.trace. rewrite (summarize_accepted req w Hacc), Hscr, Hsum.
  unfold Server.summarizing in Hsum.
  destruct (summarizeText_returns (cleanedText u w)
              (snd (clock (fst (snd (scraping u w)))), [])) as [r [Hr Hshape]].
  rewrite Hsum in Hr. injection Hr as <-.
  destruct Hshape as [[Hok _]|[_ [_ [m [Hm Herr]]]]]; [congruence|].
  exists m. split; [exact Herr|]. rewrite Herr. cbn [present orEmpty].
  destruct m as [|c m]; [contradiction|]. cbn [truthy fst snd].
  split; [reflexivity|].
  rewrite modelEvents_app, modelEvents_scraping, modelEvents_model. reflexivity.
Qed.

(** X21: once [summarizeText] has succeeded the request is answered 200,
    whatever [extractKeyPoints] does: its failure is not an error of the
    request, it only leaves the [keyPoints] of the answer empty. *)
Theorem summarize_tolerates_keyPoints_failure (req : Request) (u : JsString) (w : World)
        (summary : GeminiClient.SummaryResult) :
  accepted req = Some u ->
  present (scrapedError (fst (scraping u w))) = false ->
  fst (summarizing u w) = Return summary ->
  GeminiClient.success summary = true ->
  exists keyPoints : GeminiClient.SummaryResult,
    fst (extracting u w) = Return keyPoints
    /\ result (summarize req) w
       = summaryResponse
           (fst (clock (fst (snd (extracting u w)))) - fst (clock w))
           (fst (scraping u w))
           (extractMetadata (fst (clock (fst (snd (scraping u w))))) (cleanedText u w))
           summary keyPoints
    /\ statusCode (result (summarize req) w) = 200%Z
    /\ (GeminiClient.success keyPoints = false ->
        exists title sum meta,
          json (result (summarize req) w) = SummaryJson true title sum [] meta).
Proof.
  intros Hacc Hscr Hsum Hok.
  unfold Async.result. rewrite (summarize_accepted req w Hacc), Hscr, Hsum.
  unfold Server.summarizing in Hsum.
  destruct (summarizeText_returns (cleanedText u w)
              (snd (clock (fst (snd (scraping u w)))), [])) as [r [Hr Hshape]].
  rewrite Hsum in Hr. injection Hr as <-.
  destruct Hshape as [[_ Herr]|[Hfail _]]; [|congruence].
  rewrite Herr. cbn [present].
  destruct (extractKeyPoints_returns (cleanedText u w)
              (fst (snd (summarizing u w)), [])) as [kp [Hkp Hkshape]].
  fold (extracting u w) in Hkp. rewrite Hkp. cbn [fst].
  exists kp. repeat split.
  intros Hkfail. destruct Hkshape as [[Hkok _]|[_ Htext]]; [congruence|].
  unfold summaryResponse. cbn [json]. rewrite Htext. cbn [orEmpty].
  do 3 eexists. reflexivity.
Qed.

End HandlerFacts.

Section RouteFacts.

Import Server.

Variable World : Type.
Variable env : Env.
Variable clock : World -> Z * World.
Variable scrapeWebsite : JsonValue -> Async.IO World Dom.Event ScrapeResult.
Variable generateContent :
  JsString -> World
  -> Completion GeminiClient.Error GeminiClient.GenerateResult * World.

Local Abbreviation postSummarize :=
  (Server.postSummarize env clock scrapeWebsite generateContent).

(** On the requests whose [url] is a string or missing, the route is the
    handler [summarize]. *)
Lemma postSummarize_incoming (req : Request) :
  postSummarize (incoming req)
  = Server.summarize env clock (fun u => scrapeWebsite (JString u)) generateContent req.
Proof.
  destruct req as [[[[u|]]|]]; unfold incoming, Server.postSummarize, Server.summarize;
    cbn [requestBody url option_map valueTruthy printable present negb orEmpty];
    reflexivity.
Qed.

Lemma code_not_internal (code : JsString) :
  eqb code (lit "INTERNAL_ERROR") = false ->
  Some code <> Some (lit "INTERNAL_ERROR").
Proof.
  intros H Heq. injection Heq as ->. vm_compute in H. discriminate H.
Qed.

(** X16: the answers of POST /api/summarize.  Each answer is a 200 with the
    summary or one of five errors, each with its fixed status; and the answer
    is INTERNAL_ERROR in three cases only: the body parser threw, so that the
    global error handler answers; the request has no body; or the [url] is
    truthy, the API key is configured and the [url] has no string form, so
    that the template literal before the scraping throws.  Nothing else the
    handler calls can throw. *)
Theorem postSummarize_answers (request : Incoming) (w : World) :
  ((statusCode (result (postSummarize request) w) = 200%Z
    /\ errorCode (result (postSummarize request) w) = None)
   \/ (statusCode (result (postSummarize request) w) = 400%Z
       /\ errorCode (result (postSummarize request) w) = Some (lit "MISSING_URL"))
   \/ (statusCode (result (postSummarize request) w) = 500%Z
       /\ errorCode (result (postSummarize request) w) = Some (lit "MISSING_API_KEY"))
   \/ (statusCode (result (postSummarize request) w) = 400%Z
       /\ errorCode (result (postSummarize request) w) = Some (lit "SCRAPING_FAILED"))
   \/ (statusCode (result (postSummarize request) w) = 500%Z
       /\ errorCode (result (postSummarize request) w)
          = Some (lit "SUMMARIZATION_FAILED"))
   \/ (statusCode (result (postSummarize request) w) = 500%Z
       /\ errorCode (result (postSummarize request) w) = Some (lit "INTERNAL_ERROR")))
  /\ (errorCode (result (postSummarize request) w) = Some (lit "INTERNAL_ERROR")
      <-> (request = Unparsed
           \/ request = NoBody
           \/ exists value, request = Parsed (Some value)
                            /\ valueTruthy value = true
                            /\ present (GEMINI_API_KEY env) = true
                            /\ printable value = false)).
Proof.
  unfold Server.postSummarize, Async.result.
  destruct request as [| |[value|]].
  - split; [do 5 right; split; reflexivity|].
    split; [intros _; left; reflexivity|reflexivity].
  - unfold bind, external, ret. cbn [fst snd]. destruct (clock w) as [t0 w1].
    split; [do 5 right; split; reflexivity|].
    split; [intros _; right; left; reflexivity|reflexivity].
  - unfold bind, external. cbn [fst snd]. destruct (clock w) as [t0 w1].
    destruct (valueTruthy value) eqn:Htruthy; cbn [negb].
    + destruct (present (GEMINI_API_KEY env)) eqn:Hkey; cbn [negb].
      * destruct (printable value) eqn:Hprint; cbn [negb].
        -- pose proof (@process_answers World env clock (fun _ => scrapeWebsite value)
                         generateContent t0 [] (w1, [])) as Hp.
           split.
           ++ destruct Hp as [Hp|[Hp|Hp]];
                [left|do 3 right; left|do 4 right; left]; exact Hp.
           ++ split.
              ** intros Hcode. exfalso.
                 destruct Hp as [[_ Hp]|[[_ Hp]|[_ Hp]]]; rewrite Hp in Hcode;
                   [discriminate Hcode
                   |revert Hcode; apply code_not_internal; reflexivity
                   |revert Hcode; apply code_not_internal; reflexivity].
              ** intros [Hreq|[Hreq|[v [Hreq [_ [_ Hv]]]]]]; try discriminate Hreq.
                 injection Hreq as <-. congruence.
        -- split; [do 5 right; split; reflexivity|].
           split; [|reflexivity].
           intros _. right; right. exists value. auto.
      * split; [right; right; left; split; reflexivity|].
        split.
        -- intros Hcode. exfalso. revert Hcode. apply code_not_internal. reflexivity.
        -- intros [Hreq|[Hreq|[v [Hreq [_ [Hk _]]]]]]; try discriminate Hreq.
           congruence.
    + split; [right; left; split; reflexivity|].
      split.
      * intros Hcode. exfalso. revert Hcode. apply code_not_internal. reflexivity.
      * intros [Hreq|[Hreq|[v [Hreq [Hv _]]]]]; try discriminate Hreq.
        injection Hreq as <-. congruence.
  - unfold bind, external, ret. cbn [fst snd]. destruct (clock w) as [t0 w1].
    split; [right; left; split; reflexivity|].
    split.
    + intros Hcode. exfalso. revert Hcode. apply code_not_internal. reflexivity.
    + intros [Hreq|[Hreq|[v [Hreq _]]]]; discriminate Hreq.
Qed.

End RouteFacts.

Section EndToEnd.

Import Server.

Variable World : Type.
Variable env : Env.
Variable clock : World -> Z * World.
Variable parseURL : JsString -> option URL.
Variable maxTextLength : Z.
Variable render : JsString -> World -> option RenderedPage * World.
Variable httpGet : JsString -> World -> option Response * World.
Variable generateContent :
  JsString -> World
  -> Completion GeminiClient.Error GeminiClient.GenerateResult * World.

Local Abbreviation scrapeWebsite :=
  (StealthScraper.scrapeWebsite parseURL maxTextLength render httpGet).
Local Abbreviation summarize := (Server.summarize env clock scrapeWebsite generateContent).
Local Abbreviation scraping := (Server.scraping clock scrapeWebsite).
Local Abbreviation cleanedText := (Server.cleanedText clock scrapeWebsite).

Lemma scrapeWebsite_error_truthy (url : JsString) (s : World * list Dom.Event)
      (e : JsString) :
  fst (scrapeWebsite url s) = Failed e -> truthy e = true.
Proof.
  unfold StealthScraper.scrapeWebsite.
  destruct (negb (isValidUrl parseURL url)); [intros [= <-]; reflexivity|].
  unfold bind at 1.
  destruct (StealthScraper.scrapeWithPuppeteer maxTextLength render url s)
    as [[r1|] s1]; [discriminate|].
  unfold bind.
  destruct (StealthScraper.scrapeWithCheerio maxTextLength httpGet url s1)
    as [[r2|] s2]; [discriminate|].
  intros [= <-]. reflexivity.
Qed.

(** X22: what a 200 of the server with the two-tier scraper carries.  The
    request was accepted and scraped to a well-formed page; the title and the
    scraping method of the answer are those of that page; the metadata are
    those of the cleaned text, the text the model was given, so that the
    character count is at most the length of the scraped text and at most
    [maxTextLength], and the word count at least 1. *)
Theorem summarize_success_payload (req : Request) (w : World) :
  statusCode (result (summarize req) w) = 200%Z ->
  exists (u : JsString) (r : Scraped) (sum : option JsString) (kp : JsString)
         (meta : ResponseMetadata),
    Server.accepted env req = Some u
    /\ fst (scraping u w) = Content r
    /\ WellFormed maxTextLength r
    /\ cleanedText u w = cleanText (Dom.text r)
    /\ json (result (summarize req) w)
       = SummaryJson true (Some (Dom.title r)) sum kp meta
    /\ scrapingMethod meta = Some (Dom.method r)
    /\ (Dom.method r = lit "puppeteer-stealth" \/ Dom.method r = lit "cheerio")
    /\ characterCount meta = List.length (cleanText (Dom.text r))
    /\ characterCount meta <= List.length (Dom.text r)
    /\ (Z.of_nat (characterCount meta) <= maxTextLength)%Z
    /\ wordCount meta = List.length (split isWhitespace (cleanText (Dom.text r)))
    /\ 1 <= wordCount meta.
Proof.
  destruct (Server.accepted env req) as [u|] eqn:Hacc.
  2:{ intros H. destruct (@summarize_rejected World env clock scrapeWebsite generateContent req w Hacc)
        as [Hne _]. contradiction. }
  unfold Async.result.
  rewrite (@summarize_accepted World env clock scrapeWebsite generateContent req u w Hacc).
  pose proof (@scrapeWebsite_error_truthy u (snd (clock w), [])) as Herr.
  pose proof (@scrapeWebsite_content World parseURL maxTextLength render httpGet u
                (snd (clock w), [])) as Hwf.
  unfold Server.cleanedText.
  fold (scraping u w) in Herr, Hwf.
  destruct (fst (scraping u w)) as [r|e] eqn:Hscr.
  2:{ cbn [scrapedError present]. rewrite (Herr e eq_refl). cbn. discriminate. }
  cbn [scrapedError present scrapedText cleanTextOf].
  destruct (fst (Server.summarizing clock scrapeWebsite generateContent u w))
    as [summary|error]; [|cbn; discriminate].
  destruct (present (GeminiClient.error summary)); [cbn; discriminate|].
  destruct (fst (Server.extracting clock scrapeWebsite generateContent u w))
    as [keyPoints|error]; [|cbn; discriminate].
  intros _. destruct (Hwf r eq_refl) as [Hr Hmethod].
  pose proof (cleanText_length (Dom.text r)) as Hlen.
  assert (Hmax : (Z.of_nat (List.length (Dom.text r)) <= maxTextLength)%Z) by apply Hr.
  exists u, r. do 3 eexists. cbn [fst summaryResponse json scrapedTitle scrapedMethod].
  split; [reflexivity|]. split; [first [reflexivity | exact Hscr]|]. split; [exact Hr|].
  split; [first [reflexivity | rewrite Hscr; reflexivity]|]. split; [reflexivity|].
  cbn [scrapingMethod characterCount wordCount].
  split; [reflexivity|]. split; [exact Hmethod|].
  change (TextProcessor.characterCount (extractMetadata ?n ?t)) with (List.length t).
  change (TextProcessor.wordCount (extractMetadata ?n ?t))
    with (List.length (split isWhitespace t)).
  split; [reflexivity|]. split; [exact Hlen|]. split; [lia|].
  split; [reflexivity|]. apply split_length_pos.
Qed.

End EndToEnd.

(* ================================================================== *)
(** * The theorems at work on the example worlds *)
(* ================================================================== *)

Section Witnesses.

Import Examples.

Lemma extractMetadata_counts_pure_example :
  validTime 0 /\ validTime 1000
  /\ (extractMetadata 0 (lit "a") = extractMetadata 1000 (lit "a") <-> 0%Z = 1000%Z).
Proof.
  assert (V0 : validTime 0) by (unfold validTime; lia).
  assert (V1 : validTime 1000) by (unfold validTime; lia).
  split; [exact V0|]. split; [exact V1|].
  exact (proj2 (proj2 (proj2 (proj2 (proj2 (proj2
           (extractMetadata_counts_pure (lit "a") 0 1000)))))) V0 V1).
Defined.

Lemma retryWithBackoff_schedule_example :
  GeminiClient.retryWithBackoff (GeminiClient.invoke (lit "prompt") (flaky 2)) 3 (0, [])
  = (Return (GeminiClient.mkResult (Return (lit "A summary."))),
     (3, [GeminiClient.Invoke (lit "prompt"); GeminiClient.Sleep 1000;
          GeminiClient.Invoke (lit "prompt"); GeminiClient.Sleep 2000;
          GeminiClient.Invoke (lit "prompt")])).
Proof.
  apply (proj2 (retryWithBackoff_schedule (lit "prompt") (flaky 2) 3 0)
               (GeminiClient.mkError (lit "[429 Too Many Requests] quota exceeded"))
               (GeminiClient.mkError (lit "[429 Too Many Requests] quota exceeded"))
               (GeminiClient.mkResult (Return (lit "A summary."))) 1 2 3);
    first [reflexivity | lia].
Defined.

Lemma summarize_failure_example :
  GeminiClient.summarizeText (fun _ => refusing) (lit "Some article text.") (0, [])
  = (Return (GeminiClient.mkSummary false None (Some (lit "API key not valid"))),
     (1, [GeminiClient.Invoke
            (GeminiClient.summaryPrompt (lit "Some article text."))]))
  /\ GeminiClient.summarizeText (fun _ => flaky 5) (lit "Some article text.") (0, [])
     = (Return (GeminiClient.mkSummary false None
                  (Some (lit "[429 Too Many Requests] quota exceeded"))),
        (3, GeminiClient.schedule
              (GeminiClient.summaryPrompt (lit "Some article text.")) 0 3)).
Proof.
  split.
  - exact (proj1 (summarize_failure_is_structured (fun _ => refusing)
                    (lit "Some article text.") 0)
             (GeminiClient.mkError (lit "API key not valid")) 1 eq_refl eq_refl).
  - exact (proj1 (proj2 (proj2 (summarize_failure_is_structured (fun _ => flaky 5)
                                  (lit "Some article text.") 0)))
             (GeminiClient.mkError (lit "[429 Too Many Requests] quota exceeded"))
             (GeminiClient.mkError (lit "[429 Too Many Requests] quota exceeded"))
             (GeminiClient.mkError (lit "[429 Too Many Requests] quota exceeded"))
             1 2 3 eq_refl eq_refl eq_refl eq_refl eq_refl eq_refl).
Defined.

Lemma extractMainText_example :
  StealthScraper.extractMainText landingPage = Some (repeat 109%N 201)
  /\ StealthScraper.longInnerText landingPage "body" = Some (repeat 98%N 1000)
  /\ StealthScraper.extractMainText stubPage = Some (lit "Just a moment...").
Proof.
  split; [|split].
  - apply (proj1 (extractMainText_first_over_200 landingPage)
                 [] "main"%string (tl StealthScraper.mainSelectors)).
    + reflexivity.
    + intros s [].
    + reflexivity.
  - reflexivity.
  - apply (proj2 (extractMainText_first_over_200 stubPage)).
    intros s Hin. cbn in Hin.
    repeat (destruct Hin as [<-|Hin]; [reflexivity|]). destruct Hin.
Defined.

Lemma longestText_example :
  ((exists sel, In sel contentSelectors /\ 0 < selLength thinMainDoc sel
                /\ longestText thinMainDoc contentSelectors [] = selText thinMainDoc sel)
   /\ (forall sel, In sel contentSelectors -> 0 < selLength thinMainDoc sel ->
                   List.length (selText thinMainDoc sel)
                   <= List.length (longestText thinMainDoc contentSelectors [])))
  /\ List.length (selText thinMainDoc "main") = 50
  /\ List.length (selText thinMainDoc "body") = 500
  /\ longestText thinMainDoc contentSelectors [] = selText thinMainDoc "body".
Proof.
  split; [|repeat split; reflexivity].
  apply (longestText_is_greatest thinMainDoc).
  exists "main"%string. split; [right; left; reflexivity|]. cbn. lia.
Defined.

Lemma fetchers_need_more_than_100_example :
  (exists r,
      result (StealthScraper.scrapeWithPuppeteer 10000 (renders landingPage) articleUrl) 0
      = Some r /\ 100 < List.length (text r))
  /\ result (StealthScraper.scrapeWithPuppeteer 10000 (renders stubPage) articleUrl) 0 = None
  /\ (exists r,
         result (StealthScraper.scrapeWithCheerio 10000 (serves 200 thinMainDoc) articleUrl) 0
         = Some r /\ 100 < List.length (text r))
  /\ result (StealthScraper.scrapeWithCheerio 10000 (serves 200 stubDoc) articleUrl) 0 = None
  /\ (exists r,
         result (Scraper.scrapeWithCheerio (serves 200 thinMainDoc) articleUrl) 0
         = Some r /\ 100 < List.length (text r))
  /\ result (Scraper.scrapeWithCheerio (serves 200 stubDoc) articleUrl) 0 = None.
Proof.
  pose proof (@fetchers_need_more_than_100 nat 10000 (renders landingPage)
                (serves 200 thinMainDoc) articleUrl 0) as [Hp [_ [Hc [_ [Ho _]]]]].
  pose proof (@fetchers_need_more_than_100 nat 10000 (renders stubPage)
                (serves 200 stubDoc) articleUrl 0) as [_ [Hp' [_ [Hc' [_ Ho']]]]].
  split; [|split; [|split; [|split; [|split]]]].
  - eexists. split; [reflexivity|]. apply Hp. reflexivity.
  - apply (Hp' stubPage (lit "Just a moment...")); [reflexivity|reflexivity|].
    vm_compute. lia.
  - eexists. split; [reflexivity|]. apply Hc. reflexivity.
  - apply (Hc' (mkResponse 200 stubDoc)); [reflexivity|]. vm_compute. lia.
  - eexists. split; [reflexivity|]. apply Ho. reflexivity.
  - apply (Ho' (mkResponse 200 stubDoc)); [reflexivity|]. vm_compute. lia.
Defined.

Lemma scrapeWebsite_fallback_order_example :
  StealthScraper.scrapeWebsite parseScheme 10000 (renders landingPage)
    (serves 200 thinMainDoc) (lit "example.com/article") (0, [])
  = (Failed invalidUrlError, (0, []))
  /\ trace (StealthScraper.scrapeWebsite parseScheme 10000 (renders landingPage)
              (serves 200 thinMainDoc) articleUrl) 0
     = [LaunchBrowser articleUrl]
  /\ trace (StealthScraper.scrapeWebsite parseScheme 10000 renderCrashes
              (serves 200 thinMainDoc) articleUrl) 0
     = [LaunchBrowser articleUrl; HttpGet articleUrl]
  /\ result (StealthScraper.scrapeWebsite parseScheme 10000 renderCrashes
               (serves 403 thinMainDoc) articleUrl) 0
     = Failed StealthScraper.allFailedError.
Proof.
  split; [|split; [|split]].
  - apply (proj1 (@scrapeWebsite_fallback_order nat parseScheme 10000 (renders landingPage)
                    (serves 200 thinMainDoc) (lit "example.com/article") 0)).
    reflexivity.
  - eapply (proj1 (proj2 (@scrapeWebsite_fallback_order nat parseScheme 10000
                            (renders landingPage) (serves 200 thinMainDoc) articleUrl 0))).
    + reflexivity.
    + reflexivity.
  - apply (proj1 (proj2 (proj2 (@scrapeWebsite_fallback_order nat parseScheme 10000
                                  renderCrashes (serves 200 thinMainDoc) articleUrl 0)))).
    + reflexivity.
    + reflexivity.
  - apply (proj2 (proj2 (proj2 (@scrapeWebsite_fallback_order nat parseScheme 10000
                                  renderCrashes (serves 403 thinMainDoc) articleUrl 0)))).
    repeat split; reflexivity.
Defined.

Lemma cleanText_idempotent_on_allowed_example :
  Normalized (cleanText (lit "  two   words. "))
  /\ hasWhitespaceRun (cleanText (lit "  two   words. ")) = false
  /\ cleanText (cleanText (lit "  two   words. ")) = cleanText (lit "  two   words. ").
Proof.
  apply (cleanText_idempotent_on_allowed (s := lit "  two   words. ")).
  repeat (constructor; [reflexivity|]). constructor.
Defined.

Lemma words_of_cleaned_text_example :
  exists words : list JsString,
    words = split isWhitespace (cleanText (lit "a @ b"))
    /\ TextProcessor.wordCount (extractMetadata 0 (cleanText (lit "a @ b")))
       = List.length words
    /\ Forall (fun w => w <> [] /\ Forall (fun c => isWhitespace c = false) w) words.
Proof.
  apply (@words_of_cleaned_text 0 (lit "a @ b")).
  intros H. vm_compute in H. discriminate H.
Defined.

Lemma client_first_call_settles_example :
  GeminiClient.summarizeText (fun _ => flaky 0) (lit "Some article text.") (0, [])
  = (Return (GeminiClient.mkSummary true (Some (lit "A summary.")) None),
     (1, [GeminiClient.Invoke
            (GeminiClient.summaryPrompt (lit "Some article text."))])).
Proof.
  exact (@client_first_call_settles nat (fun _ => flaky 0) (lit "Some article text.")
           0 1 (GeminiClient.mkResult (Return (lit "A summary."))) eq_refl).
Defined.

Lemma longestText_first_of_the_longest_example :
  longestText tiedDoc contentSelectors [] = selText tiedDoc "article"
  /\ List.length (selText tiedDoc "article") = List.length (selText tiedDoc "main").
Proof.
  split; [|reflexivity].
  apply (@longestText_first_of_the_longest tiedDoc [] "article"%string
           (tl contentSelectors)).
  - reflexivity.
  - cbn. lia.
  - intros s [].
  - intros s Hin _. cbn in Hin.
    repeat (destruct Hin as [<-|Hin]; [cbn; lia|]). destruct Hin.
Defined.

Lemma scrapeWebsite_content_wellFormed_example :
  exists r, result (scrapeLanding articleUrl) 0 = Content r
            /\ WellFormed 10000 r
            /\ (method r = lit "puppeteer-stealth" \/ method r = lit "cheerio").
Proof.
  eexists. split; [reflexivity|].
  apply (proj1 (@scrapeWebsite_content_wellFormed nat parseScheme 10000
                  (renders landingPage) (serves 200 thinMainDoc) articleUrl 0)).
  reflexivity.
Defined.

Lemma scrapeWithCheerio_by_status_example :
  result (StealthScraper.scrapeWithCheerio 10000 (serves 404 thinMainDoc) articleUrl) 0
  = extractWithCheerio thinMainDoc 10000
  /\ extractWithCheerio thinMainDoc 10000 <> None
  /\ result (Scraper.scrapeWithCheerio (serves 404 thinMainDoc) articleUrl) 0 = None.
Proof.
  pose proof (@scrapeWithCheerio_by_status nat 10000 (serves 404 thinMainDoc)
                articleUrl 0 (mkResponse 404 thinMainDoc) eq_refl)
    as [[_ Hscraped] [Hnull _]].
  split; [|split].
  - apply Hscraped; cbn; [lia|discriminate|discriminate].
  - vm_compute. discriminate.
  - apply Hnull. cbn. lia.
Defined.

Lemma summarize_gate_example :
  Server.summarize configured tick scrapeLanding (fun _ => flaky 0)
    requestWithoutUrl (0, [])
  = ({| Server.statusCode := 400;
        Server.json := Server.ErrorJson (lit "URL is required") (lit "MISSING_URL") None |},
     (1, []))
  /\ Server.summarize unconfigured tick scrapeLanding (fun _ => flaky 0)
       (requestFor articleUrl) (0, [])
     = ({| Server.statusCode := 500;
           Server.json :=
             Server.ErrorJson (lit "Server configuration error: API key not configured")
                              (lit "MISSING_API_KEY") None |},
        (1, [])).
Proof.
  split.
  - apply (proj1 (@summarize_gate nat configured tick scrapeLanding (fun _ => flaky 0)
                    requestWithoutUrl (Server.mkBody None) 0 eq_refl)).
    reflexivity.
  - apply (proj2 (@summarize_gate nat unconfigured tick scrapeLanding (fun _ => flaky 0)
                    (requestFor articleUrl) (Server.mkBody (Some articleUrl)) 0 eq_refl));
      reflexivity.
Defined.

Lemma summarize_scraping_failed_example :
  Server.summarize configured tick scrapeLanding (fun _ => flaky 0)
    (requestFor (lit "example.com/article")) (0, [])
  = ({| Server.statusCode := 400;
        Server.json := Server.ErrorJson invalidUrlError (lit "SCRAPING_FAILED") None |},
     (1, []))
  /\ Server.modelEvents
       (trace (Server.summarize configured tick scrapeLanding (fun _ => flaky 0)
                 (requestFor (lit "example.com/article"))) 0) = [].
Proof.
  exact (@summarize_scraping_failed nat configured tick scrapeLanding (fun _ => flaky 0)
           (requestFor (lit "example.com/article")) (lit "example.com/article")
           invalidUrlError 0 eq_refl eq_refl eq_refl).
Defined.

Lemma summarize_summarization_failed_example :
  exists m : JsString,
    m = lit "API key not valid"
    /\ result (Server.summarize configured tick scrapeLanding (fun _ => refusing)
                 (requestFor articleUrl)) 0
       = {| Server.statusCode := 500;
            Server.json := Server.ErrorJson (lit "Failed to generate summary: " ++ m)
                                            (lit "SUMMARIZATION_FAILED") None |}.
Proof.
  destruct (@summarize_summarization_failed nat configured tick scrapeLanding
              (fun _ => refusing) (requestFor articleUrl) articleUrl 0
              (GeminiClient.mkSummary false None (Some (lit "API key not valid")))
              eq_refl eq_refl eq_refl eq_refl) as [m [Hm [Hres _]]].
  exists m. split; [|exact Hres]. injection Hm as <-. reflexivity.
Defined.

Lemma summarize_tolerates_keyPoints_failure_example :
  Server.statusCode
    (result (Server.summarize configured tick scrapeLanding summaryOnly
               (requestFor articleUrl)) 0) = 200%Z
  /\ exists title sum meta,
      Server.json
        (result (Server.summarize configured tick scrapeLanding summaryOnly
                   (requestFor articleUrl)) 0)
      = Server.SummaryJson true title sum [] meta.
Proof.
  destruct (@summarize_tolerates_keyPoints_failure nat configured tick scrapeLanding
              summaryOnly (requestFor articleUrl) articleUrl 0
              (GeminiClient.mkSummary true (Some (lit "A summary.")) None)
              eq_refl eq_refl eq_refl eq_refl) as [kp [Hkp [_ [Hstatus Hempty]]]].
  split; [exact Hstatus|]. apply Hempty.
  vm_compute in Hkp. injection Hkp as <-. reflexivity.
Defined.

Lemma summarize_success_payload_example :
  exists (r : Scraped) (meta : Server.ResponseMetadata) (sum : option JsString)
         (kp : JsString),
    Server.json
      (result (Server.summarize configured tick scrapeLanding (fun _ => flaky 0)
                 (requestFor articleUrl)) 0)
    = Server.SummaryJson true (Some (title r)) sum kp meta
    /\ Server.scrapingMethod meta = Some (method r)
    /\ (Z.of_nat (Server.characterCount meta) <= 10000)%Z
    /\ 1 <= Server.wordCount meta.
Proof.
  destruct (@summarize_success_payload nat configured tick parseScheme 10000
              (renders landingPage) (serves 200 thinMainDoc) (fun _ => flaky 0)
              (requestFor articleUrl) 0 eq_refl)
    as [u [r [sum [kp [meta [_ [_ [_ [_ [Hjson [Hm [_ [_ [_ [Hmax [_ Hw]]]]]]]]]]]]]]]].
  exists r, meta, sum, kp. auto.
Defined.

Lemma postSummarize_answers_example :
  Server.errorCode
    (result (Server.postSummarize configured tick scrapeLandingValue (fun _ => flaky 0)
               unprintableUrl) 0) = Some (lit "INTERNAL_ERROR")
  /\ Server.errorCode
       (result (Server.postSummarize configured tick scrapeLandingValue
                  (fun _ => flaky 0) Server.Unparsed) 0) = Some (lit "INTERNAL_ERROR").
Proof.
  split.
  - apply (proj2 (proj2 (@postSummarize_answers nat configured tick scrapeLandingValue
                           (fun _ => flaky 0) unprintableUrl 0))).
    right; right. eexists. split; [reflexivity|]. split; [reflexivity|].
    split; reflexivity.
  - apply (proj2 (proj2 (@postSummarize_answers nat configured tick scrapeLandingValue
                           (fun _ => flaky 0) Server.Unparsed 0))).
    left. reflexivity.
Defined.

End Witnesses.
